(** * Framerly AR engine: tracking core

    A shallow embedding of the tracking core of the Framerly AR engine
    (TypeScript): the classes [PoseFilter] (src/core/PoseFilter.ts),
    [PlaneTracker] (unnamed/part_004), [FramerlyAREngine] for its
    bookkeeping and placement of objects, and [AIConnector], the client
    of the recommendation service (both unnamed/part_005).

    Conventions of the embedding.
    - A JavaScript [number] is an exact rational ([Q]); IEEE rounding, NaN
      and the infinities are not modelled.  Equalities between computed
      numbers are stated with [==] on [Q].  What is proved on this model
      uses the code's own comparisons only.  The values that position
      smoothing returns depend on rounding: they are stated on a second
      embedding of that path in binary64, [Binary64].
    - [performance.now()] is an explicit argument [now]: one reading per
      synchronous call of a public method.
    - The three.js primitives the code calls ([Vector3.distanceTo],
      [Quaternion.slerpQuaternions], [Vector3.applyQuaternion]) are an
      interface, [Three]; every theorem holds for all its instances.
    - A JavaScript [Map] is an insertion-ordered association list
      ([JsMap]); a plain object used as a bag of fields is a [gmap].
    - Heap objects that are handed out by reference ([PlaneData] records,
      returned arrays) live in an explicit store.
    - A registered callback is caller code: the model logs its
      invocations and assumes it returns. *)

From Stdlib Require Import QArith Qabs Qpower Qround Lqa.
From Stdlib Require PrimFloat.
From stdpp Require Import base option list strings pretty gmap.

(** Decimal literals of binary64 values stand for the nearest value, as
    they do in JavaScript. *)
Set Warnings "-inexact-float".

Local Open Scope Q_scope.

(* ================================================================== *)
(** ** Numbers *)

(** [a < b] on JavaScript numbers, as a boolean. *)
Definition Qltb (a b : Q) : bool := negb (Qle_bool b a).

(** [a >= b]. *)
Definition Qgeb (a b : Q) : bool := Qle_bool b a.

(** [x] lies in the closed interval whose ends are [a] and [b]. *)
Definition between (a b x : Q) : Prop :=
  (a <= x /\ x <= b) \/ (b <= x /\ x <= a).

(** JavaScript truthiness of an optional number: [!x] holds for
    [undefined] and for [0]. *)
Definition falsyNumber (x : option Q) : bool :=
  match x with
  | None => true
  | Some t => Qeq_bool t 0
  end.

(* ================================================================== *)
(** ** three.js values *)

Record Vector3 := mkVector3 { vx : Q; vy : Q; vz : Q }.

Record Quaternion := mkQuaternion { qx : Q; qy : Q; qz : Q; qw : Q }.

(** Component-wise numeric equality of vectors. *)
Definition veq (a b : Vector3) : Prop :=
  vx a == vx b /\ vy a == vy b /\ vz a == vz b.

(** The three.js operations used by the tracking core. *)
Class Three := {
  (** [a.distanceTo(b)] *)
  distanceTo : Vector3 -> Vector3 -> Q;
  (** [new Quaternion().slerpQuaternions(qa, qb, t)] *)
  slerpQuaternions : Quaternion -> Quaternion -> Q -> Quaternion;
  (** [v.applyQuaternion(q)] *)
  applyQuaternion : Vector3 -> Quaternion -> Vector3
}.

(* ================================================================== *)
(** ** PoseFilter (src/core/PoseFilter.ts) *)

Module PoseFilter.

Record PoseFilterOptions := mkOptions {
  positionSmoothingFactor : Q;
  rotationSmoothingFactor : Q;
  maxJitterThreshold : Q;
  stabilizationTime : Q
}.

(** [Partial<PoseFilterOptions>]: every field may be left out. *)
Record PartialOptions := mkPartial {
  p_positionSmoothingFactor : option Q;
  p_rotationSmoothingFactor : option Q;
  p_maxJitterThreshold : option Q;
  p_stabilizationTime : option Q
}.

Definition noOptions : PartialOptions := mkPartial None None None None.

(** [{ ...base, ...over }] *)
Definition spreadOptions (base : PoseFilterOptions) (over : PartialOptions)
  : PoseFilterOptions :=
  {| positionSmoothingFactor :=
       default (positionSmoothingFactor base) (p_positionSmoothingFactor over);
     rotationSmoothingFactor :=
       default (rotationSmoothingFactor base) (p_rotationSmoothingFactor over);
     maxJitterThreshold :=
       default (maxJitterThreshold base) (p_maxJitterThreshold over);
     stabilizationTime :=
       default (stabilizationTime base) (p_stabilizationTime over) |}.

Definition defaultOptions : PoseFilterOptions :=
  {| positionSmoothingFactor := 8 # 10;
     rotationSmoothingFactor := 9 # 10;
     maxJitterThreshold := 1 # 100;
     stabilizationTime := 1000 |}.

(** The private fields of the class. *)
Record t := mkPoseFilter {
  options : PoseFilterOptions;
  lastPosition : option Vector3;
  lastRotation : option Quaternion;
  velocityHistory : list Vector3;
  stabilizationStartTime : option Q;
  isStable : bool
}.

(** [new PoseFilter(options)] *)
Definition new (over : PartialOptions) : t :=
  {| options := spreadOptions defaultOptions over;
     lastPosition := None;
     lastRotation := None;
     velocityHistory := [];
     stabilizationStartTime := None;
     isStable := false |}.

(** What [filter] returns. *)
Record Filtered := mkFiltered {
  f_position : Vector3;
  f_rotation : Quaternion;
  f_isStable : bool
}.

Section PoseFilterOps.
Context `{Three}.

(** [smoothPosition] *)
Definition smoothPosition (f : t) (newPosition : Vector3) : Vector3 :=
  match lastPosition f with
  | None => newPosition
  | Some lp =>
      let factor := positionSmoothingFactor (options f) in
      mkVector3 (vx lp * factor + vx newPosition * (1 - factor))
                (vy lp * factor + vy newPosition * (1 - factor))
                (vz lp * factor + vz newPosition * (1 - factor))
  end.

(** [smoothRotation] *)
Definition smoothRotation (f : t) (newRotation : Quaternion)
  : Quaternion :=
  match lastRotation f with
  | None => newRotation
  | Some lr =>
      slerpQuaternions newRotation lr (rotationSmoothingFactor (options f))
  end.

(** [velocityHistory.push(v)], then [shift()] once the length passes 10. *)
Definition pushHistory (h : list Vector3) (delta : Q) : list Vector3 :=
  let h' := h ++ [mkVector3 delta 0 0] in
  if decide (10 < length h')%nat then tail h' else h'.

(** [updateVelocityHistory] *)
Definition updateVelocityHistory (f : t) (delta : Q) : t :=
  {| options := options f;
     lastPosition := lastPosition f;
     lastRotation := lastRotation f;
     velocityHistory := pushHistory (velocityHistory f) delta;
     stabilizationStartTime := stabilizationStartTime f;
     isStable := isStable f |}.

(** [velocityHistory.reduce((sum, v) => sum + v.x, 0)] *)
Definition sumHistory (h : list Vector3) : Q :=
  fold_left (fun sum v => sum + vx v) h 0.

(** [avgVelocity < maxJitterThreshold].  On an empty history JavaScript
    computes [0 / 0], which compares false with everything. *)
Definition isLowVelocity (f : t) : bool :=
  match velocityHistory f with
  | [] => false
  | h => Qltb (sumHistory h / inject_Z (Z.of_nat (length h)))
              (maxJitterThreshold (options f))
  end.

(** [positionDelta < maxJitterThreshold] *)
Definition isLowJitter (f : t) (positionDelta : Q) : bool :=
  Qltb positionDelta (maxJitterThreshold (options f)).

(** [updateStabilityState] *)
Definition updateStabilityState (f : t) (positionDelta currentTime : Q)
  : t :=
  if isLowJitter f positionDelta && isLowVelocity f then
    let start :=
      if falsyNumber (stabilizationStartTime f) then currentTime
      else default currentTime (stabilizationStartTime f) in
    let stabilizationDuration := currentTime - start in
    {| options := options f;
       lastPosition := lastPosition f;
       lastRotation := lastRotation f;
       velocityHistory := velocityHistory f;
       stabilizationStartTime := Some start;
       isStable := Qgeb stabilizationDuration (stabilizationTime (options f)) |}
  else
    {| options := options f;
       lastPosition := lastPosition f;
       lastRotation := lastRotation f;
       velocityHistory := velocityHistory f;
       stabilizationStartTime := None;
       isStable := false |}.

(** [filter(position, rotation)], with the clock reading [now]. *)
Definition filter (f : t) (now : Q) (position : Vector3)
    (rotation : Quaternion) : t * Filtered :=
  match lastPosition f, lastRotation f with
  | Some lp, Some _ =>
      let positionDelta := distanceTo position lp in
      let f1 := updateVelocityHistory f positionDelta in
      let smoothedPosition := smoothPosition f1 position in
      let smoothedRotation := smoothRotation f1 rotation in
      let f2 := updateStabilityState f1 positionDelta now in
      ({| options := options f2;
          lastPosition := Some smoothedPosition;
          lastRotation := Some smoothedRotation;
          velocityHistory := velocityHistory f2;
          stabilizationStartTime := stabilizationStartTime f2;
          isStable := isStable f2 |},
       mkFiltered smoothedPosition smoothedRotation (isStable f2))
  | _, _ =>
      ({| options := options f;
          lastPosition := Some position;
          lastRotation := Some rotation;
          velocityHistory := velocityHistory f;
          stabilizationStartTime := Some now;
          isStable := isStable f |},
       mkFiltered position rotation false)
  end.

(** [reset()] *)
Definition reset (f : t) : t :=
  {| options := options f;
     lastPosition := None;
     lastRotation := None;
     velocityHistory := [];
     stabilizationStartTime := None;
     isStable := false |}.

(** [getStabilityState()] *)
Definition getStabilityState (f : t) : bool := isStable f.

(** [updateOptions(options)] *)
Definition updateOptions (f : t) (over : PartialOptions) : t :=
  {| options := spreadOptions (options f) over;
     lastPosition := lastPosition f;
     lastRotation := lastRotation f;
     velocityHistory := velocityHistory f;
     stabilizationStartTime := stabilizationStartTime f;
     isStable := isStable f |}.

End PoseFilterOps.

End PoseFilter.

(* ================================================================== *)
(** ** JavaScript [Map] with string keys

    Entries are kept in insertion order; [set] on a key that is present
    replaces the value in place, as [Map.prototype.set] does. *)

Module JsMap.

Abbreviation t V := (list (string * V)).

Definition empty {V} : t V := [].

(** [m.get(k)] *)
Fixpoint get {V} (m : t V) (k : string) : option V :=
  match m with
  | [] => None
  | (k', v) :: m' => if decide (k' = k) then Some v else get m' k
  end.

(** [m.has(k)] *)
Definition has {V} (m : t V) (k : string) : bool := bool_decide (is_Some (get m k)).

(** [m.set(k, v)] *)
Fixpoint set {V} (m : t V) (k : string) (v : V) : t V :=
  match m with
  | [] => [(k, v)]
  | (k', v') :: m' =>
      if decide (k' = k) then (k', v) :: m' else (k', v') :: set m' k v
  end.

(** [m.delete(k)] *)
Fixpoint delete {V} (m : t V) (k : string) : t V :=
  match m with
  | [] => []
  | (k', v') :: m' =>
      if decide (k' = k) then delete m' k else (k', v') :: delete m' k
  end.

(** [Array.from(m.keys())] *)
Definition keys {V} (m : t V) : list string := m.*1.

(** [Array.from(m.values())] *)
Definition values {V} (m : t V) : list V := m.*2.

End JsMap.

(* ================================================================== *)
(** ** Shared types (src/types/index.ts) and control flow *)

Inductive TrackingState := NOT_TRACKING | LIMITED | TRACKING.

Inductive Orientation := horizontal | vertical.

Inductive ARMode := FRAME | NEON.

#[global] Instance TrackingState_eq_dec : EqDecision TrackingState.
Proof. solve_decision. Defined.

#[global] Instance Orientation_eq_dec : EqDecision Orientation.
Proof. solve_decision. Defined.

#[global] Instance ARMode_eq_dec : EqDecision ARMode.
Proof. solve_decision. Defined.

Record Pose := mkPose {
  pose_position : Vector3;
  pose_orientation : Quaternion
}.

Record PlaneData := mkPlaneData {
  id : string;
  pose : Pose;
  polygon : list Vector3;
  orientation : Orientation;
  lastUpdate : Q
}.

(** How a call ends: it returns, or an exception propagates. *)
Inductive Completion := Normal | Throw (message : string).

(* ================================================================== *)
(** ** The store

    [PlaneData] records and the arrays returned by the accessors are
    JavaScript objects: they are held by reference, and whoever holds the
    reference can write to them.  The vectors inside a [PlaneData] are
    referenced by that record only (the filter keeps clones), so they are
    stored inline. *)

Abbreviation ref := nat.

Inductive Obj :=
| OPlane (p : PlaneData)
| OArray (elems : list ref).

Abbreviation Heap := (list Obj).

(** Allocation of a new object. *)
Definition alloc (h : Heap) (o : Obj) : Heap * ref := (h ++ [o], length h).

Definition derefPlane (h : Heap) (r : ref) : option PlaneData :=
  match h !! r with
  | Some (OPlane p) => Some p
  | _ => None
  end.

Definition derefArray (h : Heap) (r : ref) : option (list ref) :=
  match h !! r with
  | Some (OArray a) => Some a
  | _ => None
  end.

(* ================================================================== *)
(** ** What the XR runtime supplies on a frame *)

(** [frame.getPose(space, refSpace)] *)
Inductive PoseOutcome :=
| PoseThrows (message : string)
| PoseNull
| PoseOk (position : Vector3) (orientation : Quaternion).

(** One entry of [frame.detectedPlanes].  [generatedId] is what
    [`plane_${Date.now()}_${Math.random()}`] evaluates to for this entry;
    [xrPolygon] is the array [xrPlane.polygon], which the code reads as a
    flat array of numbers. *)
Record XRPlane := mkXRPlane {
  planeId : option string;
  generatedId : string;
  planeSpacePose : PoseOutcome;
  xrPolygon : option (list Q)
}.

(** [frame.getHitTestResults(source)]; each result's [getPose] may be null. *)
Inductive HitTestOutcome :=
| HitTestThrows (message : string)
| HitTestResults (results : list (option Vector3)).

Record XRFrame := mkXRFrame {
  detectedPlanes : option (list XRPlane);
  hitTestResults : HitTestOutcome
}.

(** How [initializeXR] fares with the runtime. *)
Inductive InitOutcome :=
| SessionRefused (message : string)
| ReferenceSpaceRefused (message : string)
| SessionStarted (hitTestAvailable : bool).

(* ================================================================== *)
(** ** PlaneTracker (class [PlaneTracker], unnamed/part_004) *)

Module PlaneTracker.

(** A registered callback, identified by the function that was passed in. *)
Abbreviation Callback := nat.

(** An invocation of a registered callback.  Callbacks are caller code:
    the model records that they were invoked, and with what. *)
Inductive Call :=
| PlaneDetected (cb : Callback) (plane : ref)
| TrackingStateChanged (cb : Callback) (state : TrackingState).

(** The private fields of the class.  For the three XR handles only
    whether they are defined matters. *)
Record t := mkTracker {
  xrSession : bool;
  xrRefSpace : bool;
  hitTestSource : bool;
  planes : JsMap.t ref;
  poseFilter : PoseFilter.t;
  trackingState : TrackingState;
  onPlaneDetectedCallback : option Callback;
  onTrackingStateChangedCallback : option Callback
}.

(** The tracker, the store it allocates in, and the callback invocations
    made so far (oldest first). *)
Record World := mkWorld {
  heap : Heap;
  tracker : t;
  calls : list Call
}.

(** [new PlaneTracker()] *)
Definition new : t :=
  {| xrSession := false;
     xrRefSpace := false;
     hitTestSource := false;
     planes := JsMap.empty;
     poseFilter := PoseFilter.new PoseFilter.noOptions;
     trackingState := NOT_TRACKING;
     onPlaneDetectedCallback := None;
     onTrackingStateChangedCallback := None |}.

(** A new tracker in an empty store, before any callback was invoked. *)
Definition initial : World := mkWorld [] new [].

(** Field assignments. *)
Definition setPlanes (m : JsMap.t ref) (tr : t) : t :=
  mkTracker (xrSession tr) (xrRefSpace tr) (hitTestSource tr) m
            (poseFilter tr) (trackingState tr)
            (onPlaneDetectedCallback tr) (onTrackingStateChangedCallback tr).

Definition setPoseFilter (f : PoseFilter.t) (tr : t) : t :=
  mkTracker (xrSession tr) (xrRefSpace tr) (hitTestSource tr) (planes tr)
            f (trackingState tr)
            (onPlaneDetectedCallback tr) (onTrackingStateChangedCallback tr).

Definition setTrackingState (s : TrackingState) (tr : t) : t :=
  mkTracker (xrSession tr) (xrRefSpace tr) (hitTestSource tr) (planes tr)
            (poseFilter tr) s
            (onPlaneDetectedCallback tr) (onTrackingStateChangedCallback tr).

Definition setHandles (session refSpace source : bool) (tr : t) : t :=
  mkTracker session refSpace source (planes tr)
            (poseFilter tr) (trackingState tr)
            (onPlaneDetectedCallback tr) (onTrackingStateChangedCallback tr).

(** [cb?.(arg)]: the invocation is recorded when a callback is registered. *)
Definition invoke {A} (cb : option Callback) (mk : Callback -> A -> Call)
    (arg : A) (log : list Call) : list Call :=
  match cb with
  | Some c => log ++ [mk c arg]
  | None => log
  end.

(** [updateTrackingState(newState)] *)
Definition updateTrackingState (newState : TrackingState) (w : World) : World :=
  if decide (trackingState (tracker w) = newState) then w
  else
    mkWorld (heap w)
            (setTrackingState newState (tracker w))
            (invoke (onTrackingStateChangedCallback (tracker w))
                    TrackingStateChanged newState (calls w)).

(** [new Vector3(x, y, z)] with [x] and [z] read out of an array: an
    argument that is [undefined] takes the constructor's default, 0. *)
Definition vectorOfEntries (x z : option Q) : Vector3 :=
  mkVector3 (default 0 x) 0 (default 0 z).

(** The [for] loop of [extractPlanePolygon] from the test of its
    condition, with [i] the loop variable: the points it pushes.
    [fuel] bounds the rounds. *)
Fixpoint polygonLoop (coordinates : list Q) (fuel i : nat) : list Vector3 :=
  match fuel with
  | O => []
  | S fuel' =>
      if decide (i < length coordinates)%nat then
        vectorOfEntries (coordinates !! i) (coordinates !! (i + 1)%nat)
          :: polygonLoop coordinates fuel' (i + 2)
      else []
  end.

(** [extractPlanePolygon(xrPlane)].  A loop that advances by two over
    an array ends within as many rounds as the array is long. *)
Definition extractPlanePolygon (xrPlane : XRPlane) : list Vector3 :=
  match xrPolygon xrPlane with
  | Some coordinates => polygonLoop coordinates (length coordinates) 0
  | None =>
      let size := 2 in
      [ mkVector3 (- size / 2) 0 (- size / 2);
        mkVector3 (size / 2) 0 (- size / 2);
        mkVector3 (size / 2) 0 (size / 2);
        mkVector3 (- size / 2) 0 (size / 2) ]
  end.

(** [xrPlane.planeId || `plane_...`]: the empty string is falsy too. *)
Definition planeIdOf (xrPlane : XRPlane) : string :=
  match planeId xrPlane with
  | Some s => if decide (s = EmptyString) then generatedId xrPlane else s
  | None => generatedId xrPlane
  end.

(** [now - plane.lastUpdate > timeout] with [timeout = 10000], for the
    record behind reference [r].  The map holds references to records
    only; the last case is there for totality. *)
Definition isStale (now : Q) (h : Heap) (r : ref) : bool :=
  match derefPlane h r with
  | Some plane => Qltb 10000 (now - lastUpdate plane)
  | None => false
  end.

(** [cleanupOldPlanes()]: the loop over [planes.entries()]. *)
Definition cleanupEntries (now : Q) (h : Heap) (entries : list (string * ref))
    (m : JsMap.t ref) : JsMap.t ref :=
  fold_left (fun m e => if isStale now h (snd e) then JsMap.delete m (fst e) else m)
            entries m.

Definition cleanupOldPlanes (now : Q) (w : World) : World :=
  mkWorld (heap w)
          (setPlanes (cleanupEntries now (heap w) (planes (tracker w))
                                     (planes (tracker w)))
                     (tracker w))
          (calls w).

Section WithThree.
Context `{Three}.

(** The body of [detectedPlanes.forEach(...)] in [updatePlaneDetection]. *)
Definition ingestPlane (now : Q) (xrPlane : XRPlane) (w : World)
  : World * Completion :=
  let planeId := planeIdOf xrPlane in
  match planeSpacePose xrPlane with
  | PoseThrows msg => (w, Throw msg)
  | PoseNull => (w, Normal)
  | PoseOk position orientation =>
      let '(pf, filtered) :=
        PoseFilter.filter (poseFilter (tracker w)) now position orientation in
      let normal :=
        applyQuaternion (mkVector3 0 0 1) (PoseFilter.f_rotation filtered) in
      let isVertical := Qltb (Qabs (vy normal)) (1 # 2) in
      let planeData :=
        {| id := planeId;
           pose := mkPose (PoseFilter.f_position filtered)
                          (PoseFilter.f_rotation filtered);
           polygon := extractPlanePolygon xrPlane;
           orientation := if isVertical then vertical else horizontal;
           lastUpdate := now |} in
      let '(h, r) := alloc (heap w) (OPlane planeData) in
      let tr := setPoseFilter pf (tracker w) in
      match JsMap.get (planes tr) planeId with
      | None =>
          (mkWorld h (setPlanes (JsMap.set (planes tr) planeId r) tr)
                   (invoke (onPlaneDetectedCallback tr) PlaneDetected r (calls w)),
           Normal)
      | Some _ =>
          (mkWorld h (setPlanes (JsMap.set (planes tr) planeId r) tr) (calls w),
           Normal)
      end
  end.

(** [detectedPlanes.forEach(...)]: an exception ends the loop. *)
Fixpoint forEachPlane (now : Q) (xrPlanes : list XRPlane) (w : World)
  : World * Completion :=
  match xrPlanes with
  | [] => (w, Normal)
  | xrPlane :: rest =>
      match ingestPlane now xrPlane w with
      | (w', Normal) => forEachPlane now rest w'
      | (w', Throw msg) => (w', Throw msg)
      end
  end.

(** [updatePlaneDetection(frame)] *)
Definition updatePlaneDetection (now : Q) (frame : XRFrame) (w : World)
  : World * Completion :=
  match detectedPlanes frame with
  | None => (w, Normal)
  | Some xrPlanes =>
      match forEachPlane now xrPlanes w with
      | (w', Normal) => (cleanupOldPlanes now w', Normal)
      | (w', Throw msg) => (w', Throw msg)
      end
  end.

End WithThree.

(** [updateHitTest(frame)] *)
Definition updateHitTest (frame : XRFrame) (w : World) : World * Completion :=
  if negb (hitTestSource (tracker w)) then (w, Normal)
  else
    match hitTestResults frame with
    | HitTestThrows msg => (w, Throw msg)
    | HitTestResults results =>
        if decide (0 < length results)%nat
        then (updateTrackingState TRACKING w, Normal)
        else (updateTrackingState LIMITED w, Normal)
    end.

(** [Array.from(this.planes.values())], with the records read from the
    store. *)
Definition planeRecords (w : World) : list PlaneData :=
  omap (derefPlane (heap w)) (JsMap.values (planes (tracker w))).

(** [now - plane.lastUpdate < 5000] *)
Definition isActive (now : Q) (plane : PlaneData) : bool :=
  Qltb (now - lastUpdate plane) 5000.

(** The planes [updateTrackingStability] calls active. *)
Definition activePlanes (now : Q) (w : World) : list PlaneData :=
  base.filter (fun plane => isActive now plane = true) (planeRecords w).

(** The value [updateTrackingStability] passes to [updateTrackingState]. *)
Definition stabilityOf (active : list PlaneData) : TrackingState :=
  if decide (length active = 0%nat) then NOT_TRACKING
  else if existsb (fun plane => bool_decide (orientation plane = vertical)) active
       then TRACKING
       else LIMITED.

(** [updateTrackingStability()] *)
Definition updateTrackingStability (now : Q) (w : World) : World :=
  updateTrackingState (stabilityOf (activePlanes now w)) w.

Section WithThree.
Context `{Three}.

(** [update(frame, renderer)] *)
Definition update (now : Q) (frame : XRFrame) (w : World) : World :=
  if negb (xrSession (tracker w)) || negb (xrRefSpace (tracker w)) then w
  else
    match updatePlaneDetection now frame w with
    | (w1, Throw _) => updateTrackingState LIMITED w1
    | (w1, Normal) =>
        match updateHitTest frame w1 with
        | (w2, Throw _) => updateTrackingState LIMITED w2
        | (w2, Normal) => updateTrackingStability now w2
        end
    end.

End WithThree.

(** [hitTest(x, y, frame)] *)
Definition hitTest (x y : Q) (frame : XRFrame) (w : World) : option Vector3 :=
  if negb (xrSession (tracker w)) || negb (xrRefSpace (tracker w))
     || negb (hitTestSource (tracker w))
  then None
  else
    match hitTestResults frame with
    | HitTestThrows _ => None
    | HitTestResults [] => None
    | HitTestResults (hit :: _) => hit
    end.

(** [onSessionEnd()] *)
Definition onSessionEnd (w : World) : World :=
  updateTrackingState NOT_TRACKING
    (mkWorld (heap w)
             (setPlanes JsMap.empty (setHandles false false false (tracker w)))
             (calls w)).

(** [initializeXR()], given what the runtime answers. *)
Definition initializeXR (outcome : InitOutcome) (w : World) : World * Completion :=
  match outcome with
  | SessionRefused msg => (w, Throw msg)
  | ReferenceSpaceRefused msg =>
      (mkWorld (heap w)
               (setHandles true (xrRefSpace (tracker w))
                           (hitTestSource (tracker w)) (tracker w))
               (calls w),
       Throw msg)
  | SessionStarted hitTestAvailable =>
      (updateTrackingState LIMITED
         (mkWorld (heap w)
                  (setHandles true true
                     (if hitTestAvailable then true
                      else hitTestSource (tracker w))
                     (tracker w))
                  (calls w)),
       Normal)
  end.

(** What [this.xrSession.end()] leads to.  The tracker hears of the end
    of its session only through the ['end'] listener that [initializeXR]
    adds once the reference space and the hit-test source are set up: a
    session whose reference space was refused has none.  Calling [end()] on a session that has ended
    rejects. *)
Inductive EndOutcome :=
| EndHandled
| EndUnhandled
| EndRejects (message : string).

(** [endSession()] *)
Definition endSession (outcome : EndOutcome) (w : World) : World * Completion :=
  if xrSession (tracker w) then
    match outcome with
    | EndHandled => (onSessionEnd w, Normal)
    | EndUnhandled => (w, Normal)
    | EndRejects msg => (w, Throw msg)
    end
  else (w, Normal).

(** [getDetectedPlanes()]: a new array holding the references stored in
    the map. *)
Definition getDetectedPlanes (w : World) : World * ref :=
  let '(h, r) := alloc (heap w) (OArray (JsMap.values (planes (tracker w)))) in
  (mkWorld h (tracker w) (calls w), r).

(** [getTrackingState()] *)
Definition getTrackingState (w : World) : TrackingState :=
  trackingState (tracker w).

(** [onPlaneDetected(callback)] *)
Definition onPlaneDetected (cb : Callback) (w : World) : World :=
  mkWorld (heap w)
          (mkTracker (xrSession (tracker w)) (xrRefSpace (tracker w))
                     (hitTestSource (tracker w)) (planes (tracker w))
                     (poseFilter (tracker w)) (trackingState (tracker w))
                     (Some cb) (onTrackingStateChangedCallback (tracker w)))
          (calls w).

(** [onTrackingStateChanged(callback)] *)
Definition onTrackingStateChanged (cb : Callback) (w : World) : World :=
  mkWorld (heap w)
          (mkTracker (xrSession (tracker w)) (xrRefSpace (tracker w))
                     (hitTestSource (tracker w)) (planes (tracker w))
                     (poseFilter (tracker w)) (trackingState (tracker w))
                     (onPlaneDetectedCallback (tracker w)) (Some cb))
          (calls w).

End PlaneTracker.

(* ================================================================== *)
(** ** FramerlyAREngine (class [FramerlyAREngine], unnamed/part_005):
    placed objects *)

Module FramerlyAREngine.

(** The values held in the fields of a [FrameData] or [NeonData]. *)
Inductive JsValue :=
| VUndefined
| VBoolean (b : bool)
| VNumber (q : Q)
| VString (s : string)
| VVector3 (v : Vector3)
| VEuler (x y z : Q).

(** A [FrameData | NeonData], or a [Partial] of one: its own fields. *)
Abbreviation JsObject := (gmap string JsValue).

(** [{ ...object, ...updates }] *)
Definition spread (object updates : JsObject) : JsObject := updates ∪ object.

(** The value of the enum member, as stored in a [type] field. *)
Definition modeValue (m : ARMode) : JsValue :=
  match m with
  | FRAME => VString "frame"
  | NEON => VString "neon"
  end.

(** [object.type === ARMode.FRAME] *)
Definition isFrame (object : JsObject) : bool :=
  match object !! "type" with
  | Some (VString s) => bool_decide (s = "frame")
  | _ => false
  end.

(** Calls made on the renderer. *)
Inductive RendererCall :=
| UpdateFrame (frameData : JsObject)
| UpdateNeon (neonData : JsObject)
| RemoveObject (objectId : string) (type : option JsValue).

(** The fields of the class that placement bookkeeping touches, and the
    renderer calls made so far (oldest first). *)
Record t := mkEngine {
  currentMode : ARMode;
  arObjects : JsMap.t JsObject;
  rendered : list RendererCall
}.

(** The engine as its constructor leaves it. *)
Definition new : t := mkEngine FRAME JsMap.empty [].

(** [setMode(mode)] *)
Definition setMode (mode : ARMode) (e : t) : t :=
  if decide (currentMode e = mode) then e
  else mkEngine mode (arObjects e) (rendered e).

(** [getMode()] *)
Definition getMode (e : t) : ARMode := currentMode e.

(** [getPlacedObjects()] *)
Definition getPlacedObjects (e : t) : list JsObject := JsMap.values (arObjects e).

(** The message of the error [updateObject] throws. *)
Definition notFound (objectId : string) : string :=
  "Object with ID " +:+ objectId +:+ " not found".

Section WithRenderer.
(** How a renderer call ends.  The renderer is a collaborator: whether
    one of its methods throws is its business. *)
Variable renderer : RendererCall -> Completion.

(** [updateObject(objectId, updates)] *)
Definition updateObject (objectId : string) (updates : JsObject) (e : t)
  : t * Completion :=
  match JsMap.get (arObjects e) objectId with
  | None => (e, Throw (notFound objectId))
  | Some object =>
      let updatedObject := spread object updates in
      let call :=
        if isFrame object
        then UpdateFrame updatedObject
        else UpdateNeon updatedObject in
      (mkEngine (currentMode e)
                (JsMap.set (arObjects e) objectId updatedObject)
                (rendered e ++ [call]),
       renderer call)
  end.

(** [removeObject(objectId)] *)
Definition removeObject (objectId : string) (e : t) : t * Completion :=
  match JsMap.get (arObjects e) objectId with
  | None => (e, Normal)
  | Some object =>
      let call := RemoveObject objectId (object !! "type") in
      match renderer call with
      | Normal =>
          (mkEngine (currentMode e)
                    (JsMap.delete (arObjects e) objectId)
                    (rendered e ++ [call]),
           Normal)
      | Throw msg =>
          (mkEngine (currentMode e) (arObjects e) (rendered e ++ [call]),
           Throw msg)
      end
  end.

End WithRenderer.

End FramerlyAREngine.

(** A raw sample handed to [filter], with the clock reading of the call. *)
Record Sample := mkSample {
  s_now : Q;
  s_position : Vector3;
  s_rotation : Quaternion
}.

(* ================================================================== *)
(** ** A rational instance of the three.js interface

    Used to run the model on concrete inputs.  [distanceTo] is exact
    whenever the squared distance is the square of a rational;
    [applyQuaternion] is the polynomial three.js evaluates; and
    [slerpQuaternions] follows three.js on its exact branches ([t = 0],
    [t = 1], coinciding rotations) and blends linearly elsewhere. *)

Definition Qsqrt (q : Q) : Q :=
  Z.sqrt (Qnum q * Zpos (Qden q)) # Qden q.

Definition distanceToQ (a b : Vector3) : Q :=
  let dx := vx a - vx b in
  let dy := vy a - vy b in
  let dz := vz a - vz b in
  Qsqrt (Qred (dx * dx + dy * dy + dz * dz)).

Definition applyQuaternionQ (v : Vector3) (q : Quaternion) : Vector3 :=
  let tx := 2 * (qy q * vz v - qz q * vy v) in
  let ty := 2 * (qz q * vx v - qx q * vz v) in
  let tz := 2 * (qx q * vy v - qy q * vx v) in
  mkVector3 (vx v + qw q * tx + qy q * tz - qz q * ty)
            (vy v + qw q * ty + qz q * tx - qx q * tz)
            (vz v + qw q * tz + qx q * ty - qy q * tx).

Definition slerpQuaternionsQ (qa qb : Quaternion) (t : Q) : Quaternion :=
  if Qeq_bool t 0 then qa
  else if Qeq_bool t 1 then qb
  else
    let cosHalfTheta :=
      qw qa * qw qb + qx qa * qx qb + qy qa * qy qb + qz qa * qz qb in
    if Qle_bool 1 cosHalfTheta then qa
    else mkQuaternion (qx qa * (1 - t) + qx qb * t)
                      (qy qa * (1 - t) + qy qb * t)
                      (qz qa * (1 - t) + qz qb * t)
                      (qw qa * (1 - t) + qw qb * t).

Definition rationalThree : Three :=
  {| distanceTo := distanceToQ;
     slerpQuaternions := slerpQuaternionsQ;
     applyQuaternion := applyQuaternionQ |}.

(** Sample inputs. *)
Definition identityQuaternion : Quaternion := mkQuaternion 0 0 0 1.

Definition origin : Vector3 := mkVector3 0 0 0.

Definition unitX : Vector3 := mkVector3 1 0 0.

(** A wall seen at (1,0,0) and a floor seen at the origin: planes of the
    XR runtime, whose normal is the local z axis. *)
Definition wallPlane : XRPlane :=
  mkXRPlane (Some "p1") "plane_1000_0.25" (PoseOk unitX identityQuaternion) None.

Definition floorRotation : Quaternion := mkQuaternion (3 # 5) 0 0 (4 # 5).

Definition floorPlane : XRPlane :=
  mkXRPlane (Some "p2") "plane_1000_0.75" (PoseOk origin floorRotation) None.

(** A second surface, seen at the origin. *)
Definition originPlane : XRPlane :=
  mkXRPlane (Some "p3") "plane_1000_0.5" (PoseOk origin identityQuaternion) None.

(** A frame with the given planes and no hit-test result. *)
Definition frameOf (xrPlanes : list XRPlane) : XRFrame :=
  mkXRFrame (Some xrPlanes) (HitTestResults []).

(** A frame without planes whose hit test finds a point. *)
Definition frameWithHit : XRFrame :=
  mkXRFrame (Some []) (HitTestResults [Some unitX]).

(** A tracker with a state callback registered and its session started. *)
Definition startedWorld : PlaneTracker.World :=
  (PlaneTracker.initializeXR (SessionStarted true)
     (PlaneTracker.onTrackingStateChanged 7 PlaneTracker.initial)).1.

(** The same after a frame at time 1000 that shows the wall, and after
    one that shows the floor. *)
Definition worldWithWall : PlaneTracker.World :=
  @PlaneTracker.update rationalThree 1000 (frameOf [wallPlane]) startedWorld.

Definition worldWithFloor : PlaneTracker.World :=
  @PlaneTracker.update rationalThree 1000 (frameOf [floorPlane]) startedWorld.

(** The session of [worldWithWall] ended and a new one started. *)
Definition restartedWorld : PlaneTracker.World :=
  (PlaneTracker.initializeXR (SessionStarted true)
     (PlaneTracker.onSessionEnd worldWithWall)).1.

(** The wall's record with its classification overwritten. *)
Definition flippedWall : PlaneData :=
  mkPlaneData "p1" (mkPose unitX identityQuaternion)
              (PlaneTracker.extractPlanePolygon wallPlane) horizontal 1000.

(** Two calls of [filter] with the pose at rest: the first when the clock
    reads 0, the second a full stabilization window later. *)
Definition restAtZero : list Sample :=
  [ mkSample 0 origin identityQuaternion;
    mkSample 1000 origin identityQuaternion ].

(** The same two calls with the clock reading 5 at the first. *)
Definition restAtFive : list Sample :=
  [ mkSample 5 origin identityQuaternion;
    mkSample 1005 origin identityQuaternion ].

(** A frame as [createFrameData] builds it from the default
    recommendation, and an engine that holds it. *)
Definition exampleFrame : FramerlyAREngine.JsObject :=
  list_to_map
    [ ("id", FramerlyAREngine.VString "frame_1");
      ("type", FramerlyAREngine.VString "frame");
      ("position", FramerlyAREngine.VVector3 unitX);
      ("rotation", FramerlyAREngine.VEuler 0 0 0);
      ("scale", FramerlyAREngine.VVector3 (mkVector3 1 1 1));
      ("isPlaced", FramerlyAREngine.VBoolean true);
      ("lastUpdate", FramerlyAREngine.VNumber 1700000000000);
      ("artworkUrl", FramerlyAREngine.VString "https://example.com/sample-artwork.jpg");
      ("frameStyle", FramerlyAREngine.VString "modern");
      ("frameColor", FramerlyAREngine.VString "#000000");
      ("matColor", FramerlyAREngine.VString "#ffffff");
      ("width", FramerlyAREngine.VNumber (4 # 10));
      ("height", FramerlyAREngine.VNumber (6 # 10)) ].

Definition engineWithFrame : FramerlyAREngine.t :=
  FramerlyAREngine.mkEngine FRAME [("frame_1", exampleFrame)] [].

(** A renderer none of whose methods throws. *)
Definition quietRenderer (call : FramerlyAREngine.RendererCall) : Completion :=
  Normal.

(** A default filter after its first call, made at time 0 at the origin. *)
Definition filterAtOrigin : PoseFilter.t :=
  (@PoseFilter.filter rationalThree (PoseFilter.new PoseFilter.noOptions)
                      0 origin identityQuaternion).1.

(* ================================================================== *)
(** ** The stabilization clock, as specified

    The first call of a fresh filter starts the clock.  A later call is a
    low-motion call when both its displacement and the mean of the rolling
    history are below the jitter threshold.  A low-motion call keeps a
    running clock and starts a cleared one at its own time; any other
    call clears the clock.  The pose is stable on a low-motion call whose
    clock has run for at least the stabilization window. *)

Module StabilitySpec.

(** One call after the first: its clock reading and whether it is a
    low-motion call. *)
Record Tick := mkTick { tick_now : Q; tick_low : bool }.

(** The clock after a call. *)
Definition clockAfter (clock : option Q) (tk : Tick) : option Q :=
  if tick_low tk then Some (default (tick_now tk) clock) else None.

(** Whether the call reports a stable pose. *)
Definition stableAt (window : Q) (clock : option Q) (tk : Tick) : bool :=
  tick_low tk && Qgeb (tick_now tk - default (tick_now tk) clock) window.

(** The stability flags reported by a run of calls, given the clock
    before the run. *)
Fixpoint stableRun (window : Q) (clock : option Q) (tks : list Tick) : list bool :=
  match tks with
  | [] => []
  | tk :: rest =>
      stableAt window clock tk :: stableRun window (clockAfter clock tk) rest
  end.

End StabilitySpec.

(** The filter has had its first call. *)
Definition initialised (f : PoseFilter.t) : Prop :=
  is_Some (PoseFilter.lastPosition f) /\ is_Some (PoseFilter.lastRotation f).

(** The recorded start time, when there is one, is not zero. *)
Definition startNonzero (f : PoseFilter.t) : Prop :=
  forall t, PoseFilter.stabilizationStartTime f = Some t -> ~ t == 0.

Section FilterRuns.
Context `{Three}.

(** Whether a call of [filter] on an initialised filter is a low-motion
    call: the displacement and the mean the code computes for it. *)
Definition lowMotion (f : PoseFilter.t) (s : Sample) : bool :=
  match PoseFilter.lastPosition f with
  | None => false
  | Some lp =>
      let delta := distanceTo (s_position s) lp in
      let f1 := PoseFilter.updateVelocityHistory f delta in
      PoseFilter.isLowJitter f1 delta && PoseFilter.isLowVelocity f1
  end.

(** Successive calls of [filter]: the final filter and what each call
    returned. *)
Fixpoint filterRun (f : PoseFilter.t) (samples : list Sample)
  : PoseFilter.t * list PoseFilter.Filtered :=
  match samples with
  | [] => (f, [])
  | s :: rest =>
      let '(f1, out) := PoseFilter.filter f (s_now s) (s_position s) (s_rotation s) in
      let '(f2, outs) := filterRun f1 rest in
      (f2, out :: outs)
  end.

(** The ticks the specification sees in the same calls. *)
Fixpoint ticksOf (f : PoseFilter.t) (samples : list Sample)
  : list StabilitySpec.Tick :=
  match samples with
  | [] => []
  | s :: rest =>
      StabilitySpec.mkTick (s_now s) (lowMotion f s)
      :: ticksOf (fst (PoseFilter.filter f (s_now s) (s_position s) (s_rotation s))) rest
  end.

End FilterRuns.

(* ================================================================== *)
(** ** Runs of tracker operations, and what their callers see *)

Module TrackerRuns.
Import PlaneTracker.

(** The operations a session performs on the tracker. *)
Inductive Op :=
| OpInitializeXR (outcome : InitOutcome)
| OpUpdate (now : Q) (frame : XRFrame)
| OpSessionEnd
| OpEndSession (outcome : EndOutcome)
| OpOnPlaneDetected (cb : Callback)
| OpOnTrackingStateChanged (cb : Callback)
| OpGetDetectedPlanes.

Section WithThree.
Context `{Three}.

Definition runOp (op : Op) (w : World) : World :=
  match op with
  | OpInitializeXR outcome => fst (initializeXR outcome w)
  | OpUpdate now frame => update now frame w
  | OpSessionEnd => onSessionEnd w
  | OpEndSession outcome => fst (endSession outcome w)
  | OpOnPlaneDetected cb => onPlaneDetected cb w
  | OpOnTrackingStateChanged cb => onTrackingStateChanged cb w
  | OpGetDetectedPlanes => fst (getDetectedPlanes w)
  end.

Definition runOps (ops : list Op) (w : World) : World :=
  fold_left (fun w op => runOp op w) ops w.

End WithThree.

(** The values passed to the tracking-state callback, oldest first. *)
Definition notifiedStates (log : list Call) : list TrackingState :=
  omap (fun c => match c with
                 | TrackingStateChanged _ s => Some s
                 | PlaneDetected _ _ => None
                 end) log.

(** [vs] lists the successive values of a variable that starts at [from]
    and ends at [to], each different from the one before it. *)
Fixpoint transitions (from : TrackingState) (vs : list TrackingState)
    (to : TrackingState) : Prop :=
  match vs with
  | [] => to = from
  | v :: rest => v <> from /\ transitions v rest to
  end.

(** From [w] to [w'] the values passed to the tracking-state callback are
    the successive values of the tracking state, and a callback is still
    registered. *)
Definition reported (w w' : World) : Prop :=
  is_Some (onTrackingStateChangedCallback (tracker w'))
  /\ exists vs,
       notifiedStates (calls w') = notifiedStates (calls w) ++ vs
       /\ transitions (trackingState (tracker w)) vs (trackingState (tracker w')).

(** From [w] to [w'] the tracking state did not change and its callback
    was not invoked. *)
Definition quiet (w w' : World) : Prop :=
  trackingState (tracker w') = trackingState (tracker w)
  /\ notifiedStates (calls w') = notifiedStates (calls w)
  /\ (is_Some (onTrackingStateChangedCallback (tracker w)) ->
      is_Some (onTrackingStateChangedCallback (tracker w'))).

(** The pose the registry holds for a surface identifier. *)
Definition poseOf (w : World) (planeId : string) : option Pose :=
  r ← JsMap.get (planes (tracker w)) planeId;
  plane ← derefPlane (heap w) r;
  Some (pose plane).

(** What a caller reads from a call of [getDetectedPlanes()]: the records
    behind the elements of the returned array. *)
Definition snapshot (w : World) : list PlaneData :=
  let '(w', arr) := getDetectedPlanes w in
  match derefArray (heap w') arr with
  | Some elems => omap (derefPlane (heap w')) elems
  | None => []
  end.

(** What the two accessors show. *)
Definition observe (w : World) : list PlaneData * TrackingState :=
  (snapshot w, getTrackingState w).

(** What the holder of a returned array can do with it: change the array
    itself (assign an element, [push], [pop], [splice], set [length]), or
    write to a field of the record behind one of its elements. *)
Inductive Mutation :=
| SetArray (elems : list ref)
| SetElementRecord (index : nat) (record : PlaneData).

Definition mutate (arr : ref) (h : Heap) (m : Mutation) : Heap :=
  match derefArray h arr with
  | None => h
  | Some elems =>
      match m with
      | SetArray elems' => <[arr := OArray elems']> h
      | SetElementRecord index record =>
          match elems !! index with
          | None => h
          | Some r =>
              match derefPlane h r with
              | Some _ => <[r := OPlane record]> h
              | None => h
              end
          end
      end
  end.

(** The world after the caller has applied [ms] to the array [arr]. *)
Definition mutateAll (arr : ref) (ms : list Mutation) (w : World) : World :=
  mkWorld (fold_left (mutate arr) ms (heap w)) (tracker w) (calls w).

(** The maps the registry builds hold each key once. *)
Definition keysUnique (w : World) : Prop :=
  NoDup (JsMap.keys (planes (tracker w))).

End TrackerRuns.

(* ================================================================== *)
(** ** Runs of filter operations *)

(** What the owner of a [PoseFilter] can call on it. *)
Inductive FilterOp :=
| DoFilter (now : Q) (position : Vector3) (rotation : Quaternion)
| DoReset
| DoUpdateOptions (over : PoseFilter.PartialOptions).

Section FilterOps.
Context `{Three}.

Definition runFilterOp (f : PoseFilter.t) (op : FilterOp) : PoseFilter.t :=
  match op with
  | DoFilter now position rotation => (PoseFilter.filter f now position rotation).1
  | DoReset => PoseFilter.reset f
  | DoUpdateOptions over => PoseFilter.updateOptions f over
  end.

Definition runFilterOps (ops : list FilterOp) (f : PoseFilter.t) : PoseFilter.t :=
  fold_left runFilterOp ops f.

End FilterOps.

(* ================================================================== *)
(** ** Invariants of the registry *)

(** Every key of the plane map leads to a record in the store, and that
    record carries the key as its [id]. *)
Definition recordsUnderKeys (w : PlaneTracker.World) : Prop :=
  forall k r,
    (k, r) ∈ PlaneTracker.planes (PlaneTracker.tracker w) ->
    exists p, derefPlane (PlaneTracker.heap w) r = Some p /\ id p = k.

(** The store of [w'] is the store of [w] with objects added at the end. *)
Definition storeExtends (w w' : PlaneTracker.World) : Prop :=
  exists added, PlaneTracker.heap w' = PlaneTracker.heap w ++ added.

(** None of the planes of a frame makes [getPose] throw. *)
Definition posesReturn (xrPlanes : list XRPlane) : Prop :=
  Forall (fun xrPlane => forall msg, planeSpacePose xrPlane <> PoseThrows msg) xrPlanes.

(** The frame lets [update] run to its end: no pose throws, and neither
    does the hit test when there is a hit-test source. *)
Definition frameReturns (frame : XRFrame) (w : PlaneTracker.World) : Prop :=
  (forall xrPlanes, detectedPlanes frame = Some xrPlanes -> posesReturn xrPlanes)
  /\ (PlaneTracker.hitTestSource (PlaneTracker.tracker w) = true ->
      forall msg, hitTestResults frame <> HitTestThrows msg).

(** The registry holds surface [k], and its record is stamped [now]. *)
Definition heldSince (now : Q) (w : PlaneTracker.World) (k : string) : Prop :=
  exists r record,
    JsMap.get (PlaneTracker.planes (PlaneTracker.tracker w)) k = Some r
    /\ derefPlane (PlaneTracker.heap w) r = Some record
    /\ lastUpdate record = now
    /\ id record = k.

(* ================================================================== *)
(** ** FramerlyAREngine: placing objects

    [placeObject] is asynchronous: it fixes the identifier and the kind
    of the object, waits for the recommendation service, and then stores
    the object in whatever state the engine is in by then.  The two
    halves are [placeObjectStart] and [placeObjectFinish]. *)

(** A [FrameRecommendation] as it reaches [createFrameData].  The service
    is not trusted to fill the fields: each is any value, and
    [suggestedSize] may be missing altogether. *)
Record FrameRecommendation := mkFrameRecommendation {
  frameStyle : FramerlyAREngine.JsValue;
  frameColor : FramerlyAREngine.JsValue;
  matColor : FramerlyAREngine.JsValue;
  suggestedSize : option (FramerlyAREngine.JsValue * FramerlyAREngine.JsValue);
  frameReasoning : FramerlyAREngine.JsValue
}.

(** A [NeonRecommendation] as it reaches [createNeonData]. *)
Record NeonRecommendation := mkNeonRecommendation {
  neonText : FramerlyAREngine.JsValue;
  neonColor : FramerlyAREngine.JsValue;
  glowIntensity : FramerlyAREngine.JsValue;
  fontSize : FramerlyAREngine.JsValue;
  neonPlacement : FramerlyAREngine.JsValue;
  neonReasoning : FramerlyAREngine.JsValue
}.

Module Placement.
Import FramerlyAREngine.

(** What placing an object does outside the engine's own fields. *)
Inductive Effect :=
| CreateFrame (frameData : JsObject)
| CreateNeonSign (neonData : JsObject)
| ObjectPlaced (cb : nat) (object : JsObject)
| ErrorReported (cb : nat) (message : string).

(** The engine with its two placement callbacks, and the effects so far
    (oldest first). *)
Record t := mkPlacement {
  core : FramerlyAREngine.t;
  onObjectPlacedCallback : option nat;
  onErrorCallback : option nat;
  effects : list Effect
}.

(** The string value of an [ARMode]. *)
Definition modeString (m : ARMode) : string :=
  match m with
  | FRAME => "frame"
  | NEON => "neon"
  end.

(** [`${this.currentMode}_${Date.now()}_${Math.random()...}`], given the
    decimal rendering of the clock and the random suffix. *)
Definition objectIdOf (m : ARMode) (stamp suffix : string) : string :=
  modeString m +:+ "_" +:+ stamp +:+ "_" +:+ suffix.

(** What [placeObject] has fixed when it starts to wait. *)
Record Pending := mkPending {
  pendingMode : ARMode;
  pendingId : string;
  pendingPosition : Vector3;
  pendingRotation : option (Q * Q * Q)
}.

(** [placeObject] up to its [await]. *)
Definition placeObjectStart (stamp suffix : string) (position : Vector3)
    (rotation : option (Q * Q * Q)) (e : t) : Pending :=
  mkPending (currentMode (core e))
            (objectIdOf (currentMode (core e)) stamp suffix)
            position rotation.

(** [rotation ? rotation.clone() : new Euler(0, 0, 0)] *)
Definition eulerOf (rotation : option (Q * Q * Q)) : JsValue :=
  match rotation with
  | Some (x, y, z) => VEuler x y z
  | None => VEuler 0 0 0
  end.

(** The recommendation [createFrameData] falls back on. *)
Definition defaultFrameRecommendation : FrameRecommendation :=
  mkFrameRecommendation (VString "modern") (VString "#000000") (VString "#ffffff")
                        (Some (VNumber (4 # 10), VNumber (6 # 10))) VUndefined.

(** The recommendation [createNeonData] falls back on. *)
Definition defaultNeonRecommendation : NeonRecommendation :=
  mkNeonRecommendation (VString "Welcome") (VString "#00FFFF") (VNumber 2)
                       (VNumber 48) VUndefined VUndefined.

(** The message of the [TypeError] raised by reading a property of
    [undefined]. *)
Definition undefinedRead (property : string) : string :=
  "Cannot read properties of undefined (reading '" +:+ property +:+ "')".

(** [createFrameData(id, position, rotation)], given the answer of the
    service and the reading of [Date.now()]. *)
Definition createFrameData (objectId : string) (position : Vector3)
    (rotation : option (Q * Q * Q)) (nowDate : Q)
    (recommendations : list FrameRecommendation) : JsObject + string :=
  let recommendation := default defaultFrameRecommendation (head recommendations) in
  match suggestedSize recommendation with
  | None => inr (undefinedRead "width")
  | Some (width, height) =>
      inl (list_to_map
             [ ("id", VString objectId);
               ("type", VString (modeString FRAME));
               ("position", VVector3 position);
               ("rotation", eulerOf rotation);
               ("scale", VVector3 (mkVector3 1 1 1));
               ("isPlaced", VBoolean true);
               ("lastUpdate", VNumber nowDate);
               ("artworkUrl", VString "https://example.com/sample-artwork.jpg");
               ("frameStyle", frameStyle recommendation);
               ("frameColor", frameColor recommendation);
               ("matColor", matColor recommendation);
               ("width", width);
               ("height", height) ])
  end.

(** [createNeonData(id, position, rotation)] *)
Definition createNeonData (objectId : string) (position : Vector3)
    (rotation : option (Q * Q * Q)) (nowDate : Q)
    (recommendations : list NeonRecommendation) : JsObject :=
  let recommendation := default defaultNeonRecommendation (head recommendations) in
  list_to_map
    [ ("id", VString objectId);
      ("type", VString (modeString NEON));
      ("position", VVector3 position);
      ("rotation", eulerOf rotation);
      ("scale", VVector3 (mkVector3 1 1 1));
      ("isPlaced", VBoolean true);
      ("lastUpdate", VNumber nowDate);
      ("text", neonText recommendation);
      ("color", neonColor recommendation);
      ("glowIntensity", glowIntensity recommendation);
      ("fontSize", fontSize recommendation);
      ("fontFamily", VString "Arial, sans-serif") ].

(** How [placeObject] ends: with the identifier, or with the error it
    rethrows. *)
Inductive Outcome :=
| Placed (objectId : string)
| Failed (message : string).

(** [this.onErrorCallback?.(error)] *)
Definition reportError (message : string) (e : t) : t :=
  match onErrorCallback e with
  | Some cb =>
      mkPlacement (core e) (onObjectPlacedCallback e) (onErrorCallback e)
                  (effects e ++ [ErrorReported cb message])
  | None => e
  end.

Section WithRenderer.
(** How [createFrame] and [createNeonSign] of the renderer end. *)
Variable creates : Effect -> Completion.

(** The three statements [placeObject] runs once it has the data:
    [arObjects.set], the renderer's create method, the placed callback. *)
Definition storeAndShow (objectId : string) (data : JsObject) (create : Effect)
    (e : t) : t * Outcome :=
  let stored :=
    mkEngine (currentMode (core e))
             (JsMap.set (arObjects (core e)) objectId data)
             (rendered (core e)) in
  match creates create with
  | Throw msg =>
      (reportError msg
         (mkPlacement stored (onObjectPlacedCallback e) (onErrorCallback e)
                      (effects e ++ [create])),
       Failed msg)
  | Normal =>
      (mkPlacement stored (onObjectPlacedCallback e) (onErrorCallback e)
                   (effects e ++ [create]
                      ++ match onObjectPlacedCallback e with
                         | Some cb => [ObjectPlaced cb data]
                         | None => []
                         end),
       Placed objectId)
  end.

(** [placeObject] from its [await] on, in the engine as it is then, given
    what the service answered to the request that was made and the
    reading of [Date.now()]. *)
Definition placeObjectFinish (p : Pending)
    (frameAnswer : list FrameRecommendation) (neonAnswer : list NeonRecommendation)
    (nowDate : Q) (e : t) : t * Outcome :=
  match pendingMode p with
  | FRAME =>
      match createFrameData (pendingId p) (pendingPosition p) (pendingRotation p)
                            nowDate frameAnswer with
      | inr msg => (reportError msg e, Failed msg)
      | inl frameData => storeAndShow (pendingId p) frameData (CreateFrame frameData) e
      end
  | NEON =>
      let neonData :=
        createNeonData (pendingId p) (pendingPosition p) (pendingRotation p)
                       nowDate neonAnswer in
      storeAndShow (pendingId p) neonData (CreateNeonSign neonData) e
  end.

(** [placeObject] when nothing else runs while it waits. *)
Definition placeObject (stamp suffix : string) (position : Vector3)
    (rotation : option (Q * Q * Q))
    (frameAnswer : list FrameRecommendation) (neonAnswer : list NeonRecommendation)
    (nowDate : Q) (e : t) : t * Outcome :=
  placeObjectFinish (placeObjectStart stamp suffix position rotation e)
                    frameAnswer neonAnswer nowDate e.

End WithRenderer.

(** The frame [handleTap] hands to [hitTest]: the number returned by
    [session.requestAnimationFrame], on which [getHitTestResults] is not
    a function. *)
Definition frameOfHandle (handle : nat) : XRFrame :=
  mkXRFrame None (HitTestThrows "frame.getHitTestResults is not a function").

(** [handleTap(x, y)]; [place] is what [placeObject] would do with the
    hit position. *)
Definition handleTap {A} (place : Vector3 -> option A) (x y : Q) (handle : nat)
    (w : PlaneTracker.World) : option A :=
  if negb (PlaneTracker.xrSession (PlaneTracker.tracker w)) then None
  else
    match PlaneTracker.hitTest x y (frameOfHandle handle) w with
    | Some hitPosition => place hitPosition
    | None => None
    end.

End Placement.

(** Sample inputs for placement. *)
Definition quietCreates (create : Placement.Effect) : Completion := Normal.

Definition emptyPlacement : Placement.t :=
  Placement.mkPlacement FramerlyAREngine.new (Some 1%nat) (Some 2%nat) [].

(** A renderer whose create methods throw. *)
Definition failingCreates (create : Placement.Effect) : Completion :=
  Throw "WebGL context lost".

Definition placementWithFrame : Placement.t :=
  Placement.mkPlacement engineWithFrame (Some 1%nat) (Some 2%nat) [].

(* ================================================================== *)
(** ** AIConnector (unnamed/part_005)

    The client of the recommendation service that [createFrameData] and
    [createNeonData] ask.  The network, the clock and the browser are
    outside the class: what [fetch] does on each attempt, the readings
    of [Date.now()] and whether building the request throws are
    arguments of the model.  A call is modelled as running to its end
    before the next call on the same connector starts; [console.warn]
    is not modelled; recommendation objects are treated as values (the
    arrays handed out share their elements with the cache). *)

Module AIConnector.

(** What [response.json()] resolves with.  A [JObject] lists the own
    properties of the parsed object. *)
#[warnings="-register-all"] Inductive Json :=
| JNull
| JBoolean (b : bool)
| JNumber (q : Q)
| JString (s : string)
| JArray (items : list Json)
| JObject (fields : list (string * Json)).

(** A value read out of a response; [None] is [undefined]. *)
Abbreviation Value := (option Json).

(** [v.name], for a [name] that no built-in prototype defines.  The
    outer [None] is the TypeError raised when [v] is [undefined] or
    [null]. *)
Definition prop (v : Value) (name : string) : option Value :=
  match v with
  | None | Some JNull => None
  | Some (JObject fields) => Some (JsMap.get fields name)
  | Some _ => Some None
  end.

(** JavaScript truthiness. *)
Definition truthy (v : Value) : bool :=
  match v with
  | None | Some JNull => false
  | Some (JBoolean b) => b
  | Some (JNumber q) => negb (Qeq_bool q 0)
  | Some (JString s) => negb (bool_decide (s = ""))
  | Some (JArray _) | Some (JObject _) => true
  end.

(** [s.includes(sub)] *)
Fixpoint includes (s sub : string) : bool :=
  String.prefix sub s
  || match s with
     | EmptyString => false
     | String _ s' => includes s' sub
     end.

(** What a [catch] clause of the class can receive: a [TypeError], an
    error of another class ([Error], [SyntaxError], [DOMException]), or
    [undefined]. *)
Inductive Thrown :=
| TypeError (message : string)
| OtherError (message : string)
| ThrownUndefined.

Inductive Settled (A : Type) :=
| Resolved (a : A)
| Rejected (error : Thrown).
Arguments Resolved {A} a.
Arguments Rejected {A} error.

(** *** Configuration *)

Record APIConfig := mkAPIConfig {
  baseUrl : string;
  apiKey : string;
  timeout : Q;
  maxRetries : Q
}.

(** A [Partial<APIConfig>]: each key is absent or holds a value of its
    type. *)
Record PartialAPIConfig := mkPartialAPIConfig {
  partialBaseUrl : option string;
  partialApiKey : option string;
  partialTimeout : option Q;
  partialMaxRetries : option Q
}.

(** [value || fallback] on an optional string. *)
Definition orString (value : option string) (fallback : string) : string :=
  match value with
  | Some s => if bool_decide (s = "") then fallback else s
  | None => fallback
  end.

(** [value || fallback] on an optional number. *)
Definition orNumber (value : option Q) (fallback : Q) : Q :=
  if falsyNumber value then fallback else default fallback value.

(** [{ ...config, ...newConfig }] *)
Definition spreadConfig (config : APIConfig) (newConfig : PartialAPIConfig)
    : APIConfig :=
  mkAPIConfig (default (baseUrl config) (partialBaseUrl newConfig))
              (default (apiKey config) (partialApiKey newConfig))
              (default (timeout config) (partialTimeout newConfig))
              (default (maxRetries config) (partialMaxRetries newConfig)).

(** The object literal of the constructor: the four defaulted fields,
    then [...config]. *)
Definition configOf (config : PartialAPIConfig) : APIConfig :=
  spreadConfig
    (mkAPIConfig (orString (partialBaseUrl config) "https://api.framerly.com/v1")
                 (orString (partialApiKey config) "demo-key")
                 (orNumber (partialTimeout config) 5000)
                 (orNumber (partialMaxRetries config) 3))
    config.

(** *** Requests *)

(** How one round of the retry loop ends. *)
Inductive Attempt :=
| FetchRejects (error : Thrown)
| NotOk (status : N) (statusText : string)
| BodyRejects (error : Thrown)
| Ok (body : Json).

(** What a request does outside the connector, oldest first. *)
Inductive Event :=
| Fetch (url : string)
| Delay (ms : Q).

(** The body the [try] block of the loop returns, or the error its
    [catch] clause receives. *)
Definition attemptResult (a : Attempt) : Json + Thrown :=
  match a with
  | FetchRejects error => inr error
  | NotOk status statusText =>
      inr (OtherError ("API request failed: " +:+ pretty status +:+ " "
                         +:+ statusText))
  | BodyRejects error => inr error
  | Ok body => inl body
  end.

(** [error instanceof TypeError && error.message.includes('4')] *)
Definition rethrown (error : Thrown) : bool :=
  match error with
  | TypeError message => includes message "4"
  | _ => false
  end.

(** [Math.pow(2, attempt) * 1000] *)
Definition backoff (attempt : nat) : Q := 2 ^ Z.of_nat attempt * 1000.

Section Request.
Variable config : APIConfig.
Variable url : string.
(** What [fetch] and [response.json()] do on each attempt. *)
Variable respond : nat -> Attempt.

(** The [for] loop of [makeRequest] from the test of its condition, and
    the [throw lastError!] after it.  [fuel] bounds the rounds. *)
Fixpoint attempts (fuel attempt : nat) (lastError : Thrown)
    : list Event * Settled Json :=
  match fuel with
  | O => ([], Rejected lastError)
  | S fuel' =>
      if Qltb (inject_Z (Z.of_nat attempt)) (maxRetries config) then
        match attemptResult (respond attempt) with
        | inl body => ([Fetch url], Resolved body)
        | inr error =>
            if rethrown error then ([Fetch url], Rejected error)
            else
              let wait :=
                if Qltb (inject_Z (Z.of_nat attempt)) (maxRetries config - 1)
                then [Delay (backoff attempt)] else [] in
              let rest := attempts fuel' (S attempt) error in
              (Fetch url :: wait ++ rest.1, rest.2)
        end
      else ([], Rejected lastError)
  end.

End Request.

(** The rounds a loop bounded by [maxRetries] can make, and one more
    for the test that ends it. *)
Definition rounds (config : APIConfig) : nat :=
  S (Z.to_nat (Qceiling (maxRetries config))).

(** [makeRequest(endpoint, options)].  [setup] is what building the
    request options throws, if anything ([localStorage] in [getUserId],
    [AbortSignal.timeout]). *)
Definition makeRequest (config : APIConfig) (endpoint : string)
    (setup : option Thrown) (respond : nat -> Attempt)
    : list Event * Settled Json :=
  match setup with
  | Some error => ([], Rejected error)
  | None =>
      attempts config (baseUrl config +:+ endpoint) respond (rounds config) 0
               ThrownUndefined
  end.

(** *** Recommendations *)

(** A [FrameRecommendation] built from a response: its fields hold
    whatever the service sent. *)
Record FrameRecommendation := mkFrameRecommendation {
  frameStyle : Value;
  frameColor : Value;
  matColor : Value;
  suggestedSize : Value * Value;
  frameReasoning : Value
}.

Record NeonRecommendation := mkNeonRecommendation {
  text : Value;
  color : Value;
  glowIntensity : Value;
  fontSize : Value;
  placement : Value;
  neonReasoning : Value
}.

(** [FrameRecommendation | NeonRecommendation] *)
Inductive Data :=
| FrameOf (r : FrameRecommendation)
| NeonOf (r : NeonRecommendation).

Record AIRecommendation := mkAIRecommendation {
  id : string;
  type : ARMode;
  confidence : Value;
  data : Data
}.

(** The fields of the class. *)
Record t := mkConnector {
  config : APIConfig;
  cache : JsMap.t (list AIRecommendation);
  cacheExpiry : JsMap.t Q
}.

(** [cacheTTL = 5 * 60 * 1000] *)
Definition cacheTTL : Q := 5 * 60 * 1000.

(** [new AIConnector(config)] *)
Definition new (config : PartialAPIConfig) : t :=
  mkConnector (configOf config) JsMap.empty JsMap.empty.

(** [isCacheValid(key)], given the reading of [Date.now()]. *)
Definition isCacheValid (key : string) (now : Q) (c : t) : bool :=
  match JsMap.get (cacheExpiry c) key with
  | Some expiry => Qltb now expiry
  | None => false
  end.

(** The cache check that opens both recommendation methods: the data of
    the cached entries, or [None] when the method goes on to ask. *)
Definition cached (key : string) (now : Q) (c : t) : option (list Data) :=
  if isCacheValid key now c then
    match JsMap.get (cache c) key with
    | Some entries => Some (data <$> entries)
    | None => None
    end
  else None.

(** [response.recommendations], when [map] can be called on it. *)
Definition recommendationsOf (response : Json) : option (list Json) :=
  match prop (Some response) "recommendations" with
  | Some (Some (JArray items)) => Some items
  | _ => None
  end.

(** [response.recommendations[index].confidence || 0.8] *)
Definition confidenceOf (rec : Json) : option Value :=
  c ← prop (Some rec) "confidence";
  Some (if truthy c then c else Some (JNumber (8 # 10))).

(** The callback of the second [map]; [stamp] is the decimal rendering
    of the [Date.now()] read for this element. *)
Definition entryOf (kind : string) (mode : ARMode) (stamp : nat -> string)
    (index : nat) (item : Json * Data) : option AIRecommendation :=
  c ← confidenceOf item.1;
  Some (mkAIRecommendation (kind +:+ "_" +:+ stamp index +:+ "_" +:+ pretty index)
                           mode c item.2).

(** The second [map]: the cache entries of the recommendations. *)
Definition entriesOf (kind : string) (mode : ARMode) (stamp : nat -> string)
    (items : list Json) (recommendations : list Data)
    : option (list AIRecommendation) :=
  mapM (fun indexed => entryOf kind mode stamp indexed.1 indexed.2)
       (zip (seq 0 (length recommendations)) (zip items recommendations)).

(** [this.cache.set(...); this.cacheExpiry.set(...)] *)
Definition store (key : string) (entries : list AIRecommendation) (now : Q)
    (c : t) : t :=
  mkConnector (config c) (JsMap.set (cache c) key entries)
              (JsMap.set (cacheExpiry c) key (now + cacheTTL)).

(** What the environment contributes to one call of a recommendation
    method. *)
Record Call := mkCall {
  (** [Date.now()] in [isCacheValid] *)
  nowChecked : Q;
  (** what [JSON.stringify] throws on the request body, if anything *)
  stringify : option Thrown;
  (** what building the request options throws, if anything *)
  setup : option Thrown;
  (** the attempts of the request *)
  respond : nat -> Attempt;
  (** [Date.now()] for the identifier of each cache entry *)
  stamp : nat -> string;
  (** [Date.now()] for the expiry *)
  nowStored : Q
}.

(** The call of [makeRequest] in a [try] block, with the evaluation of
    its argument. *)
Definition request (endpoint : string) (call : Call) (c : t)
    : list Event * Settled Json :=
  match stringify call with
  | Some error => ([], Rejected error)
  | None => makeRequest (config c) endpoint (setup call) (respond call)
  end.

(** The callback of the first [map] of [getFrameRecommendations]. *)
Definition frameOf (rec : Json) : option FrameRecommendation :=
  style ← prop (Some rec) "frame_style";
  color ← prop (Some rec) "frame_color";
  mat ← prop (Some rec) "mat_color";
  size ← prop (Some rec) "suggested_size";
  width ← prop size "width";
  size' ← prop (Some rec) "suggested_size";
  height ← prop size' "height";
  reasoning ← prop (Some rec) "reasoning";
  Some (mkFrameRecommendation style color mat (width, height) reasoning).

(** The callback of the first [map] of [getNeonRecommendations]. *)
Definition neonOf (rec : Json) : option NeonRecommendation :=
  text ← prop (Some rec) "text";
  color ← prop (Some rec) "color";
  glow ← prop (Some rec) "glow_intensity";
  size ← prop (Some rec) "font_size";
  placement ← prop (Some rec) "placement";
  reasoning ← prop (Some rec) "reasoning";
  Some (mkNeonRecommendation text color glow size placement reasoning).

(** [x || 'default'] *)
Definition orDefault (x : option string) : string := orString x "default".

(** [`frame_${artworkUrl}_${roomContext || 'default'}`] *)
Definition frameCacheKey (artworkUrl : string) (roomContext : option string)
    : string :=
  "frame_" +:+ artworkUrl +:+ "_" +:+ orDefault roomContext.

(** [`neon_${context}_${roomType || 'default'}_${moodPreference || 'default'}`] *)
Definition neonCacheKey (context : string) (roomType moodPreference : option string)
    : string :=
  "neon_" +:+ context +:+ "_" +:+ orDefault roomType +:+ "_"
    +:+ orDefault moodPreference.

(** [getFallbackFrameRecommendations()] *)
Definition getFallbackFrameRecommendations : list FrameRecommendation :=
  [ mkFrameRecommendation
      (Some (JString "modern")) (Some (JString "#000000"))
      (Some (JString "#ffffff"))
      (Some (JNumber (4 # 10)), Some (JNumber (6 # 10)))
      (Some (JString
         "Classic black frame with white mat works well with most artwork"));
    mkFrameRecommendation
      (Some (JString "minimal")) (Some (JString "#8B4513"))
      (Some (JString "none"))
      (Some (JNumber (4 # 10)), Some (JNumber (6 # 10)))
      (Some (JString "Natural wood frame provides warmth without distraction"));
    mkFrameRecommendation
      (Some (JString "classic")) (Some (JString "#FFD700"))
      (Some (JString "#F5F5DC"))
      (Some (JNumber (4 # 10)), Some (JNumber (6 # 10)))
      (Some (JString "Elegant gold frame with cream mat for traditional appeal")) ].

(** The first fallback sign with its [text] and [color] replaced. *)
Definition welcome (text color : string) : NeonRecommendation :=
  mkNeonRecommendation
    (Some (JString text)) (Some (JString color)) (Some (JNumber 2))
    (Some (JNumber 48)) (Some (JString "wall"))
    (Some (JString "Welcoming cyan neon creates a friendly atmosphere")).

(** [getFallbackNeonRecommendations(context)] *)
Definition getFallbackNeonRecommendations (context : string)
    : list NeonRecommendation :=
  [ (if includes context "cafe" || includes context "coffee"
     then welcome "Coffee" "#D2691E"
     else if includes context "bar" || includes context "restaurant"
     then welcome "Cheers" "#DC143C"
     else welcome "Welcome" "#00FFFF");
    mkNeonRecommendation
      (Some (JString "Dreams")) (Some (JString "#FF1493"))
      (Some (JNumber (18 # 10))) (Some (JNumber 36)) (Some (JString "wall"))
      (Some (JString "Inspirational pink neon adds warmth and motivation"));
    mkNeonRecommendation
      (Some (JString "Relax")) (Some (JString "#9370DB"))
      (Some (JNumber (15 # 10))) (Some (JNumber 42)) (Some (JString "wall"))
      (Some (JString "Calming purple neon promotes relaxation")) ].

(** The statements of a [try] block after the request: both [map]s.
    [None] when one of them throws. *)
Definition recommended {R} (kind : string) (mode : ARMode)
    (convert : Json -> option R) (inject : R -> Data) (stamp : nat -> string)
    (response : Json) : option (list R * list AIRecommendation) :=
  items ← recommendationsOf response;
  recommendations ← mapM convert items;
  entries ← entriesOf kind mode stamp items (inject <$> recommendations);
  Some (recommendations, entries).

(** [getFrameRecommendations(artworkUrl, roomContext, userPreferences)].
    All the method does with [userPreferences] is serialise it, which
    is the [stringify] of the call.  The result is the array the method
    resolves with; on a cache hit its elements are whatever the cached
    entries hold. *)
Definition getFrameRecommendations (artworkUrl : string)
    (roomContext : option string) (call : Call) (c : t)
    : t * list Event * list Data :=
  let cacheKey := frameCacheKey artworkUrl roomContext in
  match cached cacheKey (nowChecked call) c with
  | Some recommendations => (c, [], recommendations)
  | None =>
      let requested := request "/frames/recommend" call c in
      match requested.2 with
      | Resolved response =>
          match recommended "frame" FRAME frameOf FrameOf (stamp call) response with
          | Some (recommendations, entries) =>
              (store cacheKey entries (nowStored call) c, requested.1,
               FrameOf <$> recommendations)
          | None => (c, requested.1, FrameOf <$> getFallbackFrameRecommendations)
          end
      | Rejected _ => (c, requested.1, FrameOf <$> getFallbackFrameRecommendations)
      end
  end.

(** [getNeonRecommendations(context, roomType, moodPreference)] *)
Definition getNeonRecommendations (context : string)
    (roomType moodPreference : option string) (call : Call) (c : t)
    : t * list Event * list Data :=
  let cacheKey := neonCacheKey context roomType moodPreference in
  match cached cacheKey (nowChecked call) c with
  | Some recommendations => (c, [], recommendations)
  | None =>
      let requested := request "/neon/recommend" call c in
      match requested.2 with
      | Resolved response =>
          match recommended "neon" NEON neonOf NeonOf (stamp call) response with
          | Some (recommendations, entries) =>
              (store cacheKey entries (nowStored call) c, requested.1,
               NeonOf <$> recommendations)
          | None =>
              (c, requested.1, NeonOf <$> getFallbackNeonRecommendations context)
          end
      | Rejected _ =>
          (c, requested.1, NeonOf <$> getFallbackNeonRecommendations context)
      end
  end.

(** [getFrameRecommendations] is asynchronous.  Up to its [await] it
    runs in the connector as it is when the method is called: the cache
    check, and the start of the request.  The result is the array served
    from the cache, or the cache key and the request that was made. *)
Definition getFrameRecommendationsStart (artworkUrl : string)
    (roomContext : option string) (call : Call) (c : t)
    : list Data + string * (list Event * Settled Json) :=
  let cacheKey := frameCacheKey artworkUrl roomContext in
  match cached cacheKey (nowChecked call) c with
  | Some recommendations => inl recommendations
  | None => inr (cacheKey, request "/frames/recommend" call c)
  end.

(** [getFrameRecommendations] from its [await] on, once the request has
    settled, in the connector as it is by then: other calls may have
    run while the request was pending. *)
Definition getFrameRecommendationsResume (cacheKey : string)
    (settled : Settled Json) (call : Call) (c : t) : t * list Data :=
  match settled with
  | Resolved response =>
      match recommended "frame" FRAME frameOf FrameOf (stamp call) response with
      | Some (recommendations, entries) =>
          (store cacheKey entries (nowStored call) c, FrameOf <$> recommendations)
      | None => (c, FrameOf <$> getFallbackFrameRecommendations)
      end
  | Rejected _ => (c, FrameOf <$> getFallbackFrameRecommendations)
  end.

(** [clearCache()] *)
Definition clearCache (c : t) : t :=
  mkConnector (config c) JsMap.empty JsMap.empty.

(** [updateConfig(newConfig)] *)
Definition updateConfig (newConfig : PartialAPIConfig) (c : t) : t :=
  clearCache (mkConnector (spreadConfig (config c) newConfig) (cache c)
                          (cacheExpiry c)).

(** The calls a user of the connector can make. *)
Inductive Op :=
| GetFrameRecommendations (artworkUrl : string) (roomContext : option string)
                          (call : Call)
| GetNeonRecommendations (context : string) (roomType moodPreference : option string)
                         (call : Call)
| ClearCache
| UpdateConfig (newConfig : PartialAPIConfig).

(** The connector after a call. *)
Definition runOp (op : Op) (c : t) : t :=
  match op with
  | GetFrameRecommendations artworkUrl roomContext call =>
      (getFrameRecommendations artworkUrl roomContext call c).1.1
  | GetNeonRecommendations context roomType moodPreference call =>
      (getNeonRecommendations context roomType moodPreference call c).1.1
  | ClearCache => clearCache c
  | UpdateConfig newConfig => updateConfig newConfig c
  end.

(** The connector after a sequence of calls, oldest first. *)
Definition runOps (ops : list Op) (c : t) : t := foldl (fun c op => runOp op c) c ops.

End AIConnector.

(** The URLs fetched, oldest first. *)
Definition fetched (events : list AIConnector.Event) : list string :=
  omap (fun event =>
          match event with
          | AIConnector.Fetch url => Some url
          | AIConnector.Delay _ => None
          end) events.

(** An attempt that fails with an error the loop does not rethrow. *)
Definition retried (a : AIConnector.Attempt) : Prop :=
  exists error,
    AIConnector.attemptResult a = inr error /\ AIConnector.rethrown error = false.

(** Sample inputs for the connector. *)
Definition defaultConfig : AIConnector.APIConfig :=
  AIConnector.configOf (AIConnector.mkPartialAPIConfig None None None None).

Definition alwaysNotFound (attempt : nat) : AIConnector.Attempt :=
  AIConnector.NotOk 404 "Not Found".

Definition okAtThird (attempt : nat) : AIConnector.Attempt :=
  match attempt with
  | 2%nat => AIConnector.Ok (AIConnector.JObject [])
  | _ => AIConnector.NotOk 503 "Service Unavailable"
  end.

(** The cached data under [key] belong with the method that owns the
    key: frame recommendations under [frame_...], neon signs under
    [neon_...]. *)
Definition ownedBy (key : string) (d : AIConnector.Data) : Prop :=
  match d with
  | AIConnector.FrameOf _ => String.prefix "frame_" key = true
  | AIConnector.NeonOf _ => String.prefix "neon_" key = true
  end.

Definition cacheSorted (c : AIConnector.t) : Prop :=
  forall key entries,
    (key, entries) ∈ AIConnector.cache c ->
    Forall (fun entry => ownedBy key (AIConnector.data entry)) entries.

(** A response with one frame recommendation. *)
Definition oneFrameResponse : AIConnector.Json :=
  AIConnector.JObject
    [("recommendations",
      AIConnector.JArray
        [AIConnector.JObject
           [("frame_style", AIConnector.JString "ornate");
            ("frame_color", AIConnector.JString "#222222");
            ("mat_color", AIConnector.JString "#eeeeee");
            ("suggested_size",
             AIConnector.JObject [("width", AIConnector.JNumber (5 # 10));
                                  ("height", AIConnector.JNumber (7 # 10))]);
            ("reasoning", AIConnector.JString "matches the palette");
            ("confidence", AIConnector.JNumber (9 # 10))]])].

(** The recommendation it holds, as [getFrameRecommendations] builds it. *)
Definition ornateFrame : AIConnector.FrameRecommendation :=
  AIConnector.mkFrameRecommendation
    (Some (AIConnector.JString "ornate")) (Some (AIConnector.JString "#222222"))
    (Some (AIConnector.JString "#eeeeee"))
    (Some (AIConnector.JNumber (5 # 10)), Some (AIConnector.JNumber (7 # 10)))
    (Some (AIConnector.JString "matches the palette")).

(** Its cache entry, for a read of [Date.now()] that renders as 1010. *)
Definition ornateEntry : AIConnector.AIRecommendation :=
  AIConnector.mkAIRecommendation "frame_1010_0" FRAME
    (Some (AIConnector.JNumber (9 # 10))) (AIConnector.FrameOf ornateFrame).

Definition okAtOnce (attempt : nat) : AIConnector.Attempt :=
  AIConnector.Ok oneFrameResponse.

(** A first call at time 1000 that the service answers, and a later
    call at time 200000 for which the service is down. *)
Definition answeredCall : AIConnector.Call :=
  AIConnector.mkCall 1000 None None okAtOnce (fun _ => "1010") 1020.

Definition laterCall : AIConnector.Call :=
  AIConnector.mkCall 200000 None None alwaysNotFound (fun _ => "200010") 200020.

Definition noRetries : AIConnector.PartialAPIConfig :=
  AIConnector.mkPartialAPIConfig None None None (Some 0).

Definition otherBase : AIConnector.PartialAPIConfig :=
  AIConnector.mkPartialAPIConfig (Some "https://staging.framerly.com") None None None.

(* ================================================================== *)
(** ** PoseFilter in binary64: the position path

    [smoothPosition] is arithmetic on JavaScript numbers, and what it
    returns depends on the rounding of each operation.  This is the
    position path of [filter] over IEEE binary64: Rocq's primitive
    floats, whose operations round to nearest, ties to even, as those of
    JavaScript do.  The rotation, the velocity history and the stability
    state do not enter the position that [filter] returns; of the
    rotation only its presence matters, for the first-call test. *)

Module Binary64.
Import PrimFloat.

Record Vector3 := mkVector3 { x : float; y : float; z : float }.

(** The fields of [PoseFilter] that the returned position depends on;
    [lastRotation] tells whether the field is set. *)
Record t := mkPoseFilter {
  positionSmoothingFactor : float;
  lastPosition : option Vector3;
  lastRotation : bool
}.

(** [new PoseFilter()] *)
Definition new : t := mkPoseFilter 0.8 None false.

(** [smoothPosition(newPosition)] *)
Definition smoothPosition (f : t) (newPosition : Vector3) : Vector3 :=
  match lastPosition f with
  | None => newPosition
  | Some last =>
      let factor := positionSmoothingFactor f in
      mkVector3 (x last * factor + x newPosition * (1 - factor))
                (y last * factor + y newPosition * (1 - factor))
                (z last * factor + z newPosition * (1 - factor))
  end.

(** [filter(position, rotation)]: the filter afterwards and the position
    returned. *)
Definition filter (f : t) (position : Vector3) : t * Vector3 :=
  match lastPosition f, lastRotation f with
  | Some _, true =>
      let smoothedPosition := smoothPosition f position in
      (mkPoseFilter (positionSmoothingFactor f) (Some smoothedPosition) true,
       smoothedPosition)
  | _, _ =>
      (mkPoseFilter (positionSmoothingFactor f) (Some position) true, position)
  end.

(** Successive calls of [filter]: the filter afterwards and the
    positions returned, oldest first. *)
Fixpoint filterRun (f : t) (positions : list Vector3) : t * list Vector3 :=
  match positions with
  | [] => (f, [])
  | position :: rest =>
      let step := filter f position in
      let run := filterRun step.1 rest in
      (run.1, step.2 :: run.2)
  end.


End Binary64.

(* ================================================================== *)
(** * Properties *)

(** ** Comparisons *)

Lemma Qltb_lt (a b : Q) : Qltb a b = true <-> a < b.
Proof.
  unfold Qltb. rewrite negb_true_iff, <- not_true_iff_false, Qle_bool_iff.
  split; [apply Qnot_le_lt | apply Qlt_not_le].
Qed.

Lemma Qltb_ge (a b : Q) : Qltb a b = false <-> b <= a.
Proof. unfold Qltb. rewrite negb_false_iff. apply Qle_bool_iff. Qed.

Lemma Qgeb_le (a b : Q) : Qgeb a b = true <-> b <= a.
Proof. apply Qle_bool_iff. Qed.

Lemma convex_between (a b k : Q) :
  0 <= k -> k <= 1 -> between a b (a * k + b * (1 - k)).
Proof.
  intros Hk0 Hk1. unfold between.
  destruct (Qlt_le_dec a b) as [Hab | Hba].
  - left. split; nra.
  - right. split; nra.
Qed.

(** ** Facts about [JsMap] *)

Module JsMapFacts.
Import JsMap.

Section Facts.
Context {V : Type}.
Implicit Types (m : t V) (k : string) (v : V).

Lemma get_set_eq m k v : get (set m k v) k = Some v.
Proof.
  induction m as [| [k' v'] m IH]; simpl.
  - by rewrite decide_True.
  - destruct (decide (k' = k)) as [-> | Hne]; simpl.
    + by rewrite decide_True.
    + by rewrite decide_False.
Qed.

Lemma get_set_ne m k k' v : k <> k' -> get (set m k v) k' = get m k'.
Proof.
  intros Hne. induction m as [| [k0 v0] m IH]; simpl.
  - by rewrite decide_False.
  - destruct (decide (k0 = k)) as [-> | Hk]; simpl.
    + by rewrite !decide_False.
    + destruct (decide (k0 = k')); [done | apply IH].
Qed.

Lemma keys_set_present m k v :
  is_Some (get m k) -> keys (set m k v) = keys m.
Proof.
  unfold keys. induction m as [| [k0 v0] m IH]; simpl.
  - intros [? ?]; discriminate.
  - destruct (decide (k0 = k)) as [-> | Hk]; simpl; [done |].
    intros Hs. f_equal. by apply IH.
Qed.

Lemma get_delete_eq m k : get (delete m k) k = None.
Proof.
  induction m as [| [k0 v0] m IH]; simpl; [done |].
  destruct (decide (k0 = k)) as [-> | Hk]; simpl; [done |].
  by rewrite decide_False.
Qed.

Lemma get_delete_ne m k k' : k <> k' -> get (delete m k) k' = get m k'.
Proof.
  intros Hne. induction m as [| [k0 v0] m IH]; simpl; [done |].
  destruct (decide (k0 = k)) as [-> | Hk]; simpl.
  - by rewrite decide_False.
  - destruct (decide (k0 = k')); [done | apply IH].
Qed.

Lemma delete_absent m k : get m k = None -> delete m k = m.
Proof.
  induction m as [| [k0 v0] m IH]; simpl; [done |].
  destruct (decide (k0 = k)) as [-> | Hk]; [discriminate |].
  intros Hg. by rewrite IH.
Qed.

Lemma get_None_keys m k : get m k = None <-> k ∉ keys m.
Proof.
  unfold keys. induction m as [| [k0 v0] m IH]; simpl.
  - split; [intros _; apply not_elem_of_nil | done].
  - rewrite not_elem_of_cons.
    destruct (decide (k0 = k)) as [-> | Hk].
    + split; [discriminate | intros [? _]; done].
    + rewrite IH. split; [intros ?; split; [congruence | done] | intros [_ ?]; done].
Qed.

Lemma get_Some_elem m k v : get m k = Some v -> (k, v) ∈ m.
Proof.
  induction m as [| [k0 v0] m IH]; simpl; [discriminate |].
  destruct (decide (k0 = k)) as [-> | Hk].
  - intros [= ->]. apply elem_of_cons. by left.
  - intros Hg. apply elem_of_cons. right. by apply IH.
Qed.

Lemma elem_get_Some m k v : NoDup (keys m) -> (k, v) ∈ m -> get m k = Some v.
Proof.
  unfold keys. induction m as [| [k0 v0] m IH]; simpl.
  - intros _ Hin. by apply elem_of_nil in Hin.
  - rewrite NoDup_cons. intros [Hnin Hnd] Hin.
    apply elem_of_cons in Hin as [[= <- <-] | Hin].
    + by rewrite decide_True.
    + destruct (decide (k0 = k)) as [-> | Hk]; [| by apply IH].
      exfalso. apply Hnin. apply list_elem_of_fmap. by exists (k, v).
Qed.

Lemma keys_delete_subseteq m k : keys (delete m k) ⊆ keys m.
Proof.
  unfold keys. induction m as [| [k0 v0] m IH]; simpl; [done |].
  destruct (decide (k0 = k)); simpl.
  - intros x Hx. apply elem_of_cons. right. by apply IH.
  - intros x. rewrite !elem_of_cons. intros [-> | Hx]; [by left |].
    right. by apply IH.
Qed.

Lemma delete_subseteq m k : delete m k ⊆ m.
Proof.
  induction m as [| [k0 v0] m IH]; simpl; [done |].
  destruct (decide (k0 = k)); simpl.
  - intros x Hx. apply elem_of_cons. right. by apply IH.
  - intros x. rewrite !elem_of_cons. intros [-> | Hx]; [by left |].
    right. by apply IH.
Qed.

Lemma elem_delete m k k' v : (k', v) ∈ delete m k -> k' <> k.
Proof.
  induction m as [| [k0 v0] m IH]; simpl.
  - intros Hin. by apply elem_of_nil in Hin.
  - destruct (decide (k0 = k)) as [-> | Hk]; [done |].
    rewrite elem_of_cons. intros [[= -> ->] | Hin]; [done | by apply IH].
Qed.

Lemma elem_delete_ne m k k' v : k' <> k -> (k', v) ∈ m -> (k', v) ∈ delete m k.
Proof.
  intros Hne. induction m as [| [k0 v0] m IH]; simpl; [done |].
  rewrite elem_of_cons. intros [[= <- <-] | Hin].
  - rewrite decide_False by done. apply elem_of_cons. by left.
  - destruct (decide (k0 = k)); [by apply IH |].
    apply elem_of_cons. right. by apply IH.
Qed.

Lemma NoDup_keys_delete m k : NoDup (keys m) -> NoDup (keys (delete m k)).
Proof.
  unfold keys. induction m as [| [k0 v0] m IH]; simpl; [done |].
  rewrite NoDup_cons. intros [Hnin Hnd].
  destruct (decide (k0 = k)); simpl; [by apply IH |].
  apply NoDup_cons. split; [| by apply IH].
  intros Hin. apply Hnin. by apply (keys_delete_subseteq m k).
Qed.

Lemma keys_set_absent m k v : get m k = None -> keys (set m k v) = keys m ++ [k].
Proof.
  unfold keys. induction m as [| [k0 v0] m IH]; simpl; [done |].
  destruct (decide (k0 = k)) as [-> | Hk]; [discriminate |].
  intros Hg. simpl. f_equal. by apply IH.
Qed.

Lemma NoDup_keys_set m k v : NoDup (keys m) -> NoDup (keys (set m k v)).
Proof.
  intros Hnd. destruct (get m k) as [v0 |] eqn:Hg.
  - by rewrite keys_set_present.
  - rewrite keys_set_absent by done.
    apply NoDup_app. split_and!; [done | | apply NoDup_singleton].
    intros x Hx ->%list_elem_of_singleton. by apply get_None_keys in Hg.
Qed.

End Facts.
End JsMapFacts.

(* ================================================================== *)
(** ** PoseFilter: position smoothing *)

Section SmoothingFacts.
Context `{Three}.
Import PoseFilter.

(** On an initialised filter, [filter] returns [smoothPosition] of the
    raw position and keeps it as the next call's [lastPosition]. *)
Lemma filter_initialised (f : t) (now : Q) (position : Vector3)
    (rotation : Quaternion) (lp : Vector3) (lr : Quaternion) :
  lastPosition f = Some lp ->
  lastRotation f = Some lr ->
  f_position (filter f now position rotation).2
    = mkVector3
        (vx lp * positionSmoothingFactor (options f)
         + vx position * (1 - positionSmoothingFactor (options f)))
        (vy lp * positionSmoothingFactor (options f)
         + vy position * (1 - positionSmoothingFactor (options f)))
        (vz lp * positionSmoothingFactor (options f)
         + vz position * (1 - positionSmoothingFactor (options f)))
  /\ lastPosition (filter f now position rotation).1
     = Some (f_position (filter f now position rotation).2)
  /\ options (filter f now position rotation).1 = options f.
Proof.
  intros Hlp Hlr. unfold filter. rewrite Hlp, Hlr. simpl.
  unfold smoothPosition, updateStabilityState. simpl. rewrite Hlp.
  split; [done |].
  split; [done |].
  by destruct (_ && _).
Qed.

(** On a fresh filter, [filter] returns the raw pose and keeps it. *)
Lemma filter_first (f : t) (now : Q) (position : Vector3)
    (rotation : Quaternion) :
  lastPosition f = None ->
  filter f now position rotation
    = (mkPoseFilter (options f) (Some position) (Some rotation)
                    (velocityHistory f) (Some now) (isStable f),
       mkFiltered position rotation false).
Proof. intros Hlp. unfold filter. by rewrite Hlp. Qed.

End SmoothingFacts.

Section Binary64Facts.
Import PrimFloat Binary64.






End Binary64Facts.

(* ================================================================== *)
(** ** FramerlyAREngine: [updateObject] and [removeObject] *)

Section EngineFacts.
Import FramerlyAREngine.
Variable renderer : RendererCall -> Completion.

Lemma updateObject_absent (objectId : string) (updates : JsObject) (e : t) :
  JsMap.get (arObjects e) objectId = None ->
  updateObject renderer objectId updates e = (e, Throw (notFound objectId)).
Proof. intros Hg. unfold updateObject. by rewrite Hg. Qed.

Lemma updateObject_present (objectId : string) (updates object : JsObject) (e : t) :
  JsMap.get (arObjects e) objectId = Some object ->
  arObjects (updateObject renderer objectId updates e).1
    = JsMap.set (arObjects e) objectId (spread object updates).
Proof. intros Hg. unfold updateObject. by rewrite Hg. Qed.

Lemma removeObject_absent (objectId : string) (e : t) :
  JsMap.get (arObjects e) objectId = None ->
  removeObject renderer objectId e = (e, Normal).
Proof. intros Hg. unfold removeObject. by rewrite Hg. Qed.

(** After a removal that returned, the id is gone. *)
Lemma removeObject_gone (objectId : string) (e : t) :
  (removeObject renderer objectId e).2 = Normal ->
  JsMap.get (arObjects (removeObject renderer objectId e).1) objectId = None.
Proof.
  unfold removeObject.
  destruct (JsMap.get (arObjects e) objectId) as [object |] eqn:Hg; simpl.
  - destruct (renderer _); simpl; [| discriminate].
    intros _. apply JsMapFacts.get_delete_eq.
  - done.
Qed.

End EngineFacts.

(** C8.  [updateObject(id, changes)] throws the not-found error, and
    changes nothing, whenever [id] is absent from the placed-object map;
    this includes an [id] that [removeObject] removed just before.
    Otherwise the stored object becomes the shallow merge of [changes]
    into it.  [removeObject(id)] on an absent [id], and so a second
    removal of the same [id], returns normally and leaves the engine as it
    was. *)
Theorem updateObject_notFound_removeObject_idempotent
    (renderer : FramerlyAREngine.RendererCall -> Completion)
    (e : FramerlyAREngine.t) (objectId : string)
    (changes : FramerlyAREngine.JsObject) :
  (JsMap.get (FramerlyAREngine.arObjects e) objectId = None ->
     FramerlyAREngine.updateObject renderer objectId changes e
       = (e, Throw (FramerlyAREngine.notFound objectId))
     /\ FramerlyAREngine.removeObject renderer objectId e = (e, Normal))
  /\ (forall object,
        JsMap.get (FramerlyAREngine.arObjects e) objectId = Some object ->
        let e' := (FramerlyAREngine.updateObject renderer objectId changes e).1 in
        JsMap.get (FramerlyAREngine.arObjects e') objectId
          = Some (changes ∪ object)
        /\ (forall field value,
              changes !! field = Some value ->
              (changes ∪ object) !! field = Some value)
        /\ (forall field,
              changes !! field = None ->
              (changes ∪ object) !! field = object !! field))
  /\ (let removed := FramerlyAREngine.removeObject renderer objectId e in
      removed.2 = Normal ->
      FramerlyAREngine.updateObject renderer objectId changes removed.1
        = (removed.1, Throw (FramerlyAREngine.notFound objectId))
      /\ FramerlyAREngine.removeObject renderer objectId removed.1
         = (removed.1, Normal)).
Proof.
  split_and!.
  - intros Hg. split.
    + by apply updateObject_absent.
    + by apply removeObject_absent.
  - intros object Hg e'. subst e'.
    rewrite (updateObject_present renderer objectId changes object e Hg).
    rewrite JsMapFacts.get_set_eq. unfold FramerlyAREngine.spread.
    split_and!; [done | |].
    + intros field value Hc. by apply lookup_union_Some_l.
    + intros field Hc. by apply lookup_union_r.
  - intros removed Hn. subst removed.
    pose proof (removeObject_gone renderer objectId e Hn) as Hgone.
    split.
    + by apply updateObject_absent.
    + by apply removeObject_absent.
Qed.

Lemma updateObject_notFound_removeObject_idempotent_witness :
  FramerlyAREngine.updateObject quietRenderer "frame_2"
      {[ "width" := FramerlyAREngine.VNumber 1 ]} engineWithFrame
    = (engineWithFrame, Throw "Object with ID frame_2 not found")
  /\ JsMap.get
       (FramerlyAREngine.arObjects
          (FramerlyAREngine.updateObject quietRenderer "frame_1"
             {[ "width" := FramerlyAREngine.VNumber 1 ]} engineWithFrame).1)
       "frame_1"
     = Some ({[ "width" := FramerlyAREngine.VNumber 1 ]} ∪ exampleFrame)
  /\ FramerlyAREngine.updateObject quietRenderer "frame_1"
       {[ "width" := FramerlyAREngine.VNumber 1 ]}
       (FramerlyAREngine.removeObject quietRenderer "frame_1" engineWithFrame).1
     = ((FramerlyAREngine.removeObject quietRenderer "frame_1" engineWithFrame).1,
        Throw "Object with ID frame_1 not found").
Proof.
  split_and!.
  - destruct (updateObject_notFound_removeObject_idempotent quietRenderer
                engineWithFrame "frame_2" {[ "width" := FramerlyAREngine.VNumber 1 ]})
      as (Habsent & _ & _).
    apply Habsent. reflexivity.
  - destruct (updateObject_notFound_removeObject_idempotent quietRenderer
                engineWithFrame "frame_1" {[ "width" := FramerlyAREngine.VNumber 1 ]})
      as (_ & Hpresent & _).
    apply (Hpresent exampleFrame). reflexivity.
  - destruct (updateObject_notFound_removeObject_idempotent quietRenderer
                engineWithFrame "frame_1" {[ "width" := FramerlyAREngine.VNumber 1 ]})
      as (_ & _ & Hremoved).
    apply Hremoved. reflexivity.
Defined.

(** C10.  When [id] is present, [updateObject(id, changes)] leaves the
    keys of the placed-object map as they were, in the same order, and
    leaves every entry under another key unchanged.  The merge takes
    every field of [changes] as it comes: the stored object's [id] and
    [type] fields are replaced like any other, while the object stays
    under its old key. *)
Theorem updateObject_frame
    (renderer : FramerlyAREngine.RendererCall -> Completion)
    (e : FramerlyAREngine.t) (objectId : string)
    (changes object : FramerlyAREngine.JsObject) :
  JsMap.get (FramerlyAREngine.arObjects e) objectId = Some object ->
  let e' := (FramerlyAREngine.updateObject renderer objectId changes e).1 in
  JsMap.keys (FramerlyAREngine.arObjects e')
    = JsMap.keys (FramerlyAREngine.arObjects e)
  /\ (forall other,
        other <> objectId ->
        JsMap.get (FramerlyAREngine.arObjects e') other
          = JsMap.get (FramerlyAREngine.arObjects e) other)
  /\ (forall stored,
        JsMap.get (FramerlyAREngine.arObjects e') objectId = Some stored ->
        forall field value,
          changes !! field = Some value -> stored !! field = Some value)
  /\ (forall newId newType,
        changes !! "id" = Some newId ->
        changes !! "type" = Some newType ->
        exists stored,
          JsMap.get (FramerlyAREngine.arObjects e') objectId = Some stored
          /\ stored !! "id" = Some newId
          /\ stored !! "type" = Some newType).
Proof.
  intros Hg e'. subst e'.
  rewrite (updateObject_present renderer objectId changes object e Hg).
  split_and!.
  - apply JsMapFacts.keys_set_present. by rewrite Hg.
  - intros other Hne. by apply JsMapFacts.get_set_ne.
  - intros stored. rewrite JsMapFacts.get_set_eq. intros [= <-] field value Hc.
    by apply lookup_union_Some_l.
  - intros newId newType Hid Hty.
    exists (FramerlyAREngine.spread object changes).
    rewrite JsMapFacts.get_set_eq. unfold FramerlyAREngine.spread.
    split_and!; [done | by apply lookup_union_Some_l | by apply lookup_union_Some_l].
Qed.

Lemma updateObject_frame_witness :
  JsMap.keys
    (FramerlyAREngine.arObjects
       (FramerlyAREngine.updateObject quietRenderer "frame_1"
          {[ "id" := FramerlyAREngine.VString "neon_9";
             "type" := FramerlyAREngine.VString "neon" ]} engineWithFrame).1)
    = ["frame_1"]
  /\ exists stored,
       JsMap.get
         (FramerlyAREngine.arObjects
            (FramerlyAREngine.updateObject quietRenderer "frame_1"
               {[ "id" := FramerlyAREngine.VString "neon_9";
                  "type" := FramerlyAREngine.VString "neon" ]} engineWithFrame).1)
         "frame_1" = Some stored
       /\ stored !! "id" = Some (FramerlyAREngine.VString "neon_9")
       /\ stored !! "type" = Some (FramerlyAREngine.VString "neon").
Proof.
  destruct (updateObject_frame quietRenderer engineWithFrame "frame_1"
              {[ "id" := FramerlyAREngine.VString "neon_9";
                 "type" := FramerlyAREngine.VString "neon" ]} exampleFrame)
    as (Hkeys & _ & _ & Hfields).
  - reflexivity.
  - split; [exact Hkeys |].
    apply (Hfields (FramerlyAREngine.VString "neon_9")
                   (FramerlyAREngine.VString "neon")); reflexivity.
Defined.

(* ================================================================== *)
(** ** PlaneTracker: the store and the sweep *)

Section StoreFacts.

Lemma derefPlane_alloc_array (h : Heap) (elems : list ref) (r : ref) :
  derefPlane (h ++ [OArray elems]) r = derefPlane h r.
Proof.
  unfold derefPlane.
  destruct (decide (r < length h)%nat) as [Hlt | Hge].
  - by rewrite lookup_app_l.
  - rewrite lookup_app_r by lia.
    rewrite (lookup_ge_None_2 h r) by lia.
    by destruct (r - length h)%nat.
Qed.

Lemma omap_derefPlane_alloc_array (h : Heap) (elems refs : list ref) :
  omap (derefPlane (h ++ [OArray elems])) refs = omap (derefPlane h) refs.
Proof.
  induction refs as [| r refs IH]; [done |].
  csimpl. by rewrite derefPlane_alloc_array, IH.
Qed.

Lemma derefArray_alloc (h : Heap) (elems : list ref) :
  derefArray (h ++ [OArray elems]) (length h) = Some elems.
Proof.
  unfold derefArray. rewrite lookup_app_r by lia.
  by rewrite Nat.sub_diag.
Qed.

Lemma derefPlane_alloc (h : Heap) (p : PlaneData) :
  derefPlane (h ++ [OPlane p]) (length h) = Some p.
Proof.
  unfold derefPlane. rewrite lookup_app_r by lia.
  by rewrite Nat.sub_diag.
Qed.

End StoreFacts.

Section SweepFacts.
Import PlaneTracker TrackerRuns.

(** A call of [getDetectedPlanes()] shows the records behind the map. *)
Lemma snapshot_records (w : World) : snapshot w = planeRecords w.
Proof.
  unfold snapshot, getDetectedPlanes, alloc, planeRecords. simpl.
  rewrite derefArray_alloc. apply omap_derefPlane_alloc_array.
Qed.

Lemma cleanupEntries_subseteq now h entries (m : JsMap.t ref) :
  cleanupEntries now h entries m ⊆ m.
Proof.
  unfold cleanupEntries. revert m.
  induction entries as [| e entries IH]; intros m; simpl; [done |].
  destruct (isStale now h e.2).
  - etrans; [apply IH | apply JsMapFacts.delete_subseteq].
  - apply IH.
Qed.

(** A key that the loop meets with a stale record is gone afterwards. *)
Lemma cleanupEntries_drops now h entries (m : JsMap.t ref) k r r' :
  (k, r) ∈ entries -> isStale now h r = true ->
  (k, r') ∉ cleanupEntries now h entries m.
Proof.
  unfold cleanupEntries. revert m.
  induction entries as [| e entries IH]; intros m Hin Hstale; simpl.
  - by apply elem_of_nil in Hin.
  - apply elem_of_cons in Hin as [<- | Hin].
    + simpl. rewrite Hstale. intros Hr'.
      apply (cleanupEntries_subseteq now h entries) in Hr'.
      by apply JsMapFacts.elem_delete in Hr'.
    + by apply IH.
Qed.

(** An entry survives when the loop meets its key with fresh records
    only. *)
Lemma cleanupEntries_keeps now h entries (m : JsMap.t ref) k r :
  (forall r', (k, r') ∈ entries -> isStale now h r' = false) ->
  (k, r) ∈ m ->
  (k, r) ∈ cleanupEntries now h entries m.
Proof.
  unfold cleanupEntries. revert m.
  induction entries as [| [k0 r0] entries IH]; intros m Hfresh Hin; simpl; [done |].
  assert (forall r', (k, r') ∈ entries -> isStale now h r' = false) as Hfresh'.
  { intros r' Hr'. apply Hfresh. apply elem_of_cons. by right. }
  destruct (isStale now h r0) eqn:Hstale.
  - apply IH; [done |].
    apply JsMapFacts.elem_delete_ne; [| done].
    intros ->. specialize (Hfresh r0). rewrite Hstale in Hfresh.
    discriminate Hfresh. apply elem_of_cons. by left.
  - by apply IH.
Qed.

Lemma cleanupEntries_NoDup now h entries (m : JsMap.t ref) :
  NoDup (JsMap.keys m) -> NoDup (JsMap.keys (cleanupEntries now h entries m)).
Proof.
  unfold cleanupEntries. revert m.
  induction entries as [| e entries IH]; intros m Hnd; simpl; [done |].
  destruct (isStale now h e.2); apply IH; [| done].
  by apply JsMapFacts.NoDup_keys_delete.
Qed.

(** Every record left by the sweep is within the staleness threshold. *)
Lemma cleanup_leaves_fresh now (w : World) (p : PlaneData) :
  p ∈ planeRecords (cleanupOldPlanes now w) ->
  ~ 10000 < now - lastUpdate p.
Proof.
  unfold planeRecords, cleanupOldPlanes. simpl.
  rewrite list_elem_of_omap. intros (r & Hr & Hderef).
  unfold JsMap.values in Hr. apply list_elem_of_fmap in Hr as ([k r0] & -> & Hin).
  simpl in Hderef.
  assert ((k, r0) ∈ planes (tracker w)) as Hin0.
  { by apply (cleanupEntries_subseteq now (heap w) (planes (tracker w))). }
  destruct (isStale now (heap w) r0) eqn:Hstale.
  - exfalso. by eapply cleanupEntries_drops.
  - unfold isStale in Hstale. rewrite Hderef in Hstale.
    apply Qltb_ge in Hstale. by apply Qle_not_lt.
Qed.

(** A record within the threshold stays under its key. *)
Lemma cleanup_keeps_fresh now (w : World) k r (p : PlaneData) :
  keysUnique w ->
  JsMap.get (planes (tracker w)) k = Some r ->
  derefPlane (heap w) r = Some p ->
  now - lastUpdate p <= 10000 ->
  JsMap.get (planes (tracker (cleanupOldPlanes now w))) k = Some r.
Proof.
  intros Hnd Hget Hderef Hfresh. unfold cleanupOldPlanes. simpl.
  apply JsMapFacts.elem_get_Some; [by apply cleanupEntries_NoDup |].
  apply cleanupEntries_keeps; [| by apply JsMapFacts.get_Some_elem].
  intros r' Hr'.
  apply (JsMapFacts.elem_get_Some _ _ _ Hnd) in Hr'.
  rewrite Hget in Hr'. injection Hr' as <-.
  unfold isStale. rewrite Hderef. by apply Qltb_ge.
Qed.

Lemma activePlanes_spec now (w : World) (p : PlaneData) :
  p ∈ activePlanes now w <-> p ∈ planeRecords w /\ now - lastUpdate p < 5000.
Proof.
  unfold activePlanes. rewrite list_elem_of_filter.
  unfold isActive. rewrite Qltb_lt. tauto.
Qed.

End SweepFacts.

(* ================================================================== *)
(** ** PlaneTracker: the tracking state *)

Section TrackingStateFacts.
Import PlaneTracker TrackerRuns.

Lemma updateTrackingState_state (s : TrackingState) (w : World) :
  trackingState (tracker (updateTrackingState s w)) = s.
Proof. unfold updateTrackingState. by destruct (decide _). Qed.

Lemma updateTrackingState_calls (s : TrackingState) (w : World) :
  calls (updateTrackingState s w)
    = if decide (trackingState (tracker w) = s) then calls w
      else invoke (onTrackingStateChangedCallback (tracker w))
                  TrackingStateChanged s (calls w).
Proof. unfold updateTrackingState. by destruct (decide _). Qed.

(** Everything but the state and the log is left alone. *)
Lemma updateTrackingState_frame (s : TrackingState) (w : World) :
  heap (updateTrackingState s w) = heap w
  /\ planes (tracker (updateTrackingState s w)) = planes (tracker w)
  /\ poseFilter (tracker (updateTrackingState s w)) = poseFilter (tracker w)
  /\ onTrackingStateChangedCallback (tracker (updateTrackingState s w))
     = onTrackingStateChangedCallback (tracker w).
Proof. unfold updateTrackingState. by destruct (decide _). Qed.

Lemma stabilityOf_empty : stabilityOf [] = NOT_TRACKING.
Proof. done. Qed.

Lemma stabilityOf_vertical (active : list PlaneData) (p : PlaneData) :
  p ∈ active -> orientation p = vertical -> stabilityOf active = TRACKING.
Proof.
  intros Hin Hv. unfold stabilityOf.
  destruct (decide (length active = 0%nat)) as [Hlen | _].
  - apply length_zero_iff_nil in Hlen. subst. by apply elem_of_nil in Hin.
  - replace (existsb _ active) with true; [done |].
    symmetry. apply existsb_exists. exists p.
    split; [by apply list_elem_of_In | by apply bool_decide_eq_true].
Qed.

Lemma stabilityOf_no_vertical (active : list PlaneData) :
  active <> [] ->
  (forall p, p ∈ active -> orientation p <> vertical) ->
  stabilityOf active = LIMITED.
Proof.
  intros Hne Hnv. unfold stabilityOf.
  destruct (decide (length active = 0%nat)) as [Hlen | _].
  - by apply length_zero_iff_nil in Hlen.
  - destruct (existsb _ active) eqn:Hex; [| done].
    apply existsb_exists in Hex as (p & Hin & Hv).
    apply bool_decide_eq_true in Hv. apply list_elem_of_In in Hin.
    by destruct (Hnv p Hin).
Qed.

(** The value depends on the members of the list only. *)
Lemma stabilityOf_set (a1 a2 : list PlaneData) :
  (forall p, p ∈ a1 <-> p ∈ a2) -> stabilityOf a1 = stabilityOf a2.
Proof.
  intros Hset.
  destruct (existsb (fun plane => bool_decide (orientation plane = vertical)) a1)
    eqn:Hex.
  - apply existsb_exists in Hex as (p & Hin & Hv).
    apply bool_decide_eq_true in Hv. apply list_elem_of_In in Hin.
    rewrite (stabilityOf_vertical a1 p Hin Hv).
    symmetry. apply (stabilityOf_vertical a2 p); [by apply Hset | done].
  - assert (forall p, p ∈ a1 -> orientation p <> vertical) as Hnv.
    { intros p Hin Hv.
      assert (existsb (fun plane => bool_decide (orientation plane = vertical)) a1
              = true) as Habs; [| congruence].
      apply existsb_exists. exists p.
      split; [by apply list_elem_of_In | by apply bool_decide_eq_true]. }
    destruct a1 as [| p1 a1'].
    + destruct a2 as [| p2 a2']; [done |].
      exfalso. apply (not_elem_of_nil p2). apply Hset. apply elem_of_cons. by left.
    + rewrite (stabilityOf_no_vertical (p1 :: a1')); [| done | done].
      symmetry. apply stabilityOf_no_vertical.
      * intros ->. apply (not_elem_of_nil p1). apply Hset. apply elem_of_cons. by left.
      * intros p Hin. apply Hnv. by apply Hset.
Qed.

End TrackingStateFacts.

(** C4.  [updateTrackingStability] at clock reading [now] leaves the
    tracking state at a value that is a function of the set of active
    planes alone, those held by the registry with
    [now - lastUpdate < 5000]: [not_tracking] when there is none,
    [tracking] when one of them is vertical, [limited] when there are
    some and none is vertical.  Two registries with the same active
    planes end in the same state, whatever their state was before. *)
Theorem tracking_state_from_active_planes (now : Q) (w : PlaneTracker.World) :
  let w' := PlaneTracker.updateTrackingStability now w in
  let active := PlaneTracker.activePlanes now w in
  (forall p, p ∈ active <->
             p ∈ PlaneTracker.planeRecords w /\ now - lastUpdate p < 5000)
  /\ (active = [] -> PlaneTracker.getTrackingState w' = NOT_TRACKING)
  /\ ((exists p, p ∈ active /\ orientation p = vertical) ->
      PlaneTracker.getTrackingState w' = TRACKING)
  /\ (active <> [] ->
      (forall p, p ∈ active -> orientation p <> vertical) ->
      PlaneTracker.getTrackingState w' = LIMITED)
  /\ (forall now2 w2,
        (forall p, p ∈ active <-> p ∈ PlaneTracker.activePlanes now2 w2) ->
        PlaneTracker.getTrackingState (PlaneTracker.updateTrackingStability now2 w2)
          = PlaneTracker.getTrackingState w').
Proof.
  intros w' active. subst w' active.
  unfold PlaneTracker.getTrackingState, PlaneTracker.updateTrackingStability.
  rewrite updateTrackingState_state.
  split_and!.
  - intros p. apply activePlanes_spec.
  - intros ->. apply stabilityOf_empty.
  - intros (p & Hin & Hv). by apply (stabilityOf_vertical _ p).
  - apply stabilityOf_no_vertical.
  - intros now2 w2 Hset. rewrite updateTrackingState_state.
    symmetry. by apply stabilityOf_set.
Qed.

Lemma tracking_state_from_active_planes_witness :
  PlaneTracker.getTrackingState
    (PlaneTracker.updateTrackingStability 7000 worldWithWall) = NOT_TRACKING
  /\ PlaneTracker.getTrackingState
       (PlaneTracker.updateTrackingStability 1016 worldWithWall) = TRACKING
  /\ PlaneTracker.getTrackingState
       (PlaneTracker.updateTrackingStability 1016 worldWithFloor) = LIMITED.
Proof.
  split_and!.
  - destruct (tracking_state_from_active_planes 7000 worldWithWall)
      as (_ & Hnone & _).
    apply Hnone. reflexivity.
  - destruct (tracking_state_from_active_planes 1016 worldWithWall)
      as (_ & _ & Hvertical & _).
    apply Hvertical. eexists. split; [apply list_elem_of_here | reflexivity].
  - destruct (tracking_state_from_active_planes 1016 worldWithFloor)
      as (_ & _ & _ & Hlimited & _).
    apply Hlimited.
    + discriminate.
    + intros p Hin. apply list_elem_of_singleton in Hin. subst p. discriminate.
Defined.

(** C6.  Take a plane the registry holds under [planeId] and a sweep at
    clock reading [now].  If [now - lastUpdate] exceeds 10000, the sweep
    removes the plane: its key is gone and no record that
    [getDetectedPlanes()] then returns is that old.  If [now - lastUpdate]
    exceeds 5000 without exceeding 10000, the plane is not among the
    active planes the tracking state is computed from, yet it is still
    held under its key and still among the records [getDetectedPlanes()]
    returns. *)
Theorem sweep_staleness_and_activity (now : Q) (w : PlaneTracker.World)
    (planeId : string) (r : ref) (plane : PlaneData) :
  TrackerRuns.keysUnique w ->
  JsMap.get (PlaneTracker.planes (PlaneTracker.tracker w)) planeId = Some r ->
  derefPlane (PlaneTracker.heap w) r = Some plane ->
  let swept := PlaneTracker.cleanupOldPlanes now w in
  (10000 < now - lastUpdate plane ->
     JsMap.get (PlaneTracker.planes (PlaneTracker.tracker swept)) planeId = None
     /\ (plane ∉ TrackerRuns.snapshot swept)
     /\ forall p, p ∈ TrackerRuns.snapshot swept -> ~ 10000 < now - lastUpdate p)
  /\ (5000 < now - lastUpdate plane ->
      now - lastUpdate plane <= 10000 ->
      (plane ∉ PlaneTracker.activePlanes now swept)
      /\ JsMap.get (PlaneTracker.planes (PlaneTracker.tracker swept)) planeId = Some r
      /\ plane ∈ TrackerRuns.snapshot swept).
Proof.
  intros Hnd Hget Hderef swept. subst swept. split.
  - intros Hstale.
    assert (forall p, p ∈ TrackerRuns.snapshot (PlaneTracker.cleanupOldPlanes now w) ->
                      ~ 10000 < now - lastUpdate p) as Hfresh.
    { intros p. rewrite snapshot_records. apply cleanup_leaves_fresh. }
    split_and!; [| | done].
    + destruct (JsMap.get
                  (PlaneTracker.planes
                     (PlaneTracker.tracker (PlaneTracker.cleanupOldPlanes now w)))
                  planeId) as [r' |] eqn:Hget'; [| done].
      exfalso. apply JsMapFacts.get_Some_elem in Hget'.
      revert Hget'. apply (cleanupEntries_drops now _ _ _ planeId r r').
      * by apply JsMapFacts.get_Some_elem.
      * unfold PlaneTracker.isStale. rewrite Hderef. by apply Qltb_lt.
    + intros Hin. by apply (Hfresh plane).
  - intros Hinactive Hfresh.
    pose proof (cleanup_keeps_fresh now w planeId r plane Hnd Hget Hderef Hfresh)
      as Hkept.
    split_and!; [| done |].
    + rewrite activePlanes_spec. intros [_ Hlt].
      by apply (Qlt_irrefl 5000), (Qlt_trans _ (now - lastUpdate plane)).
    + rewrite snapshot_records. unfold PlaneTracker.planeRecords.
      apply list_elem_of_omap. exists r. split; [| done].
      apply JsMapFacts.get_Some_elem in Hkept.
      unfold JsMap.values. apply list_elem_of_fmap. by exists (planeId, r).
Qed.

Lemma sweep_staleness_and_activity_witness :
  JsMap.get
    (PlaneTracker.planes
       (PlaneTracker.tracker (PlaneTracker.cleanupOldPlanes 12000 worldWithWall)))
    "p1" = None
  /\ JsMap.get
       (PlaneTracker.planes
          (PlaneTracker.tracker (PlaneTracker.cleanupOldPlanes 7000 worldWithWall)))
       "p1" = Some 0%nat
  /\ TrackerRuns.snapshot (PlaneTracker.cleanupOldPlanes 12000 worldWithWall) = []
  /\ length (TrackerRuns.snapshot (PlaneTracker.cleanupOldPlanes 7000 worldWithWall))
     = 1%nat.
Proof.
  assert (TrackerRuns.keysUnique worldWithWall) as Hnd.
  { apply NoDup_singleton. }
  split_and!.
  - destruct (sweep_staleness_and_activity 12000 worldWithWall "p1" 0%nat
                (mkPlaneData "p1" (mkPose unitX identityQuaternion)
                   (PlaneTracker.extractPlanePolygon wallPlane) vertical 1000)
                Hnd eq_refl eq_refl) as (Hstale & _).
    apply Hstale. reflexivity.
  - destruct (sweep_staleness_and_activity 7000 worldWithWall "p1" 0%nat
                (mkPlaneData "p1" (mkPose unitX identityQuaternion)
                   (PlaneTracker.extractPlanePolygon wallPlane) vertical 1000)
                Hnd eq_refl eq_refl) as (_ & Hfresh).
    apply Hfresh; [reflexivity | discriminate].
  - reflexivity.
  - reflexivity.
Defined.

(* ================================================================== *)
(** ** PlaneTracker: notifications of the tracking state *)

Section NotificationFacts.
Context `{Three}.
Import PlaneTracker TrackerRuns.

Lemma transitions_app (a b c : TrackingState) (vs us : list TrackingState) :
  transitions a vs b -> transitions b us c -> transitions a (vs ++ us) c.
Proof.
  revert a. induction vs as [| v vs IH]; intros a; simpl.
  - by intros ->.
  - intros [Hne Hvs] Hus. split; [done | by apply IH].
Qed.

Lemma notifiedStates_app (l1 l2 : list Call) :
  notifiedStates (l1 ++ l2) = notifiedStates l1 ++ notifiedStates l2.
Proof. apply omap_app. Qed.

Lemma quiet_refl (w : World) : quiet w w.
Proof. by split_and!. Qed.

Lemma quiet_trans (w1 w2 w3 : World) : quiet w1 w2 -> quiet w2 w3 -> quiet w1 w3.
Proof.
  intros (Hs1 & Hn1 & Hc1) (Hs2 & Hn2 & Hc2).
  split_and!; [congruence | congruence | auto].
Qed.

Lemma quiet_reported (w w' : World) :
  is_Some (onTrackingStateChangedCallback (tracker w)) ->
  quiet w w' -> reported w w'.
Proof.
  intros Hcb (Hs & Hn & Hc). split; [auto |].
  exists []. by rewrite app_nil_r.
Qed.

Lemma reported_trans (w1 w2 w3 : World) :
  reported w1 w2 -> reported w2 w3 -> reported w1 w3.
Proof.
  intros (_ & vs & Hn1 & Ht1) (Hcb & us & Hn2 & Ht2).
  split; [done |]. exists (vs ++ us). split.
  - by rewrite Hn2, Hn1, app_assoc.
  - by eapply transitions_app.
Qed.

(** The guarded setter invokes the callback exactly when the value
    changes. *)
Lemma updateTrackingState_reported (s : TrackingState) (w : World) :
  is_Some (onTrackingStateChangedCallback (tracker w)) ->
  reported w (updateTrackingState s w).
Proof.
  intros [cb Hcb]. unfold reported, updateTrackingState.
  destruct (decide (trackingState (tracker w) = s)) as [Heq | Hne]; simpl.
  - split; [by rewrite Hcb |]. exists []. by rewrite app_nil_r.
  - rewrite Hcb. split; [done |]. exists [s]. simpl.
    rewrite notifiedStates_app. split; [done |]. split; [congruence | done].
Qed.

Lemma ingestPlane_quiet (now : Q) (xrPlane : XRPlane) (w : World) :
  quiet w (ingestPlane now xrPlane w).1.
Proof.
  unfold ingestPlane.
  destruct (planeSpacePose xrPlane) as [msg | | position orientation];
    [apply quiet_refl | apply quiet_refl |].
  destruct (PoseFilter.filter _ _ _ _) as [pf filtered]. simpl.
  destruct (JsMap.get _ _); simpl; [by split_and! |].
  split_and!; [done | | done]. simpl.
  unfold invoke. destruct (onPlaneDetectedCallback _); [| done].
  rewrite notifiedStates_app. simpl. by rewrite app_nil_r.
Qed.

Lemma forEachPlane_quiet (now : Q) (xrPlanes : list XRPlane) (w : World) :
  quiet w (forEachPlane now xrPlanes w).1.
Proof.
  revert w. induction xrPlanes as [| xrPlane rest IH]; intros w; simpl.
  - apply quiet_refl.
  - pose proof (ingestPlane_quiet now xrPlane w) as Hq.
    destruct (ingestPlane now xrPlane w) as [w' [| msg]]; simpl in *.
    + eapply quiet_trans; [exact Hq | apply IH].
    + exact Hq.
Qed.

Lemma cleanupOldPlanes_quiet (now : Q) (w : World) : quiet w (cleanupOldPlanes now w).
Proof. by split_and!. Qed.

Lemma updatePlaneDetection_quiet (now : Q) (frame : XRFrame) (w : World) :
  quiet w (updatePlaneDetection now frame w).1.
Proof.
  unfold updatePlaneDetection.
  destruct (detectedPlanes frame) as [xrPlanes |]; [| apply quiet_refl].
  pose proof (forEachPlane_quiet now xrPlanes w) as Hq.
  destruct (forEachPlane now xrPlanes w) as [w' [| msg]]; simpl in *.
  - eapply quiet_trans; [exact Hq | apply cleanupOldPlanes_quiet].
  - exact Hq.
Qed.

Lemma updateHitTest_reported (frame : XRFrame) (w : World) :
  is_Some (onTrackingStateChangedCallback (tracker w)) ->
  reported w (updateHitTest frame w).1.
Proof.
  intros Hcb. unfold updateHitTest.
  destruct (negb (hitTestSource (tracker w))); simpl.
  { apply quiet_reported; [done | apply quiet_refl]. }
  destruct (hitTestResults frame) as [msg | results]; simpl.
  { apply quiet_reported; [done | apply quiet_refl]. }
  destruct (decide _); simpl; by apply updateTrackingState_reported.
Qed.

Lemma update_reported (now : Q) (frame : XRFrame) (w : World) :
  is_Some (onTrackingStateChangedCallback (tracker w)) ->
  reported w (update now frame w).
Proof.
  intros Hcb. unfold update.
  destruct (_ || _).
  { apply quiet_reported; [done | apply quiet_refl]. }
  pose proof (updatePlaneDetection_quiet now frame w) as Hq.
  destruct (updatePlaneDetection now frame w) as [w1 c1]. simpl in Hq.
  pose proof (quiet_reported w w1 Hcb Hq) as Hr1.
  destruct Hr1 as [Hcb1 _].
  assert (reported w w1) as Hr1 by (by apply quiet_reported).
  destruct c1 as [| msg].
  - pose proof (updateHitTest_reported frame w1 Hcb1) as Hr2.
    destruct (updateHitTest frame w1) as [w2 c2]. simpl in Hr2.
    assert (reported w w2) as Hr12 by (by eapply reported_trans).
    destruct Hr2 as [Hcb2 _].
    eapply reported_trans; [exact Hr12 |].
    destruct c2; by apply updateTrackingState_reported.
  - eapply reported_trans; [exact Hr1 |].
    by apply updateTrackingState_reported.
Qed.

Lemma onSessionEnd_reported (w : World) :
  is_Some (onTrackingStateChangedCallback (tracker w)) ->
  reported w (onSessionEnd w).
Proof.
  intros Hcb. unfold onSessionEnd.
  eapply reported_trans; [| by apply updateTrackingState_reported].
  apply quiet_reported; [done | by split_and!].
Qed.

Lemma initializeXR_reported (outcome : InitOutcome) (w : World) :
  is_Some (onTrackingStateChangedCallback (tracker w)) ->
  reported w (initializeXR outcome w).1.
Proof.
  intros Hcb. destruct outcome as [msg | msg | hitTestAvailable]; simpl.
  - apply quiet_reported; [done | apply quiet_refl].
  - apply quiet_reported; [done | by split_and!].
  - eapply reported_trans; [| by apply updateTrackingState_reported].
    apply quiet_reported; [done | by split_and!].
Qed.

Lemma runOp_reported (op : Op) (w : World) :
  is_Some (onTrackingStateChangedCallback (tracker w)) ->
  reported w (runOp op w).
Proof.
  intros Hcb. destruct op; simpl.
  - by apply initializeXR_reported.
  - by apply update_reported.
  - by apply onSessionEnd_reported.
  - unfold endSession. destruct (xrSession (tracker w)); [destruct outcome |]; simpl.
    + by apply onSessionEnd_reported.
    + apply quiet_reported; [done | apply quiet_refl].
    + apply quiet_reported; [done | apply quiet_refl].
    + apply quiet_reported; [done | apply quiet_refl].
  - apply quiet_reported; [done | by split_and!].
  - apply quiet_reported; [done | by split_and!].
  - apply quiet_reported; [done | by split_and!].
Qed.

Lemma runOps_reported (ops : list Op) (w : World) :
  is_Some (onTrackingStateChangedCallback (tracker w)) ->
  reported w (runOps ops w).
Proof.
  revert w. induction ops as [| op ops IH]; intros w Hcb; simpl.
  - apply quiet_reported; [done | apply quiet_refl].
  - pose proof (runOp_reported op w Hcb) as Hr.
    eapply reported_trans; [exact Hr |].
    apply IH. by destruct Hr.
Qed.

End NotificationFacts.

(** C5, as the code has it.  The tracking state is assigned in one place,
    the guarded setter [updateTrackingState], which the recomputation
    from the active planes calls and so do the hit-test update of each
    frame, session start, the error handler of [update] and session end.
    With a callback registered, the setter invokes it exactly when the
    new value differs from the held one, and never otherwise; over any
    run of tracker operations the values passed to the callback are
    exactly the successive values of the tracking state, each different
    from the one before it. *)
Theorem tracking_state_notified_once_per_transition `{Three}
    (ops : list TrackerRuns.Op) (w : PlaneTracker.World)
    (cb : PlaneTracker.Callback) :
  PlaneTracker.onTrackingStateChangedCallback (PlaneTracker.tracker w) = Some cb ->
  (forall s,
     PlaneTracker.getTrackingState (PlaneTracker.updateTrackingState s w) = s
     /\ PlaneTracker.calls (PlaneTracker.updateTrackingState s w)
        = if decide (PlaneTracker.getTrackingState w = s)
          then PlaneTracker.calls w
          else PlaneTracker.calls w ++ [PlaneTracker.TrackingStateChanged cb s])
  /\ exists vs,
       TrackerRuns.notifiedStates (PlaneTracker.calls (TrackerRuns.runOps ops w))
         = TrackerRuns.notifiedStates (PlaneTracker.calls w) ++ vs
       /\ TrackerRuns.transitions
            (PlaneTracker.getTrackingState w) vs
            (PlaneTracker.getTrackingState (TrackerRuns.runOps ops w)).
Proof.
  intros Hcb. split.
  - intros s. unfold PlaneTracker.getTrackingState.
    rewrite updateTrackingState_state, updateTrackingState_calls, Hcb.
    split; [done |]. by destruct (decide _).
  - destruct (runOps_reported ops w) as (_ & vs & Hn & Ht); [by rewrite Hcb |].
    by exists vs.
Qed.

Lemma tracking_state_notified_once_per_transition_witness :
  exists vs,
    TrackerRuns.notifiedStates
      (PlaneTracker.calls
         (@TrackerRuns.runOps rationalThree
            [TrackerRuns.OpUpdate 1000 frameWithHit;
             TrackerRuns.OpUpdate 1016 frameWithHit;
             TrackerRuns.OpSessionEnd] startedWorld))
      = TrackerRuns.notifiedStates (PlaneTracker.calls startedWorld) ++ vs
    /\ TrackerRuns.transitions LIMITED vs NOT_TRACKING.
Proof.
  destruct (@tracking_state_notified_once_per_transition rationalThree
              [TrackerRuns.OpUpdate 1000 frameWithHit;
               TrackerRuns.OpUpdate 1016 frameWithHit;
               TrackerRuns.OpSessionEnd] startedWorld 7%nat eq_refl)
    as (_ & vs & Hn & Ht).
  exists vs. split; [exact Hn | exact Ht].
Defined.

(** C5 as stated fails: the hit-test update of a frame changes the
    tracking state, and notifies, without any recomputation from the
    active planes, and to a value that recomputation does not give. *)
Lemma hit_test_update_changes_tracking_state :
  PlaneTracker.getTrackingState startedWorld = LIMITED
  /\ PlaneTracker.getTrackingState
       (PlaneTracker.updateHitTest frameWithHit startedWorld).1 = TRACKING
  /\ PlaneTracker.calls (PlaneTracker.updateHitTest frameWithHit startedWorld).1
     = PlaneTracker.calls startedWorld ++ [PlaneTracker.TrackingStateChanged 7 TRACKING]
  /\ PlaneTracker.stabilityOf (PlaneTracker.activePlanes 1000 startedWorld)
     = NOT_TRACKING
  /\ TrackerRuns.notifiedStates
       (PlaneTracker.calls (@PlaneTracker.update rationalThree 1000 frameWithHit
                              startedWorld))
     = [LIMITED; TRACKING; NOT_TRACKING].
Proof. split_and!; reflexivity. Qed.

(* ================================================================== *)
(** ** PlaneTracker: session end, and the one pose filter *)

Section SharedFilterFacts.
Context `{Three}.
Import PlaneTracker TrackerRuns.

(** What one pass of the loop body does to the filter depends on the
    plane's pose and the filter, and on nothing else. *)
Lemma ingestPlane_filter (now : Q) (xrPlane : XRPlane) (w : World) :
  poseFilter (tracker (ingestPlane now xrPlane w).1)
    = match planeSpacePose xrPlane with
      | PoseOk position orientation =>
          (PoseFilter.filter (poseFilter (tracker w)) now position orientation).1
      | _ => poseFilter (tracker w)
      end
  /\ (ingestPlane now xrPlane w).2
     = match planeSpacePose xrPlane with
       | PoseThrows msg => Throw msg
       | _ => Normal
       end.
Proof.
  unfold ingestPlane.
  destruct (planeSpacePose xrPlane) as [msg | | position orientation];
    [done | done |].
  destruct (PoseFilter.filter _ _ _ _) as [pf filtered]. simpl.
  by destruct (JsMap.get _ _).
Qed.

Lemma forEachPlane_filter (now : Q) (xrPlanes1 xrPlanes2 : list XRPlane)
    (w1 w2 : World) :
  planeSpacePose <$> xrPlanes1 = planeSpacePose <$> xrPlanes2 ->
  poseFilter (tracker w1) = poseFilter (tracker w2) ->
  poseFilter (tracker (forEachPlane now xrPlanes1 w1).1)
    = poseFilter (tracker (forEachPlane now xrPlanes2 w2).1).
Proof.
  revert xrPlanes2 w1 w2.
  induction xrPlanes1 as [| p1 rest1 IH]; intros [| p2 rest2] w1 w2 Hposes Hf;
    try discriminate; [done |].
  injection Hposes as Hpose Hrest. simpl.
  destruct (ingestPlane_filter now p1 w1) as [Hf1 Hc1].
  destruct (ingestPlane_filter now p2 w2) as [Hf2 Hc2].
  rewrite <- Hpose, <- Hf in Hf2. rewrite <- Hpose in Hc2.
  destruct (ingestPlane now p1 w1) as [w1' c1].
  destruct (ingestPlane now p2 w2) as [w2' c2]. simpl in *.
  rewrite Hc1, Hc2. revert Hf1 Hf2.
  destruct (planeSpacePose p1); simpl; intros Hf1 Hf2; [congruence | |];
    (apply IH; [exact Hrest | congruence]).
Qed.

Lemma ingestPlane_pose (now : Q) (xrPlane : XRPlane) (w : World)
    (position : Vector3) (orientation : Quaternion) :
  planeSpacePose xrPlane = PoseOk position orientation ->
  poseOf (ingestPlane now xrPlane w).1 (planeIdOf xrPlane)
    = Some (mkPose
              (PoseFilter.f_position
                 (PoseFilter.filter (poseFilter (tracker w)) now position
                                    orientation).2)
              (PoseFilter.f_rotation
                 (PoseFilter.filter (poseFilter (tracker w)) now position
                                    orientation).2)).
Proof.
  intros Hpose. unfold ingestPlane. rewrite Hpose.
  destruct (PoseFilter.filter _ _ _ _) as [pf filtered]. simpl.
  unfold poseOf.
  destruct (JsMap.get _ _); simpl;
    rewrite JsMapFacts.get_set_eq; simpl;
    by rewrite derefPlane_alloc.
Qed.

End SharedFilterFacts.

(** C1, as the code has it.  The registry holds one [PoseFilter], shared
    by all surface identifiers.  The pose recorded when a sample is
    ingested is what that filter returns for it, and the filter's state
    after a run of samples is determined by their poses in order, whatever
    identifiers they carry. *)
Theorem one_pose_filter_for_all_surfaces `{Three} (now : Q) (w : PlaneTracker.World)
    (xrPlane : XRPlane) (position : Vector3) (orientation : Quaternion) :
  planeSpacePose xrPlane = PoseOk position orientation ->
  let out :=
    PoseFilter.filter (PlaneTracker.poseFilter (PlaneTracker.tracker w))
                      now position orientation in
  let w' := (PlaneTracker.ingestPlane now xrPlane w).1 in
  PlaneTracker.poseFilter (PlaneTracker.tracker w') = out.1
  /\ TrackerRuns.poseOf w' (PlaneTracker.planeIdOf xrPlane)
     = Some (mkPose (PoseFilter.f_position out.2) (PoseFilter.f_rotation out.2))
  /\ (forall xrPlanes1 xrPlanes2,
        planeSpacePose <$> xrPlanes1 = planeSpacePose <$> xrPlanes2 ->
        PlaneTracker.poseFilter
          (PlaneTracker.tracker (PlaneTracker.forEachPlane now xrPlanes1 w).1)
        = PlaneTracker.poseFilter
            (PlaneTracker.tracker (PlaneTracker.forEachPlane now xrPlanes2 w).1)).
Proof.
  intros Hpose out w'. subst out w'. split_and!.
  - destruct (ingestPlane_filter now xrPlane w) as [Hf _]. by rewrite Hf, Hpose.
  - by apply ingestPlane_pose.
  - intros xrPlanes1 xrPlanes2 Hposes. by apply forEachPlane_filter.
Qed.

Lemma one_pose_filter_for_all_surfaces_witness :
  PoseFilter.lastPosition
    (PlaneTracker.poseFilter
       (PlaneTracker.tracker
          (@PlaneTracker.ingestPlane rationalThree 1016 originPlane worldWithWall).1))
    = Some (PoseFilter.f_position
              (@PoseFilter.filter rationalThree
                 (PlaneTracker.poseFilter (PlaneTracker.tracker worldWithWall))
                 1016 origin identityQuaternion).2).
Proof.
  destruct (@one_pose_filter_for_all_surfaces rationalThree 1016 worldWithWall
              originPlane origin identityQuaternion eq_refl) as (Hf & _ & _).
  rewrite Hf. reflexivity.
Defined.

(** C1 as stated fails: with nothing ingested under ["p3"] before, the
    pose recorded for a sample of ["p3"] at the origin is the origin when
    it comes alone, and (0.8, 0, 0) when a sample of ["p1"] at (1,0,0)
    precedes it in the frame. *)
Lemma pose_depends_on_other_surface :
  TrackerRuns.poseOf
    (@PlaneTracker.update rationalThree 1000 (frameOf [originPlane]) startedWorld) "p3"
    = Some (mkPose origin identityQuaternion)
  /\ exists p,
       TrackerRuns.poseOf
         (@PlaneTracker.update rationalThree 1000 (frameOf [wallPlane; originPlane])
                               startedWorld) "p3" = Some p
       /\ vx (pose_position p) == 8 # 10
       /\ ~ veq (pose_position p) origin.
Proof.
  split; [reflexivity |].
  eexists. split; [reflexivity |]. split; [reflexivity |].
  intros (Hx & _ & _). discriminate Hx.
Qed.

(** C7, as the code has it.  [onSessionEnd] empties the plane map, so
    that [getDetectedPlanes()] returns no record afterwards, and sets the
    tracking state to [not_tracking], invoking the registered callback
    exactly when the state was different before.  It does not touch the
    pose filter: the filter's state is what it was, and the next sample
    ingested is smoothed against it. *)
Theorem session_end_clears_planes_keeps_filter `{Three} (w : PlaneTracker.World) :
  let w' := PlaneTracker.onSessionEnd w in
  PlaneTracker.planes (PlaneTracker.tracker w') = []
  /\ TrackerRuns.snapshot w' = []
  /\ PlaneTracker.getTrackingState w' = NOT_TRACKING
  /\ PlaneTracker.calls w'
     = match PlaneTracker.onTrackingStateChangedCallback (PlaneTracker.tracker w) with
       | Some cb =>
           if decide (PlaneTracker.getTrackingState w = NOT_TRACKING)
           then PlaneTracker.calls w
           else PlaneTracker.calls w
                  ++ [PlaneTracker.TrackingStateChanged cb NOT_TRACKING]
       | None => PlaneTracker.calls w
       end
  /\ PlaneTracker.poseFilter (PlaneTracker.tracker w')
     = PlaneTracker.poseFilter (PlaneTracker.tracker w)
  /\ (forall now xrPlane,
        PlaneTracker.poseFilter
          (PlaneTracker.tracker (PlaneTracker.ingestPlane now xrPlane w').1)
        = PlaneTracker.poseFilter
            (PlaneTracker.tracker (PlaneTracker.ingestPlane now xrPlane w).1)).
Proof.
  intros w'. subst w'.
  assert (PlaneTracker.poseFilter (PlaneTracker.tracker (PlaneTracker.onSessionEnd w))
          = PlaneTracker.poseFilter (PlaneTracker.tracker w)) as Hfilter.
  { unfold PlaneTracker.onSessionEnd.
    by destruct (updateTrackingState_frame NOT_TRACKING
                   (PlaneTracker.mkWorld (PlaneTracker.heap w)
                      (PlaneTracker.setPlanes JsMap.empty
                         (PlaneTracker.setHandles false false false
                            (PlaneTracker.tracker w)))
                      (PlaneTracker.calls w))) as (_ & _ & -> & _). }
  assert (PlaneTracker.planes (PlaneTracker.tracker (PlaneTracker.onSessionEnd w)) = [])
    as Hplanes.
  { unfold PlaneTracker.onSessionEnd.
    by destruct (updateTrackingState_frame NOT_TRACKING
                   (PlaneTracker.mkWorld (PlaneTracker.heap w)
                      (PlaneTracker.setPlanes JsMap.empty
                         (PlaneTracker.setHandles false false false
                            (PlaneTracker.tracker w)))
                      (PlaneTracker.calls w))) as (_ & -> & _). }
  split_and!.
  - done.
  - rewrite snapshot_records. unfold PlaneTracker.planeRecords. by rewrite Hplanes.
  - apply updateTrackingState_state.
  - unfold PlaneTracker.onSessionEnd, PlaneTracker.getTrackingState.
    rewrite updateTrackingState_calls. simpl.
    destruct (PlaneTracker.onTrackingStateChangedCallback _);
      by destruct (decide _).
  - done.
  - intros now xrPlane.
    destruct (ingestPlane_filter now xrPlane (PlaneTracker.onSessionEnd w)) as [-> _].
    destruct (ingestPlane_filter now xrPlane w) as [-> _].
    by rewrite Hfilter.
Qed.

(** C7 as stated fails: a surface seen at the origin in the session that
    follows is recorded at (0.8, 0, 0), smoothed against the wall that
    the ended session saw at (1,0,0). *)
Lemma session_end_leaves_filter_state :
  PoseFilter.lastPosition
    (PlaneTracker.poseFilter
       (PlaneTracker.tracker (PlaneTracker.onSessionEnd worldWithWall)))
    = Some unitX
  /\ exists p,
       TrackerRuns.poseOf
         (@PlaneTracker.update rationalThree 2000 (frameOf [originPlane])
                               restartedWorld) "p3" = Some p
       /\ vx (pose_position p) == 8 # 10
       /\ ~ veq (pose_position p) origin.
Proof.
  split; [reflexivity |].
  eexists. split; [reflexivity |]. split; [reflexivity |].
  intros (Hx & _ & _). discriminate Hx.
Qed.

(* ================================================================== *)
(** ** PlaneTracker: what the accessors hand out *)

Section SnapshotFacts.
Import PlaneTracker TrackerRuns.

(** Changing the array leaves every plane record where it was. *)
Lemma mutate_array_derefPlane (arr : ref) (h : Heap) (elems : list ref) (r : ref) :
  derefPlane (mutate arr h (SetArray elems)) r = derefPlane h r.
Proof.
  unfold mutate.
  destruct (derefArray h arr) as [old |] eqn:Harr; [| done].
  unfold derefPlane.
  destruct (decide (arr = r)) as [<- | Hne].
  - unfold derefArray in Harr.
    destruct (h !! arr) as [[p | a] |] eqn:Hlook; try discriminate.
    rewrite list_lookup_insert_eq; [done |].
    by eapply lookup_lt_Some.
  - by rewrite list_lookup_insert_ne.
Qed.

Lemma mutate_arrays_derefPlane (arr : ref) (ms : list Mutation) (h : Heap) (r : ref) :
  Forall (fun m => exists elems, m = SetArray elems) ms ->
  derefPlane (fold_left (mutate arr) ms h) r = derefPlane h r.
Proof.
  intros Hms. revert h.
  induction Hms as [| m ms [elems ->] _ IH]; intros h; simpl; [done |].
  by rewrite IH, mutate_array_derefPlane.
Qed.

Lemma planeRecords_ext (w1 w2 : World) :
  planes (tracker w1) = planes (tracker w2) ->
  (forall r, derefPlane (heap w1) r = derefPlane (heap w2) r) ->
  planeRecords w1 = planeRecords w2.
Proof.
  intros Hplanes Hderef. unfold planeRecords. rewrite Hplanes.
  induction (JsMap.values (planes (tracker w2))) as [| r refs IH]; [done |].
  csimpl. by rewrite Hderef, IH.
Qed.

End SnapshotFacts.

(** C9, as the code has it.  [getDetectedPlanes()] returns a new array
    each time, and [getTrackingState()] an enum value: whatever the caller
    does to the array itself (assigning, adding or removing elements),
    later calls of the accessors show what they showed before.  The
    elements of the array are the registry's own records. *)
Theorem returned_array_is_a_copy (w : PlaneTracker.World)
    (ms : list TrackerRuns.Mutation) :
  Forall (fun m => exists elems, m = TrackerRuns.SetArray elems) ms ->
  let w1 := (PlaneTracker.getDetectedPlanes w).1 in
  let arr := (PlaneTracker.getDetectedPlanes w).2 in
  derefArray (PlaneTracker.heap w1) arr
    = Some (JsMap.values (PlaneTracker.planes (PlaneTracker.tracker w)))
  /\ derefArray (PlaneTracker.heap w) arr = None
  /\ TrackerRuns.observe w1 = TrackerRuns.observe w
  /\ TrackerRuns.observe (TrackerRuns.mutateAll arr ms w1) = TrackerRuns.observe w1.
Proof.
  intros Hms w1 arr. subst w1 arr.
  unfold PlaneTracker.getDetectedPlanes, alloc. simpl.
  split_and!.
  - apply derefArray_alloc.
  - unfold derefArray. by rewrite lookup_ge_None_2.
  - unfold TrackerRuns.observe, PlaneTracker.getTrackingState. simpl. f_equal.
    rewrite !snapshot_records. apply planeRecords_ext; [done |].
    intros r. simpl. apply derefPlane_alloc_array.
  - unfold TrackerRuns.observe, PlaneTracker.getTrackingState. simpl. f_equal.
    rewrite !snapshot_records. apply planeRecords_ext; [done |].
    intros r. simpl. by apply mutate_arrays_derefPlane.
Qed.

Lemma returned_array_is_a_copy_witness :
  TrackerRuns.observe
    (TrackerRuns.mutateAll (PlaneTracker.getDetectedPlanes worldWithWall).2
       [TrackerRuns.SetArray []; TrackerRuns.SetArray [0%nat; 0%nat]]
       (PlaneTracker.getDetectedPlanes worldWithWall).1)
    = TrackerRuns.observe (PlaneTracker.getDetectedPlanes worldWithWall).1.
Proof.
  destruct (returned_array_is_a_copy worldWithWall
              [TrackerRuns.SetArray []; TrackerRuns.SetArray [0%nat; 0%nat]])
    as (_ & _ & _ & Hsame).
  - repeat constructor; eexists; reflexivity.
  - exact Hsame.
Defined.

(** C9 as stated fails: a write through an element of the returned array
    lands in the registry's record.  After the caller overwrites the
    classification of the wall, the accessor shows the wall as
    horizontal and the next recomputation reports [limited] instead of
    [tracking]. *)
Lemma write_through_snapshot_reaches_registry :
  orientation <$> TrackerRuns.snapshot worldWithWall = [vertical]
  /\ orientation
       <$> TrackerRuns.snapshot
             (TrackerRuns.mutateAll (PlaneTracker.getDetectedPlanes worldWithWall).2
                [TrackerRuns.SetElementRecord 0 flippedWall]
                (PlaneTracker.getDetectedPlanes worldWithWall).1)
     = [horizontal]
  /\ PlaneTracker.getTrackingState
       (PlaneTracker.updateTrackingStability 1016
          (PlaneTracker.getDetectedPlanes worldWithWall).1) = TRACKING
  /\ PlaneTracker.getTrackingState
       (PlaneTracker.updateTrackingStability 1016
          (TrackerRuns.mutateAll (PlaneTracker.getDetectedPlanes worldWithWall).2
             [TrackerRuns.SetElementRecord 0 flippedWall]
             (PlaneTracker.getDetectedPlanes worldWithWall).1)) = LIMITED.
Proof. split_and!; reflexivity. Qed.

(* ================================================================== *)
(** ** PoseFilter: the stability flag *)

Section StabilityFacts.
Context `{Three}.
Import PoseFilter.

Lemma falsyNumber_nonzero (t : Q) : ~ t == 0 -> falsyNumber (Some t) = false.
Proof.
  intros Hne. simpl. apply not_true_iff_false. intros Heq.
  by apply Qeq_bool_iff in Heq.
Qed.

(** One call on an initialised filter, with a clock that does not read
    zero, follows the specified clock. *)
Lemma filter_follows_clock (f : t) (s : Sample) :
  initialised f -> startNonzero f -> ~ s_now s == 0 ->
  let tk := StabilitySpec.mkTick (s_now s) (lowMotion f s) in
  let f' := (filter f (s_now s) (s_position s) (s_rotation s)).1 in
  f_isStable (filter f (s_now s) (s_position s) (s_rotation s)).2
    = StabilitySpec.stableAt (stabilizationTime (options f))
                             (stabilizationStartTime f) tk
  /\ stabilizationStartTime f'
     = StabilitySpec.clockAfter (stabilizationStartTime f) tk
  /\ options f' = options f
  /\ initialised f'
  /\ startNonzero f'.
Proof.
  intros [[lp Hlp] [lr Hlr]] Hstart Hnow tk f'. subst tk f'.
  unfold filter, lowMotion. rewrite Hlp, Hlr. simpl.
  unfold updateStabilityState, StabilitySpec.stableAt, StabilitySpec.clockAfter.
  simpl.
  unfold initialised, startNonzero.
  destruct (isLowJitter _ _ && isLowVelocity _) eqn:Hlow; simpl.
  - destruct (stabilizationStartTime f) as [t |] eqn:Hst; simpl.
    + pose proof (falsyNumber_nonzero t (Hstart t Hst)) as Hfalsy.
      simpl in Hfalsy. rewrite Hfalsy.
      split_and!; try done; try by eexists.
      intros t' [= <-]. by apply (Hstart t).
    + split_and!; try done; try by eexists.
      by intros t' [= <-].
  - split_and!; try done; by eexists.
Qed.

(** So does every run of calls. *)
Lemma filterRun_follows_clock (samples : list Sample) (f : t) :
  initialised f -> startNonzero f ->
  Forall (fun s => ~ s_now s == 0) samples ->
  f_isStable <$> (filterRun f samples).2
    = StabilitySpec.stableRun (stabilizationTime (options f))
                              (stabilizationStartTime f) (ticksOf f samples).
Proof.
  intros Hinit Hstart Hnows. revert f Hinit Hstart.
  induction Hnows as [| s samples Hnow _ IH]; intros f Hinit Hstart; [done |].
  destruct (filter_follows_clock f s Hinit Hstart Hnow)
    as (Hstable & Hclock & Hopts & Hinit' & Hstart').
  simpl.
  destruct (filter f (s_now s) (s_position s) (s_rotation s)) as [f1 out] eqn:Hstep.
  simpl in *.
  specialize (IH f1 Hinit' Hstart').
  destruct (filterRun f1 samples) as [f2 outs]. simpl in *.
  rewrite Hopts, Hclock in IH.
  f_equal; [exact Hstable | exact IH].
Qed.

(** After [reset()] the next call is a first call: it returns the raw
    pose, unsmoothed, and reports an unstable pose. *)
Lemma reset_then_filter (f : t) (now : Q) (position : Vector3)
    (rotation : Quaternion) :
  (filter (reset f) now position rotation).2 = mkFiltered position rotation false
  /\ velocityHistory (filter (reset f) now position rotation).1 = []
  /\ stabilizationStartTime (filter (reset f) now position rotation).1 = Some now.
Proof. done. Qed.

(** A call whose displacement reaches the jitter threshold reports an
    unstable pose and clears the recorded start time. *)
Lemma filter_motion_clears_clock (f : t) (now : Q) (position : Vector3)
    (rotation : Quaternion) (lp : Vector3) (lr : Quaternion) :
  lastPosition f = Some lp -> lastRotation f = Some lr ->
  maxJitterThreshold (options f) <= distanceTo position lp ->
  f_isStable (filter f now position rotation).2 = false
  /\ stabilizationStartTime (filter f now position rotation).1 = None
  /\ isStable (filter f now position rotation).1 = false.
Proof.
  intros Hlp Hlr Hmotion. unfold filter. rewrite Hlp, Hlr. simpl.
  unfold updateStabilityState, isLowJitter. simpl.
  by rewrite (proj2 (Qltb_ge _ _) Hmotion).
Qed.

End StabilityFacts.

(** On nonzero clock readings the code follows the specified clock.  A
    fresh filter whose first call is
    made at a nonzero clock reading, and whose later calls are too,
    reports on each later call the stability flag of the specified clock
    that the first call started. *)
Lemma stability_follows_clock_from_first_call `{Three}
    (over : PoseFilter.PartialOptions) (first : Sample) (later : list Sample) :
  ~ s_now first == 0 ->
  Forall (fun s => ~ s_now s == 0) later ->
  let f0 := PoseFilter.new over in
  let f1 := (PoseFilter.filter f0 (s_now first) (s_position first)
                               (s_rotation first)).1 in
  PoseFilter.f_isStable <$> (filterRun f0 (first :: later)).2
    = false :: StabilitySpec.stableRun
                 (PoseFilter.stabilizationTime (PoseFilter.options f0))
                 (Some (s_now first)) (ticksOf f1 later).
Proof.
  intros Hfirst Hlater f0 f1. subst f0 f1. simpl.
  pose proof (filterRun_follows_clock later
                (PoseFilter.mkPoseFilter
                   (PoseFilter.spreadOptions PoseFilter.defaultOptions over)
                   (Some (s_position first)) (Some (s_rotation first)) []
                   (Some (s_now first)) false)) as Hrun.
  destruct (filterRun _ later) as [f2 outs]. simpl in *.
  f_equal. apply Hrun; [| | done].
  - split; by eexists.
  - by intros t [= <-].
Qed.

(** C3 at clock reading zero.  With the default options and the pose at
    rest, the first call at clock reading 0 and the second at 1000: the
    second call is a low-motion call and the clock started by the first
    has run for the whole window, so the specified flag is [true]; the
    code takes the recorded start time 0 for no start time, restarts the
    clock at 1000 and reports [false].  The same two calls made at 5 and
    1005 report [true]. *)
Theorem stability_clock_restarts_at_time_zero :
  PoseFilter.f_isStable <$> (@filterRun rationalThree
                               (PoseFilter.new PoseFilter.noOptions) restAtZero).2
    = [false; false]
  /\ StabilitySpec.stableRun 1000 (Some 0)
       (@ticksOf rationalThree filterAtOrigin
                 [mkSample 1000 origin identityQuaternion])
     = [true]
  /\ PoseFilter.stabilizationStartTime filterAtOrigin = Some 0
  /\ PoseFilter.stabilizationStartTime
       (@filterRun rationalThree (PoseFilter.new PoseFilter.noOptions) restAtZero).1
     = Some 1000
  /\ PoseFilter.f_isStable <$> (@filterRun rationalThree
                                  (PoseFilter.new PoseFilter.noOptions) restAtFive).2
     = [false; true].
Proof. split_and!; reflexivity. Qed.

(* ================================================================== *)
(** ** PlaneTracker: the plane map holds each key once *)

Section KeysUniqueFacts.
Context `{Three}.
Import PlaneTracker TrackerRuns.

Lemma updateTrackingState_keysUnique (s : TrackingState) (w : World) :
  keysUnique w -> keysUnique (updateTrackingState s w).
Proof.
  unfold keysUnique.
  by destruct (updateTrackingState_frame s w) as (_ & -> & _).
Qed.

Lemma ingestPlane_keysUnique (now : Q) (xrPlane : XRPlane) (w : World) :
  keysUnique w -> keysUnique (ingestPlane now xrPlane w).1.
Proof.
  unfold keysUnique, ingestPlane. intros Hnd.
  destruct (planeSpacePose xrPlane); [done | done |].
  destruct (PoseFilter.filter _ _ _ _) as [pf filtered]. simpl.
  destruct (JsMap.get _ _); simpl; by apply JsMapFacts.NoDup_keys_set.
Qed.

Lemma forEachPlane_keysUnique (now : Q) (xrPlanes : list XRPlane) (w : World) :
  keysUnique w -> keysUnique (forEachPlane now xrPlanes w).1.
Proof.
  revert w. induction xrPlanes as [| xrPlane rest IH]; intros w Hnd; [done |].
  simpl. pose proof (ingestPlane_keysUnique now xrPlane w Hnd) as Hnd'.
  destruct (ingestPlane now xrPlane w) as [w' [| msg]]; simpl in *; [by apply IH | done].
Qed.

Lemma update_keysUnique (now : Q) (frame : XRFrame) (w : World) :
  keysUnique w -> keysUnique (update now frame w).
Proof.
  intros Hnd. unfold update. destruct (_ || _); [done |].
  assert (keysUnique (updatePlaneDetection now frame w).1) as Hnd1.
  { unfold updatePlaneDetection.
    destruct (detectedPlanes frame) as [xrPlanes |]; [| done].
    pose proof (forEachPlane_keysUnique now xrPlanes w Hnd) as Hnd'.
    destruct (forEachPlane now xrPlanes w) as [w' [| msg]]; simpl in *; [| done].
    by apply cleanupEntries_NoDup. }
  destruct (updatePlaneDetection now frame w) as [w1 [| msg]]; simpl in *;
    [| by apply updateTrackingState_keysUnique].
  assert (keysUnique (updateHitTest frame w1).1) as Hnd2.
  { unfold updateHitTest. destruct (negb _); [done |].
    destruct (hitTestResults frame); [done |].
    destruct (decide _); by apply updateTrackingState_keysUnique. }
  destruct (updateHitTest frame w1) as [w2 [| msg]]; simpl in *;
    by apply updateTrackingState_keysUnique.
Qed.

(** Every registry reached from a new tracker holds each key once. *)
Lemma runOps_keysUnique (ops : list Op) (w : World) :
  keysUnique w -> keysUnique (runOps ops w).
Proof.
  revert w. induction ops as [| op ops IH]; intros w Hnd; [done |].
  simpl. apply IH. destruct op; simpl.
  - destruct outcome; simpl; [done | done |].
    by apply updateTrackingState_keysUnique.
  - by apply update_keysUnique.
  - apply updateTrackingState_keysUnique. apply NoDup_nil_2.
  - unfold endSession. destruct (xrSession _); [| done].
    destruct outcome; simpl; [| done | done].
    apply updateTrackingState_keysUnique. apply NoDup_nil_2.
  - done.
  - done.
  - done.
Qed.

Lemma initial_keysUnique : keysUnique initial.
Proof. apply NoDup_nil_2. Qed.

End KeysUniqueFacts.

(* ================================================================== *)
(** * Further properties *)

(** ** PoseFilter: the rolling history *)

Section HistoryFacts.
Context `{Three}.
Import PoseFilter.

Lemma pushHistory_length (h : list Vector3) (delta : Q) :
  (length h <= 10)%nat ->
  length (pushHistory h delta) = Nat.min (length h + 1) 10.
Proof.
  intros Hlen. unfold pushHistory.
  destruct (decide (10 < length (h ++ [mkVector3 delta 0 0]))%nat) as [Hgt | Hle];
    rewrite ?length_app in *; simpl in *.
  - destruct h as [| v h']; simpl in *; [lia |].
    rewrite ?length_app. simpl. lia.
  - lia.
Qed.

(** A call on an initialised filter pushes one displacement and leaves
    the filter initialised. *)
Lemma filter_history (f : t) (now : Q) (position : Vector3) (rotation : Quaternion) :
  initialised f ->
  initialised (filter f now position rotation).1
  /\ exists delta,
       velocityHistory (filter f now position rotation).1
         = pushHistory (velocityHistory f) delta.
Proof.
  intros [[lp Hlp] [lr Hlr]]. unfold filter. rewrite Hlp, Hlr. simpl.
  unfold updateStabilityState. simpl.
  destruct (_ && _); simpl; (split; [split; by eexists | by eexists]).
Qed.

End HistoryFacts.

(** X1.  The rolling history never holds more than ten displacements: a
    run of [n] calls on an initialised filter whose history has [k <= 10]
    entries leaves it with [min (k + n) 10]. *)
Theorem velocity_history_bounded `{Three} (samples : list Sample) (f : PoseFilter.t) :
  initialised f ->
  (length (PoseFilter.velocityHistory f) <= 10)%nat ->
  length (PoseFilter.velocityHistory (filterRun f samples).1)
    = Nat.min (length (PoseFilter.velocityHistory f) + length samples) 10.
Proof.
  revert f. induction samples as [| s samples IH]; intros f Hinit Hlen; simpl.
  - rewrite Nat.add_0_r. lia.
  - destruct (filter_history f (s_now s) (s_position s) (s_rotation s) Hinit)
      as [Hinit' [delta Hpush]].
    destruct (PoseFilter.filter f (s_now s) (s_position s) (s_rotation s))
      as [f1 out]. simpl in *.
    specialize (IH f1 Hinit').
    destruct (filterRun f1 samples) as [f2 outs]. simpl in *.
    rewrite IH; rewrite Hpush, pushHistory_length by done; lia.
Qed.

Lemma velocity_history_bounded_witness :
  length (PoseFilter.velocityHistory
            (@filterRun rationalThree filterAtOrigin
               (replicate 12 (mkSample 16 unitX identityQuaternion))).1)
    = 10%nat.
Proof.
  rewrite (@velocity_history_bounded rationalThree).
  - reflexivity.
  - split; eexists; reflexivity.
  - simpl. lia.
Defined.

(** ** PoseFilter: what a stable report rests on *)

Section StableWindowFacts.
Context `{Three}.
Import PoseFilter.

(** One call on an initialised filter, at any clock reading. *)
Lemma filter_clock_step (f : t) (s : Sample) :
  initialised f ->
  let low := lowMotion f s in
  let now := s_now s in
  let f' := (filter f now (s_position s) (s_rotation s)).1 in
  let out := (filter f now (s_position s) (s_rotation s)).2 in
  initialised f'
  /\ options f' = options f
  /\ (f_isStable out = true ->
      low = true
      /\ (stabilizationTime (options f) <= now - now
          \/ exists t0, stabilizationStartTime f = Some t0
                        /\ stabilizationTime (options f) <= now - t0))
  /\ (forall t1, stabilizationStartTime f' = Some t1 ->
      low = true
      /\ (t1 = now \/ stabilizationStartTime f = Some t1)).
Proof.
  intros [[lp Hlp] [lr Hlr]] low now f' out. subst low now f' out.
  unfold filter, lowMotion. rewrite Hlp, Hlr. simpl.
  unfold updateStabilityState. simpl.
  destruct (isLowJitter _ _ && isLowVelocity _) eqn:Hlow; simpl.
  - split_and!; [split; by eexists | done | |].
    + intros Hstable. apply Qgeb_le in Hstable. split; [done |].
      destruct (falsyNumber (stabilizationStartTime f)); [by left |].
      destruct (stabilizationStartTime f) as [t0 |]; [| by left].
      right. by exists t0.
    + intros t1 [= <-]. split; [done |].
      destruct (falsyNumber (stabilizationStartTime f)); [by left |].
      destruct (stabilizationStartTime f) as [t0 |]; [by right | by left].
  - split_and!; [split; by eexists | done | done | done].
Qed.

End StableWindowFacts.

(** X3.  A stable report rests on a full window of low motion, at any
    clock readings.  When a call of a run reports a stable pose, that
    call is a low-motion call, and either every call of the run from some
    call [k] on was a low-motion call and the clock has advanced by at
    least the stabilization window since call [k], or every call of the
    run so far was a low-motion call and the clock has advanced by at
    least the window since the start time recorded before the run. *)
Theorem stable_needs_full_window `{Three} (samples : list Sample)
    (f : PoseFilter.t) (n : nat) (out : PoseFilter.Filtered) :
  initialised f ->
  (filterRun f samples).2 !! n = Some out ->
  PoseFilter.f_isStable out = true ->
  let ticks := ticksOf f samples in
  let window := PoseFilter.stabilizationTime (PoseFilter.options f) in
  exists tn,
    ticks !! n = Some tn
    /\ StabilitySpec.tick_low tn = true
    /\ ((exists k tk,
           (k <= n)%nat
           /\ ticks !! k = Some tk
           /\ window <= StabilitySpec.tick_now tn - StabilitySpec.tick_now tk
           /\ forall i ti, (k <= i <= n)%nat -> ticks !! i = Some ti ->
                           StabilitySpec.tick_low ti = true)
        \/ (exists t0,
              PoseFilter.stabilizationStartTime f = Some t0
              /\ window <= StabilitySpec.tick_now tn - t0
              /\ forall i ti, (i <= n)%nat -> ticks !! i = Some ti ->
                              StabilitySpec.tick_low ti = true)).
Proof.
  revert f n.
  induction samples as [| s samples IH]; intros f n Hinit Hout Hstable ticks window;
    subst ticks window; [done |].
  destruct (filter_clock_step f s Hinit) as (Hinit' & Hopts & Hstep & Hclock).
  simpl in Hout |- *.
  destruct (PoseFilter.filter f (s_now s) (s_position s) (s_rotation s))
    as [f1 out0] eqn:Hfilter. simpl in *.
  specialize (IH f1).
  destruct (filterRun f1 samples) as [f2 outs]. simpl in *.
  destruct n as [| m]; simpl in *.
  - injection Hout as ->. destruct (Hstep Hstable) as [Hlow Hwin].
    eexists. split; [done |]. split; [done |].
    destruct Hwin as [Hnow | (t0 & Ht0 & Hwin)].
    + left. exists 0%nat. eexists. split_and!; [lia | done | done |].
      intros [| i] ti Hi; [by intros [= <-] | lia].
    + right. exists t0. split_and!; [done | done |].
      intros [| i] ti Hi; [by intros [= <-] | lia].
  - destruct (IH m Hinit' Hout Hstable) as (tn & Htn & Hlown & Hcase).
    exists tn. split; [done |]. split; [done |]. rewrite Hopts in Hcase.
    destruct Hcase as [(k & tk & Hk & Htk & Hwin & Hall)
                      | (t1 & Ht1 & Hwin & Hall)].
    + left. exists (S k), tk. split_and!; [lia | done | done |].
      intros [| i] ti Hi; [lia |]. simpl. apply Hall. lia.
    + destruct (Hclock t1 Ht1) as [Hlow0 [-> | Ht0]].
      * left. exists 0%nat. eexists. split_and!; [lia | done | done |].
        intros [| i] ti Hi; [by intros [= <-] |]. simpl. apply Hall. lia.
      * right. exists t1. split_and!; [done | done |].
        intros [| i] ti Hi; [by intros [= <-] |]. simpl. apply Hall. lia.
Qed.

Lemma stable_needs_full_window_witness :
  exists tn,
    @ticksOf rationalThree
      (@PoseFilter.filter rationalThree (PoseFilter.new PoseFilter.noOptions)
         5 origin identityQuaternion).1
      [mkSample 1005 origin identityQuaternion] !! 0%nat = Some tn
    /\ StabilitySpec.tick_low tn = true.
Proof.
  destruct (@stable_needs_full_window rationalThree
              [mkSample 1005 origin identityQuaternion]
              (@PoseFilter.filter rationalThree (PoseFilter.new PoseFilter.noOptions)
                 5 origin identityQuaternion).1
              0%nat
              (@PoseFilter.filter rationalThree
                 (@PoseFilter.filter rationalThree
                    (PoseFilter.new PoseFilter.noOptions)
                    5 origin identityQuaternion).1
                 1005 origin identityQuaternion).2)
    as (tn & Htn & Hlow & _).
  - split; eexists; reflexivity.
  - reflexivity.
  - reflexivity.
  - exists tn. split; [exact Htn | exact Hlow].
Defined.

(** ** PoseFilter: the stability accessor *)

Section AccessorFacts.
Context `{Three}.
Import PoseFilter.

(** An uninitialised filter holds a cleared stability flag. *)
Lemma runFilterOps_flag (ops : list FilterOp) (f : t) :
  (lastPosition f = None \/ lastRotation f = None -> isStable f = false) ->
  lastPosition (runFilterOps ops f) = None
  \/ lastRotation (runFilterOps ops f) = None ->
  isStable (runFilterOps ops f) = false.
Proof.
  revert f. induction ops as [| op ops IH]; intros f Hf; [done |].
  simpl. apply IH. destruct op as [now position rotation | | over]; simpl.
  - unfold filter.
    destruct (lastPosition f) as [lp |]; [destruct (lastRotation f) as [lr |] |];
      simpl; intros [? | ?]; discriminate.
  - done.
  - done.
Qed.

End AccessorFacts.

(** X4.  On every filter reached from a new one by calls of [filter],
    [reset] and [updateOptions], [getStabilityState()] after a call of
    [filter] is the flag that call returned, the first call after
    construction or [reset] included. *)
Theorem stability_accessor_agrees `{Three} (over : PoseFilter.PartialOptions)
    (ops : list FilterOp) (now : Q) (position : Vector3) (rotation : Quaternion) :
  let f := runFilterOps ops (PoseFilter.new over) in
  PoseFilter.getStabilityState (PoseFilter.filter f now position rotation).1
    = PoseFilter.f_isStable (PoseFilter.filter f now position rotation).2.
Proof.
  intros f.
  assert (PoseFilter.lastPosition f = None \/ PoseFilter.lastRotation f = None ->
          PoseFilter.isStable f = false) as Hflag.
  { subst f. by apply runFilterOps_flag. }
  unfold PoseFilter.getStabilityState, PoseFilter.filter.
  destruct (PoseFilter.lastPosition f) as [lp |];
    [destruct (PoseFilter.lastRotation f) as [lr |] |]; simpl; auto.
Qed.

(* ================================================================== *)
(** ** PlaneTracker: hit test and polygon *)

(** X5.  [hitTest] never throws and ignores the tap coordinates.  It
    returns a point exactly when the session, the reference space and
    the hit-test source are all defined and the first hit-test result of
    the frame has a pose, and then it returns that pose's position; a
    first result without a pose gives no hit even when later results
    have one. *)
Theorem hitTest_first_result (x y x' y' : Q) (frame : XRFrame)
    (w : PlaneTracker.World) (point : Vector3) :
  (PlaneTracker.hitTest x y frame w = Some point <->
     PlaneTracker.xrSession (PlaneTracker.tracker w) = true
     /\ PlaneTracker.xrRefSpace (PlaneTracker.tracker w) = true
     /\ PlaneTracker.hitTestSource (PlaneTracker.tracker w) = true
     /\ exists rest, hitTestResults frame = HitTestResults (Some point :: rest))
  /\ PlaneTracker.hitTest x y frame w = PlaneTracker.hitTest x' y' frame w.
Proof.
  split; [| done]. unfold PlaneTracker.hitTest.
  destruct (PlaneTracker.xrSession _), (PlaneTracker.xrRefSpace _),
    (PlaneTracker.hitTestSource _); simpl;
    try (split; [discriminate | by intros (? & ? & ? & _)]).
  destruct (hitTestResults frame) as [msg | [| [hit |] rest]].
  - split; [discriminate | by intros (_ & _ & _ & rest & ?)].
  - split; [discriminate | by intros (_ & _ & _ & rest & ?)].
  - split.
    + intros [= ->]. split_and!; try done. by exists rest.
    + by intros (_ & _ & _ & rest' & [= -> _]).
  - split; [discriminate | by intros (_ & _ & _ & rest' & ?)].
Qed.

Lemma polygonLoop_points (coordinates : list Q) (fuel i : nat) :
  (length coordinates <= i + 2 * fuel)%nat ->
  Forall (fun p => vy p = 0) (PlaneTracker.polygonLoop coordinates fuel i)
  /\ length (PlaneTracker.polygonLoop coordinates fuel i)
     = ((length coordinates - i + 1) / 2)%nat
  /\ forall k point,
       PlaneTracker.polygonLoop coordinates fuel i !! k = Some point ->
       coordinates !! (i + 2 * k)%nat = Some (vx point)
       /\ vz point = default 0 (coordinates !! (i + 2 * k + 1)%nat).
Proof.
  revert i. induction fuel as [| fuel IH]; intros i Hfuel; cbn [PlaneTracker.polygonLoop].
  - split_and!; [constructor | | intros k point; discriminate].
    replace (length coordinates - i)%nat with 0%nat by lia. reflexivity.
  - destruct (decide (i < length coordinates)%nat) as [Hin | Hout].
    + destruct (IH (i + 2)%nat ltac:(lia)) as (Hplane & Hlength & Hpoints).
      split_and!.
      * by constructor.
      * cbn [length]. rewrite Hlength.
        destruct (decide (length coordinates - i = 1)%nat) as [Hone | Hmore].
        -- replace (length coordinates - (i + 2))%nat with 0%nat by lia.
           by rewrite Hone.
        -- replace (length coordinates - i + 1)%nat
             with (length coordinates - (i + 2) + 1 + 1 * 2)%nat by lia.
           rewrite Nat.div_add by lia. lia.
      * intros [| k] point.
        -- intros [= <-].
           replace (i + 2 * 0)%nat with i by lia.
           destruct (lookup_lt_is_Some_2 coordinates i Hin) as [x Hx].
           rewrite Hx. split; reflexivity.
        -- intros Hk. destruct (Hpoints k point Hk) as [Hx Hz].
           replace (i + 2 * S k)%nat with (i + 2 + 2 * k)%nat by lia.
           split; [exact Hx | exact Hz].
    + split_and!; [constructor | | intros k point; discriminate].
      replace (length coordinates - i)%nat with 0%nat by lia. reflexivity.
Qed.

(** X6.  Every point of an extracted polygon lies in the plane [y = 0].
    A plane with a polygon array gets one point for every two entries of
    the array, read in order as [x] and [z]; an entry left over at the
    end of an array of odd length becomes a point with [z = 0], and an
    empty array gives an empty outline.  Only a plane without a polygon
    gets the fallback, the four corners of the square of side 2 centred
    on the origin. *)
Theorem extracted_polygon_in_plane (xrPlane : XRPlane) :
  Forall (fun p => vy p = 0) (PlaneTracker.extractPlanePolygon xrPlane)
  /\ match xrPolygon xrPlane with
     | Some coordinates =>
         length (PlaneTracker.extractPlanePolygon xrPlane)
         = ((length coordinates + 1) / 2)%nat
         /\ forall k point,
              PlaneTracker.extractPlanePolygon xrPlane !! k = Some point ->
              coordinates !! (2 * k)%nat = Some (vx point)
              /\ vz point = default 0 (coordinates !! (2 * k + 1)%nat)
     | None =>
         length (PlaneTracker.extractPlanePolygon xrPlane) = 4%nat
         /\ Forall (fun p => Qabs (vx p) == 1 /\ Qabs (vz p) == 1)
                   (PlaneTracker.extractPlanePolygon xrPlane)
     end.
Proof.
  unfold PlaneTracker.extractPlanePolygon.
  destruct (xrPolygon xrPlane) as [coordinates |].
  - destruct (polygonLoop_points coordinates (length coordinates) 0 ltac:(lia))
      as (Hplane & Hlength & Hpoints).
    split_and!; [exact Hplane | by rewrite Hlength, Nat.sub_0_r |].
    intros k point Hk. exact (Hpoints k point Hk).
  - split_and!; [by repeat constructor | done |].
    repeat constructor.
Qed.

(* ================================================================== *)
(** ** PlaneTracker: frames outside a session, and the end of a session *)

Section SessionFacts.
Context `{Three}.
Import PlaneTracker TrackerRuns.

Lemma update_without_session (now : Q) (frame : XRFrame) (w : World) :
  xrSession (tracker w) = false \/ xrRefSpace (tracker w) = false ->
  update now frame w = w.
Proof.
  intros Hno. unfold update.
  by destruct Hno as [-> | ->]; [| rewrite orb_true_r].
Qed.

Lemma onSessionEnd_handles (w : World) :
  xrSession (tracker (onSessionEnd w)) = false
  /\ xrRefSpace (tracker (onSessionEnd w)) = false
  /\ hitTestSource (tracker (onSessionEnd w)) = false.
Proof.
  unfold onSessionEnd, updateTrackingState. by destruct (decide _).
Qed.

End SessionFacts.

(** X7.  Frames are ignored outside a session.  While the session or its
    reference space is undefined, as before [initializeXR] and after the
    session has ended, any run of [update] calls leaves the tracker, the
    store and the log of callback invocations exactly as they were. *)
Theorem frames_ignored_without_session `{Three} (ops : list TrackerRuns.Op)
    (w : PlaneTracker.World) :
  Forall (fun op => exists now frame, op = TrackerRuns.OpUpdate now frame) ops ->
  (PlaneTracker.xrSession (PlaneTracker.tracker w) = false
   \/ PlaneTracker.xrRefSpace (PlaneTracker.tracker w) = false ->
   TrackerRuns.runOps ops w = w)
  /\ TrackerRuns.runOps ops (PlaneTracker.onSessionEnd w) = PlaneTracker.onSessionEnd w
  /\ TrackerRuns.runOps ops PlaneTracker.initial = PlaneTracker.initial.
Proof.
  intros Hops.
  assert (forall w0,
            PlaneTracker.xrSession (PlaneTracker.tracker w0) = false
            \/ PlaneTracker.xrRefSpace (PlaneTracker.tracker w0) = false ->
            TrackerRuns.runOps ops w0 = w0) as Hrun.
  { induction Hops as [| op ops (now & frame & ->) _ IH]; intros w0 Hno; [done |].
    simpl. rewrite update_without_session by done. by apply IH. }
  split_and!.
  - apply Hrun.
  - apply Hrun. left. by destruct (onSessionEnd_handles w).
  - apply Hrun. by left.
Qed.

Lemma frames_ignored_without_session_witness :
  @TrackerRuns.runOps rationalThree
    [TrackerRuns.OpUpdate 2000 (frameOf [wallPlane; originPlane]);
     TrackerRuns.OpUpdate 2016 frameWithHit]
    (PlaneTracker.onSessionEnd worldWithWall)
  = PlaneTracker.onSessionEnd worldWithWall.
Proof.
  destruct (@frames_ignored_without_session rationalThree
              [TrackerRuns.OpUpdate 2000 (frameOf [wallPlane; originPlane]);
               TrackerRuns.OpUpdate 2016 frameWithHit] worldWithWall)
    as (_ & Hended & _).
  - repeat constructor; eexists; eexists; reflexivity.
  - exact Hended.
Defined.

(** X8.  The end of a session.  The session-end handler is idempotent:
    run a second time it changes nothing and invokes no callback.
    [endSession] itself clears nothing: it calls [end()] on the session
    when one is set, and the tracker is cleared only when the ['end']
    event reaches the handler.  After that, a further [endSession]
    finds no session, calls nothing and changes nothing.  When no
    handler is on the session, or [end()] rejects, [endSession] leaves
    the tracker as it was; so after [initializeXR] failed at the
    reference space the session handle stays set through [endSession]. *)
Theorem session_end_idempotent (w : PlaneTracker.World)
    (second : PlaneTracker.EndOutcome) (message refusal : string) :
  PlaneTracker.onSessionEnd (PlaneTracker.onSessionEnd w) = PlaneTracker.onSessionEnd w
  /\ PlaneTracker.endSession second
       (PlaneTracker.endSession PlaneTracker.EndHandled w).1
     = ((PlaneTracker.endSession PlaneTracker.EndHandled w).1, Normal)
  /\ (PlaneTracker.endSession PlaneTracker.EndUnhandled w).1 = w
  /\ (PlaneTracker.endSession (PlaneTracker.EndRejects message) w).1 = w
  /\ PlaneTracker.xrSession
       (PlaneTracker.tracker
          (PlaneTracker.endSession PlaneTracker.EndUnhandled
             (PlaneTracker.initializeXR (ReferenceSpaceRefused refusal) w).1).1)
     = true.
Proof.
  assert (PlaneTracker.onSessionEnd (PlaneTracker.onSessionEnd w)
          = PlaneTracker.onSessionEnd w) as Hend.
  { destruct w as [h [s rs hs p pf ts c1 c2] log].
    unfold PlaneTracker.onSessionEnd, PlaneTracker.updateTrackingState. simpl.
    by destruct (decide (ts = NOT_TRACKING)) as [-> | Hne]. }
  split_and!; [done | | | |].
  - unfold PlaneTracker.endSession.
    destruct (PlaneTracker.xrSession (PlaneTracker.tracker w)) eqn:Hs; simpl.
    + destruct (onSessionEnd_handles w) as (-> & _). done.
    + by rewrite Hs.
  - unfold PlaneTracker.endSession. by destruct (PlaneTracker.xrSession _).
  - unfold PlaneTracker.endSession. by destruct (PlaneTracker.xrSession _).
  - done.
Qed.

(* ================================================================== *)
(** ** PlaneTracker: what ingesting a plane does *)

Section IngestFacts.
Context `{Three}.
Import PlaneTracker TrackerRuns.

(** A plane whose pose is available: the store gets one new record,
    stamped with the identifier and the clock reading, the map binds the
    identifier to it, and the rest of the tracker but the filter stays. *)
Lemma ingestPlane_effect (now : Q) (xrPlane : XRPlane) (w : World)
    (position : Vector3) (orientation : Quaternion) :
  planeSpacePose xrPlane = PoseOk position orientation ->
  let w1 := (ingestPlane now xrPlane w).1 in
  exists record,
    heap w1 = heap w ++ [OPlane record]
    /\ id record = planeIdOf xrPlane
    /\ lastUpdate record = now
    /\ planes (tracker w1)
       = JsMap.set (planes (tracker w)) (planeIdOf xrPlane) (length (heap w))
    /\ (ingestPlane now xrPlane w).2 = Normal
    /\ xrSession (tracker w1) = xrSession (tracker w)
    /\ xrRefSpace (tracker w1) = xrRefSpace (tracker w)
    /\ hitTestSource (tracker w1) = hitTestSource (tracker w)
    /\ onPlaneDetectedCallback (tracker w1) = onPlaneDetectedCallback (tracker w)
    /\ calls w1
       = match JsMap.get (planes (tracker w)) (planeIdOf xrPlane) with
         | None => invoke (onPlaneDetectedCallback (tracker w)) PlaneDetected
                          (length (heap w)) (calls w)
         | Some _ => calls w
         end.
Proof.
  intros Hpose w1. subst w1. unfold ingestPlane. rewrite Hpose.
  destruct (PoseFilter.filter _ _ _ _) as [pf filtered]. simpl.
  destruct (JsMap.get _ _); simpl; eexists; by split_and!.
Qed.

(** A plane without a pose changes nothing. *)
Lemma ingestPlane_no_pose (now : Q) (xrPlane : XRPlane) (w : World) :
  (forall position orientation,
     planeSpacePose xrPlane <> PoseOk position orientation) ->
  (ingestPlane now xrPlane w).1 = w.
Proof.
  intros Hpose. unfold ingestPlane.
  destruct (planeSpacePose xrPlane) as [msg | | position orientation];
    [done | done |].
  by destruct (Hpose position orientation).
Qed.

Lemma forEachPlane_returns (now : Q) (xrPlanes : list XRPlane) (w : World) :
  posesReturn xrPlanes -> (forEachPlane now xrPlanes w).2 = Normal.
Proof.
  intros Hposes. revert w.
  induction Hposes as [| xrPlane rest Hpose _ IH]; intros w; [done |].
  simpl. unfold ingestPlane at 1.
  destruct (planeSpacePose xrPlane) as [msg | | position orientation] eqn:Hp.
  - by destruct (Hpose msg).
  - apply IH.
  - destruct (ingestPlane_effect now xrPlane w position orientation Hp)
      as (record & _ & _ & _ & _ & Hnormal & _).
    unfold ingestPlane in Hnormal. rewrite Hp in Hnormal.
    destruct (let '(pf, filtered) := PoseFilter.filter _ _ _ _ in _)
      as [w' c]. simpl in Hnormal. subst c. apply IH.
Qed.

End IngestFacts.

(** X9.  The plane-detected callback is invoked exactly when a surface
    identifier enters the map.  Ingesting a plane whose identifier is
    not in the map invokes the registered callback once, with the new
    record; ingesting a plane whose identifier is in the map invokes
    nothing.  So a plane that is listed again is silent when it comes
    under the same identifier, as one that carries a [planeId] does; a
    plane without [planeId] gets an identifier made anew at each ingest
    and is silent only if that identifier is in the map already. *)
Theorem plane_detected_only_at_creation `{Three} (now now' : Q)
    (xrPlane again : XRPlane)
    (w : PlaneTracker.World) (cb : PlaneTracker.Callback)
    (position position' : Vector3) (orientation orientation' : Quaternion) :
  PlaneTracker.onPlaneDetectedCallback (PlaneTracker.tracker w) = Some cb ->
  planeSpacePose xrPlane = PoseOk position orientation ->
  let w1 := (PlaneTracker.ingestPlane now xrPlane w).1 in
  (JsMap.get (PlaneTracker.planes (PlaneTracker.tracker w))
             (PlaneTracker.planeIdOf xrPlane) = None ->
   PlaneTracker.calls w1
     = PlaneTracker.calls w
         ++ [PlaneTracker.PlaneDetected cb (length (PlaneTracker.heap w))]
   /\ JsMap.get (PlaneTracker.planes (PlaneTracker.tracker w1))
                (PlaneTracker.planeIdOf xrPlane)
      = Some (length (PlaneTracker.heap w))
   /\ is_Some (derefPlane (PlaneTracker.heap w1) (length (PlaneTracker.heap w))))
  /\ (is_Some (JsMap.get (PlaneTracker.planes (PlaneTracker.tracker w))
                         (PlaneTracker.planeIdOf xrPlane)) ->
      PlaneTracker.calls w1 = PlaneTracker.calls w)
  /\ (planeSpacePose again = PoseOk position' orientation' ->
      PlaneTracker.planeIdOf again = PlaneTracker.planeIdOf xrPlane ->
      PlaneTracker.calls (PlaneTracker.ingestPlane now' again w1).1
        = PlaneTracker.calls w1).
Proof.
  intros Hcb Hpose w1. subst w1.
  destruct (ingestPlane_effect now xrPlane w position orientation Hpose)
    as (record & Hheap & _ & _ & Hplanes & _ & _ & _ & _ & Hcb1 & Hcalls).
  split_and!.
  - intros Hnew. rewrite Hcalls, Hnew, Hcb. simpl.
    split_and!; [done | by rewrite Hplanes, JsMapFacts.get_set_eq |].
    rewrite Hheap, derefPlane_alloc. by eexists.
  - intros [r Hold]. by rewrite Hcalls, Hold.
  - intros Hpose' Hsame.
    destruct (ingestPlane_effect now' again
                (PlaneTracker.ingestPlane now xrPlane w).1 position' orientation'
                Hpose')
      as (record' & _ & _ & _ & _ & _ & _ & _ & _ & _ & Hcalls').
    rewrite Hcalls', Hplanes, Hsame. by rewrite JsMapFacts.get_set_eq.
Qed.

Lemma plane_detected_only_at_creation_witness :
  PlaneTracker.calls
    (@PlaneTracker.ingestPlane rationalThree 1016 originPlane
       (PlaneTracker.onPlaneDetected 3 worldWithWall)).1
    = PlaneTracker.calls worldWithWall ++ [PlaneTracker.PlaneDetected 3 1]
  /\ PlaneTracker.calls
       (@PlaneTracker.ingestPlane rationalThree 1016 wallPlane
          (PlaneTracker.onPlaneDetected 3 worldWithWall)).1
     = PlaneTracker.calls worldWithWall.
Proof.
  split.
  - destruct (@plane_detected_only_at_creation rationalThree 1016 1032 originPlane
                originPlane (PlaneTracker.onPlaneDetected 3 worldWithWall) 3%nat
                origin origin identityQuaternion identityQuaternion eq_refl eq_refl)
      as (Hnew & _ & _).
    destruct Hnew as (Hcalls & _ & _); [reflexivity | exact Hcalls].
  - destruct (@plane_detected_only_at_creation rationalThree 1016 1032 wallPlane
                wallPlane (PlaneTracker.onPlaneDetected 3 worldWithWall) 3%nat
                unitX unitX identityQuaternion identityQuaternion eq_refl eq_refl)
      as (_ & Hold & _).
    apply Hold. eexists. reflexivity.
Defined.

(* ================================================================== *)
(** ** PlaneTracker: the store only grows *)

Section StoreGrowthFacts.
Context `{Three}.
Import PlaneTracker TrackerRuns.

Lemma storeExtends_refl (w : World) : storeExtends w w.
Proof. exists []. by rewrite app_nil_r. Qed.

Lemma storeExtends_trans (w1 w2 w3 : World) :
  storeExtends w1 w2 -> storeExtends w2 w3 -> storeExtends w1 w3.
Proof.
  intros [a1 H1] [a2 H2]. exists (a1 ++ a2). by rewrite H2, H1, app_assoc.
Qed.

Lemma storeExtends_same (w w' : World) : heap w' = heap w -> storeExtends w w'.
Proof. intros Hh. exists []. by rewrite app_nil_r. Qed.

Lemma updateTrackingState_heap (s : TrackingState) (w : World) :
  heap (updateTrackingState s w) = heap w.
Proof. by destruct (updateTrackingState_frame s w) as (-> & _). Qed.

Lemma ingestPlane_storeExtends (now : Q) (xrPlane : XRPlane) (w : World) :
  storeExtends w (ingestPlane now xrPlane w).1.
Proof.
  destruct (planeSpacePose xrPlane) as [msg | | position orientation] eqn:Hp.
  - rewrite ingestPlane_no_pose; [apply storeExtends_refl | congruence].
  - rewrite ingestPlane_no_pose; [apply storeExtends_refl | congruence].
  - destruct (ingestPlane_effect now xrPlane w position orientation Hp)
      as (record & Hheap & _). by eexists.
Qed.

Lemma forEachPlane_storeExtends (now : Q) (xrPlanes : list XRPlane) (w : World) :
  storeExtends w (forEachPlane now xrPlanes w).1.
Proof.
  revert w. induction xrPlanes as [| xrPlane rest IH]; intros w; simpl.
  - apply storeExtends_refl.
  - pose proof (ingestPlane_storeExtends now xrPlane w) as Hext.
    destruct (ingestPlane now xrPlane w) as [w' [| msg]]; simpl in *; [| done].
    eapply storeExtends_trans; [exact Hext | apply IH].
Qed.

Lemma updatePlaneDetection_storeExtends (now : Q) (frame : XRFrame) (w : World) :
  storeExtends w (updatePlaneDetection now frame w).1.
Proof.
  unfold updatePlaneDetection.
  destruct (detectedPlanes frame) as [xrPlanes |]; [| apply storeExtends_refl].
  pose proof (forEachPlane_storeExtends now xrPlanes w) as Hext.
  by destruct (forEachPlane now xrPlanes w) as [w' [| msg]].
Qed.

Lemma updateHitTest_heap (frame : XRFrame) (w : World) :
  heap (updateHitTest frame w).1 = heap w.
Proof.
  unfold updateHitTest. destruct (negb _); [done |].
  destruct (hitTestResults frame); [done |].
  destruct (decide _); apply updateTrackingState_heap.
Qed.

Lemma update_storeExtends (now : Q) (frame : XRFrame) (w : World) :
  storeExtends w (update now frame w).
Proof.
  unfold update. destruct (_ || _); [apply storeExtends_refl |].
  pose proof (updatePlaneDetection_storeExtends now frame w) as Hext.
  destruct (updatePlaneDetection now frame w) as [w1 [| msg]]; simpl in *.
  - pose proof (updateHitTest_heap frame w1) as Hh.
    destruct (updateHitTest frame w1) as [w2 c2]. simpl in *.
    eapply storeExtends_trans; [exact Hext |]. apply storeExtends_same.
    destruct c2; unfold updateTrackingStability;
      by rewrite updateTrackingState_heap.
  - eapply storeExtends_trans; [exact Hext |]. apply storeExtends_same.
    apply updateTrackingState_heap.
Qed.

Lemma runOp_storeExtends (op : Op) (w : World) : storeExtends w (runOp op w).
Proof.
  destruct op; simpl.
  - apply storeExtends_same. destruct outcome; simpl; try done.
    by rewrite updateTrackingState_heap.
  - apply update_storeExtends.
  - apply storeExtends_same. unfold onSessionEnd.
    by rewrite updateTrackingState_heap.
  - apply storeExtends_same. unfold endSession.
    destruct (xrSession _); [| done].
    destruct outcome; simpl; [| done | done].
    unfold onSessionEnd. by rewrite updateTrackingState_heap.
  - by apply storeExtends_same.
  - by apply storeExtends_same.
  - by eexists.
Qed.

Lemma runOps_storeExtends (ops : list Op) (w : World) :
  storeExtends w (runOps ops w).
Proof.
  revert w. induction ops as [| op ops IH]; intros w; simpl.
  - apply storeExtends_refl.
  - eapply storeExtends_trans; [apply runOp_storeExtends | apply IH].
Qed.

End StoreGrowthFacts.

(** X10.  The tracker never writes to an object it has allocated.
    Whatever operations run, every record and every returned array that
    was in the store is still there, unchanged, under the same
    reference: an update of a surface makes a new record, and a snapshot
    taken earlier keeps showing what it showed. *)
Theorem tracker_never_mutates_store `{Three} (ops : list TrackerRuns.Op)
    (w : PlaneTracker.World) (r : ref) (o : Obj) :
  PlaneTracker.heap w !! r = Some o ->
  PlaneTracker.heap (TrackerRuns.runOps ops w) !! r = Some o
  /\ (length (PlaneTracker.heap w)
      <= length (PlaneTracker.heap (TrackerRuns.runOps ops w)))%nat.
Proof.
  intros Hr. destruct (runOps_storeExtends ops w) as [added ->].
  split; [by apply lookup_app_l_Some |]. rewrite length_app. lia.
Qed.

Lemma tracker_never_mutates_store_witness :
  PlaneTracker.heap
    (@TrackerRuns.runOps rationalThree
       [TrackerRuns.OpUpdate 1016 (frameOf [wallPlane]);
        TrackerRuns.OpGetDetectedPlanes;
        TrackerRuns.OpSessionEnd] worldWithWall) !! 0%nat
  = PlaneTracker.heap worldWithWall !! 0%nat.
Proof.
  destruct (PlaneTracker.heap worldWithWall !! 0%nat) as [o |] eqn:Ho.
  - destruct (@tracker_never_mutates_store rationalThree
                [TrackerRuns.OpUpdate 1016 (frameOf [wallPlane]);
                 TrackerRuns.OpGetDetectedPlanes;
                 TrackerRuns.OpSessionEnd] worldWithWall 0%nat o Ho) as [Hsame _].
    exact Hsame.
  - discriminate Ho.
Defined.

(* ================================================================== *)
(** ** PlaneTracker: keys and records agree *)

Section RecordsFacts.
Context `{Three}.
Import PlaneTracker TrackerRuns.

Lemma elem_set (m : JsMap.t ref) (k k' : string) (v v' : ref) :
  (k', v') ∈ JsMap.set m k v -> (k' = k /\ v' = v) \/ (k', v') ∈ m.
Proof.
  induction m as [| [k0 v0] m IH]; simpl.
  - intros Hin%list_elem_of_singleton. injection Hin as -> ->. by left.
  - destruct (decide (k0 = k)) as [-> | Hne].
    + rewrite !elem_of_cons. intros [[= -> ->] | Hin]; [by left | right; by right].
    + rewrite !elem_of_cons. intros [[= -> ->] | Hin]; [right; by left |].
      destruct (IH Hin) as [? | ?]; [by left | right; by right].
Qed.

Lemma derefPlane_extends (w w' : World) (r : ref) (p : PlaneData) :
  storeExtends w w' ->
  derefPlane (heap w) r = Some p -> derefPlane (heap w') r = Some p.
Proof.
  intros [added ->]. unfold derefPlane.
  destruct (heap w !! r) as [o |] eqn:Hr; [| done].
  by rewrite (lookup_app_l_Some _ _ _ _ Hr).
Qed.

Lemma recordsUnderKeys_same (w w' : World) :
  storeExtends w w' -> planes (tracker w') ⊆ planes (tracker w) ->
  recordsUnderKeys w -> recordsUnderKeys w'.
Proof.
  intros Hext Hsub Hw k r Hin.
  destruct (Hw k r (Hsub _ Hin)) as (p & Hp & Hid).
  exists p. split; [by eapply derefPlane_extends | done].
Qed.

Lemma ingestPlane_recordsUnderKeys (now : Q) (xrPlane : XRPlane) (w : World) :
  recordsUnderKeys w -> recordsUnderKeys (ingestPlane now xrPlane w).1.
Proof.
  intros Hw.
  destruct (planeSpacePose xrPlane) as [msg | | position orientation] eqn:Hp.
  - rewrite ingestPlane_no_pose; [done | congruence].
  - rewrite ingestPlane_no_pose; [done | congruence].
  - destruct (ingestPlane_effect now xrPlane w position orientation Hp)
      as (record & Hheap & Hid & _ & Hplanes & _).
    intros k r. rewrite Hplanes, Hheap.
    intros [[-> ->] | Hin]%elem_set.
    + exists record. by rewrite derefPlane_alloc.
    + destruct (Hw k r Hin) as (p & Hderef & Hidp). exists p. split; [| done].
      unfold derefPlane in *.
      destruct (heap w !! r) as [o |] eqn:Hr; [| done].
      by rewrite (lookup_app_l_Some _ _ _ _ Hr).
Qed.

Lemma forEachPlane_recordsUnderKeys (now : Q) (xrPlanes : list XRPlane) (w : World) :
  recordsUnderKeys w -> recordsUnderKeys (forEachPlane now xrPlanes w).1.
Proof.
  revert w. induction xrPlanes as [| xrPlane rest IH]; intros w Hw; [done |].
  simpl. pose proof (ingestPlane_recordsUnderKeys now xrPlane w Hw) as Hw'.
  destruct (ingestPlane now xrPlane w) as [w' [| msg]]; simpl in *;
    [by apply IH | done].
Qed.

Lemma updateTrackingState_recordsUnderKeys (s : TrackingState) (w : World) :
  recordsUnderKeys w -> recordsUnderKeys (updateTrackingState s w).
Proof.
  apply recordsUnderKeys_same.
  - apply storeExtends_same, updateTrackingState_heap.
  - by destruct (updateTrackingState_frame s w) as (_ & -> & _).
Qed.

Lemma update_recordsUnderKeys (now : Q) (frame : XRFrame) (w : World) :
  recordsUnderKeys w -> recordsUnderKeys (update now frame w).
Proof.
  intros Hw. unfold update. destruct (_ || _); [done |].
  assert (recordsUnderKeys (updatePlaneDetection now frame w).1) as Hw1.
  { unfold updatePlaneDetection.
    destruct (detectedPlanes frame) as [xrPlanes |]; [| done].
    pose proof (forEachPlane_recordsUnderKeys now xrPlanes w Hw) as Hw'.
    destruct (forEachPlane now xrPlanes w) as [w' [| msg]]; simpl in *; [| done].
    revert Hw'. apply recordsUnderKeys_same; [by apply storeExtends_same |].
    apply cleanupEntries_subseteq. }
  destruct (updatePlaneDetection now frame w) as [w1 [| msg]]; simpl in *;
    [| by apply updateTrackingState_recordsUnderKeys].
  assert (recordsUnderKeys (updateHitTest frame w1).1) as Hw2.
  { unfold updateHitTest. destruct (negb _); [done |].
    destruct (hitTestResults frame); [done |].
    destruct (decide _); by apply updateTrackingState_recordsUnderKeys. }
  destruct (updateHitTest frame w1) as [w2 [| msg]]; simpl in *;
    by apply updateTrackingState_recordsUnderKeys.
Qed.

Lemma empty_recordsUnderKeys (w : World) :
  planes (tracker w) = [] -> recordsUnderKeys w.
Proof. intros Hempty k r. rewrite Hempty. by intros ?%elem_of_nil. Qed.

Lemma runOps_recordsUnderKeys (ops : list Op) (w : World) :
  recordsUnderKeys w -> recordsUnderKeys (runOps ops w).
Proof.
  revert w. induction ops as [| op ops IH]; intros w Hw; [done |].
  simpl. apply IH. destruct op; simpl.
  - destruct outcome; simpl; [done | done |].
    by apply updateTrackingState_recordsUnderKeys.
  - by apply update_recordsUnderKeys.
  - apply updateTrackingState_recordsUnderKeys. by apply empty_recordsUnderKeys.
  - unfold endSession. destruct (xrSession _); [| done].
    destruct outcome; simpl; [| done | done].
    apply updateTrackingState_recordsUnderKeys. by apply empty_recordsUnderKeys.
  - done.
  - done.
  - revert Hw. apply recordsUnderKeys_same; [by eexists | done].
Qed.

(** With keys and records in agreement, the records read through the map
    carry the keys, in the order of the map. *)
Lemma planeRecords_ids (w : World) :
  recordsUnderKeys w -> id <$> planeRecords w = JsMap.keys (planes (tracker w)).
Proof.
  unfold recordsUnderKeys, planeRecords, JsMap.values, JsMap.keys.
  induction (planes (tracker w)) as [| [k r] m IH]; intros Hw; [done |].
  csimpl. destruct (Hw k r) as (p & -> & <-); [apply elem_of_cons; by left |].
  csimpl. f_equal. apply IH. intros k' r' Hin. apply Hw. apply elem_of_cons. by right.
Qed.

End RecordsFacts.

(** X11.  In every registry reached from a new tracker, the records that
    [getDetectedPlanes()] returns are one per key of the plane map, in
    insertion order, each carrying its key as [id]; no identifier is
    listed twice. *)
Theorem snapshot_lists_each_surface_once `{Three} (ops : list TrackerRuns.Op) :
  let w := TrackerRuns.runOps ops PlaneTracker.initial in
  id <$> TrackerRuns.snapshot w
    = JsMap.keys (PlaneTracker.planes (PlaneTracker.tracker w))
  /\ NoDup (id <$> TrackerRuns.snapshot w)
  /\ length (TrackerRuns.snapshot w)
     = length (PlaneTracker.planes (PlaneTracker.tracker w)).
Proof.
  intros w.
  assert (id <$> TrackerRuns.snapshot w
          = JsMap.keys (PlaneTracker.planes (PlaneTracker.tracker w))) as Hids.
  { rewrite snapshot_records. apply planeRecords_ids.
    subst w. apply runOps_recordsUnderKeys.
    by apply empty_recordsUnderKeys. }
  split_and!; [done | |].
  - rewrite Hids. subst w. apply runOps_keysUnique, initial_keysUnique.
  - apply (f_equal length) in Hids. unfold JsMap.keys in Hids.
    by rewrite !length_fmap in Hids.
Qed.

(* ================================================================== *)
(** ** PlaneTracker: a whole frame *)

Section FrameFacts.
Context `{Three}.
Import PlaneTracker TrackerRuns.

Lemma activePlanes_ext (now : Q) (w w' : World) :
  heap w' = heap w -> planes (tracker w') = planes (tracker w) ->
  activePlanes now w' = activePlanes now w.
Proof.
  intros Hh Hp. unfold activePlanes, planeRecords. by rewrite Hh, Hp.
Qed.

Lemma updateTrackingState_activePlanes (now : Q) (s : TrackingState) (w : World) :
  activePlanes now (updateTrackingState s w) = activePlanes now w.
Proof.
  destruct (updateTrackingState_frame s w) as (Hh & Hp & _).
  by apply activePlanes_ext.
Qed.

Lemma updateHitTest_frame (frame : XRFrame) (w : World) :
  heap (updateHitTest frame w).1 = heap w
  /\ planes (tracker (updateHitTest frame w).1) = planes (tracker w)
  /\ poseFilter (tracker (updateHitTest frame w).1) = poseFilter (tracker w).
Proof.
  unfold updateHitTest. destruct (negb _); [done |].
  destruct (hitTestResults frame); [done |].
  destruct (decide _); simpl.
  - by destruct (updateTrackingState_frame TRACKING w) as (-> & -> & -> & _).
  - by destruct (updateTrackingState_frame LIMITED w) as (-> & -> & -> & _).
Qed.

Lemma updateHitTest_returns (frame : XRFrame) (w : World) :
  (hitTestSource (tracker w) = true ->
   forall msg, hitTestResults frame <> HitTestThrows msg) ->
  (updateHitTest frame w).2 = Normal.
Proof.
  intros Hhit. unfold updateHitTest.
  destruct (hitTestSource (tracker w)); simpl; [| done].
  destruct (hitTestResults frame) as [msg | results].
  - by destruct (Hhit eq_refl msg).
  - by destruct (decide _).
Qed.

Lemma updatePlaneDetection_returns (now : Q) (frame : XRFrame) (w : World) :
  (forall xrPlanes, detectedPlanes frame = Some xrPlanes -> posesReturn xrPlanes) ->
  (updatePlaneDetection now frame w).2 = Normal.
Proof.
  intros Hposes. unfold updatePlaneDetection.
  destruct (detectedPlanes frame) as [xrPlanes |]; [| done].
  pose proof (forEachPlane_returns now xrPlanes w (Hposes _ eq_refl)) as Hn.
  destruct (forEachPlane now xrPlanes w) as [w' c]. simpl in Hn. by subst c.
Qed.

Lemma updatePlaneDetection_handles (now : Q) (frame : XRFrame) (w : World) :
  hitTestSource (tracker (updatePlaneDetection now frame w).1)
    = hitTestSource (tracker w).
Proof.
  assert (forall xrPlanes w0,
            hitTestSource (tracker (forEachPlane now xrPlanes w0).1)
            = hitTestSource (tracker w0)) as Hloop.
  { induction xrPlanes as [| xrPlane rest IH]; intros w0; [done |]. simpl.
    assert (hitTestSource (tracker (ingestPlane now xrPlane w0).1)
            = hitTestSource (tracker w0)) as Hstep.
    { destruct (planeSpacePose xrPlane) as [msg | | position orientation] eqn:Hp.
      - rewrite ingestPlane_no_pose; [done | congruence].
      - rewrite ingestPlane_no_pose; [done | congruence].
      - by destruct (ingestPlane_effect now xrPlane w0 position orientation Hp)
          as (record & _ & _ & _ & _ & _ & _ & _ & -> & _). }
    destruct (ingestPlane now xrPlane w0) as [w' [| msg]]; simpl in *; [| done].
    by rewrite IH. }
  unfold updatePlaneDetection.
  destruct (detectedPlanes frame) as [xrPlanes |]; [| done].
  specialize (Hloop xrPlanes w).
  by destruct (forEachPlane now xrPlanes w) as [w' [| msg]].
Qed.

End FrameFacts.

(** X12.  At the end of a frame the tracking state is the recomputed one.
    In a running session, when no call into the frame throws, [update]
    leaves the tracking state at the value computed from the planes
    active at the end of the frame: what the hit-test step set does not
    outlast the frame.  When the hit test throws, [update] leaves the
    state at [limited]. *)
Theorem tracking_state_at_end_of_frame `{Three} (now : Q) (frame : XRFrame)
    (w : PlaneTracker.World) :
  PlaneTracker.xrSession (PlaneTracker.tracker w) = true ->
  PlaneTracker.xrRefSpace (PlaneTracker.tracker w) = true ->
  (frameReturns frame w ->
   PlaneTracker.getTrackingState (PlaneTracker.update now frame w)
     = PlaneTracker.stabilityOf
         (PlaneTracker.activePlanes now (PlaneTracker.update now frame w)))
  /\ (PlaneTracker.hitTestSource (PlaneTracker.tracker w) = true ->
      (forall xrPlanes, detectedPlanes frame = Some xrPlanes -> posesReturn xrPlanes) ->
      (exists msg, hitTestResults frame = HitTestThrows msg) ->
      PlaneTracker.getTrackingState (PlaneTracker.update now frame w) = LIMITED).
Proof.
  intros Hs Hr. unfold PlaneTracker.update, PlaneTracker.getTrackingState.
  rewrite Hs, Hr. simpl. split.
  - intros [Hposes Hhit].
    pose proof (updatePlaneDetection_returns now frame w Hposes) as Hn1.
    pose proof (updatePlaneDetection_handles now frame w) as Hsrc.
    destruct (PlaneTracker.updatePlaneDetection now frame w) as [w1 c1].
    simpl in *. subst c1.
    pose proof (updateHitTest_returns frame w1) as Hn2.
    destruct (PlaneTracker.updateHitTest frame w1) as [w2 c2]. simpl in *.
    rewrite Hn2 by (by rewrite Hsrc).
    unfold PlaneTracker.updateTrackingStability.
    by rewrite updateTrackingState_state, updateTrackingState_activePlanes.
  - intros Hsource Hposes [msg Hthrows].
    pose proof (updatePlaneDetection_returns now frame w Hposes) as Hn1.
    pose proof (updatePlaneDetection_handles now frame w) as Hsrc.
    destruct (PlaneTracker.updatePlaneDetection now frame w) as [w1 c1].
    simpl in *. subst c1.
    unfold PlaneTracker.updateHitTest. rewrite Hsrc, Hsource, Hthrows. simpl.
    apply updateTrackingState_state.
Qed.

Lemma tracking_state_at_end_of_frame_witness :
  PlaneTracker.getTrackingState
    (@PlaneTracker.update rationalThree 1000 frameWithHit startedWorld)
    = NOT_TRACKING
  /\ PlaneTracker.getTrackingState
       (@PlaneTracker.update rationalThree 1000
          (mkXRFrame (Some [wallPlane]) (HitTestThrows "InvalidStateError"))
          startedWorld)
     = LIMITED.
Proof.
  split.
  - destruct (@tracking_state_at_end_of_frame rationalThree 1000 frameWithHit
                startedWorld eq_refl eq_refl) as [Hclean _].
    rewrite Hclean; [reflexivity |].
    split.
    + intros xrPlanes [= <-]. constructor.
    + intros _ msg. discriminate.
  - destruct (@tracking_state_at_end_of_frame rationalThree 1000
                (mkXRFrame (Some [wallPlane]) (HitTestThrows "InvalidStateError"))
                startedWorld eq_refl eq_refl) as [_ Hthrows].
    apply Hthrows.
    + reflexivity.
    + intros xrPlanes [= <-]. repeat constructor. discriminate.
    + eexists. reflexivity.
Defined.

(** X13.  A frame whose [detectedPlanes] is undefined does not sweep.
    [update] then leaves the plane map, the store and the pose filter as
    they were, however old the records are. *)
Theorem no_sweep_without_detected_planes `{Three} (now : Q) (frame : XRFrame)
    (w : PlaneTracker.World) :
  detectedPlanes frame = None ->
  PlaneTracker.planes (PlaneTracker.tracker (PlaneTracker.update now frame w))
    = PlaneTracker.planes (PlaneTracker.tracker w)
  /\ PlaneTracker.heap (PlaneTracker.update now frame w) = PlaneTracker.heap w
  /\ PlaneTracker.poseFilter (PlaneTracker.tracker (PlaneTracker.update now frame w))
     = PlaneTracker.poseFilter (PlaneTracker.tracker w)
  /\ TrackerRuns.snapshot (PlaneTracker.update now frame w) = TrackerRuns.snapshot w.
Proof.
  intros Hnone.
  assert (PlaneTracker.planes (PlaneTracker.tracker (PlaneTracker.update now frame w))
          = PlaneTracker.planes (PlaneTracker.tracker w)
          /\ PlaneTracker.heap (PlaneTracker.update now frame w) = PlaneTracker.heap w
          /\ PlaneTracker.poseFilter
               (PlaneTracker.tracker (PlaneTracker.update now frame w))
             = PlaneTracker.poseFilter (PlaneTracker.tracker w)) as (Hp & Hh & Hf).
  { unfold PlaneTracker.update, PlaneTracker.updatePlaneDetection.
    rewrite Hnone. destruct (_ || _); [done |].
    destruct (updateHitTest_frame frame w) as (Hh & Hp & Hf).
    destruct (PlaneTracker.updateHitTest frame w) as [w2 c2]. simpl in *.
    destruct c2; unfold PlaneTracker.updateTrackingStability.
    - destruct (updateTrackingState_frame
                  (PlaneTracker.stabilityOf (PlaneTracker.activePlanes now w2)) w2)
        as (-> & -> & -> & _).
      by rewrite Hh, Hp, Hf.
    - destruct (updateTrackingState_frame LIMITED w2) as (-> & -> & -> & _).
      by rewrite Hh, Hp, Hf. }
  split_and!; try done.
  rewrite !snapshot_records. unfold PlaneTracker.planeRecords. by rewrite Hp, Hh.
Qed.

Lemma no_sweep_without_detected_planes_witness :
  PlaneTracker.planes
    (PlaneTracker.tracker
       (@PlaneTracker.update rationalThree 20000
          (mkXRFrame None (HitTestResults [])) worldWithWall))
  = [("p1", 0%nat)].
Proof.
  destruct (@no_sweep_without_detected_planes rationalThree 20000
              (mkXRFrame None (HitTestResults [])) worldWithWall eq_refl)
    as (Hplanes & _).
  rewrite Hplanes. reflexivity.
Defined.

(* ================================================================== *)
(** ** PlaneTracker: the sweep as a filter *)

Section SweepFilterFacts.
Import PlaneTracker TrackerRuns.

Lemma delete_filter (m : JsMap.t ref) (k : string) :
  JsMap.delete m k = base.filter (fun e : string * ref => e.1 <> k) m.
Proof.
  induction m as [| [k0 r0] m IH]; simpl; [done |].
  destruct (decide (k0 = k)) as [-> | Hne].
  - rewrite filter_cons_False by (simpl; tauto). done.
  - rewrite filter_cons_True by done. by rewrite IH.
Qed.

(** The keys the loop deletes: those it meets with a stale record. *)
Lemma cleanupEntries_filter now h (entries m : JsMap.t ref) :
  cleanupEntries now h entries m
    = base.filter
        (fun e : string * ref =>
           e.1 ∉ (base.filter (fun e' : string * ref => isStale now h e'.2 = true)
                              entries).*1)
        m.
Proof.
  unfold cleanupEntries. revert m.
  induction entries as [| [k r] entries IH]; intros m; simpl.
  - induction m as [| e m IHm]; [done |].
    rewrite filter_cons_True by apply not_elem_of_nil. by rewrite <- IHm.
  - destruct (isStale now h r) eqn:Hstale.
    + rewrite IH, delete_filter, list_filter_filter.
      rewrite filter_cons_True by done. csimpl.
      apply list_filter_iff. intros e. rewrite not_elem_of_cons. tauto.
    + rewrite IH. rewrite filter_cons_False by (simpl; congruence). done.
Qed.

Lemma filter_ext_elem {A} (P1 P2 : A -> Prop)
    `{!forall x, Decision (P1 x), !forall x, Decision (P2 x)} (l : list A) :
  (forall x, x ∈ l -> P1 x <-> P2 x) -> base.filter P1 l = base.filter P2 l.
Proof.
  induction l as [| a l IH]; intros Hext; [done |].
  assert (base.filter P1 l = base.filter P2 l) as Hl.
  { apply IH. intros x Hx. apply Hext. apply elem_of_cons. by right. }
  destruct (decide (P1 a)) as [Ha | Ha].
  - rewrite !filter_cons_True; [by rewrite Hl | | done].
    apply Hext; [apply elem_of_cons; by left | done].
  - rewrite !filter_cons_False; [done | | done].
    intros Ha2. apply Ha. apply Hext; [apply elem_of_cons; by left | done].
Qed.

Lemma cleanup_is_filter now (h : Heap) (m : JsMap.t ref) :
  NoDup (JsMap.keys m) ->
  cleanupEntries now h m m
    = base.filter (fun e : string * ref => isStale now h e.2 = false) m.
Proof.
  intros Hnd. rewrite cleanupEntries_filter.
  apply filter_ext_elem. intros [k r] Hin. simpl. split.
  - intros Hnot. destruct (isStale now h r) eqn:Hstale; [| done].
    exfalso. apply Hnot. apply list_elem_of_fmap. exists (k, r).
    split; [done |]. by apply list_elem_of_filter.
  - intros Hfresh Hk. apply list_elem_of_fmap in Hk as ([k' r'] & Hkk & Hin').
    simpl in Hkk. subst k'.
    apply list_elem_of_filter in Hin' as [Hstale Hin']. simpl in Hstale.
    pose proof (JsMapFacts.elem_get_Some m k r Hnd Hin) as Hg.
    pose proof (JsMapFacts.elem_get_Some m k r' Hnd Hin') as Hg'.
    congruence.
Qed.

End SweepFilterFacts.

(** X14.  The sweep is a filter.  On a plane map with distinct keys,
    [cleanupOldPlanes] keeps exactly the entries whose record has
    [now - lastUpdate <= 10000], in their order, and removes the others;
    a second sweep at the same clock reading changes nothing. *)
Theorem sweep_is_a_filter (now : Q) (w : PlaneTracker.World) :
  TrackerRuns.keysUnique w ->
  PlaneTracker.planes (PlaneTracker.tracker (PlaneTracker.cleanupOldPlanes now w))
    = base.filter
        (fun e : string * ref =>
           PlaneTracker.isStale now (PlaneTracker.heap w) e.2 = false)
        (PlaneTracker.planes (PlaneTracker.tracker w))
  /\ PlaneTracker.cleanupOldPlanes now (PlaneTracker.cleanupOldPlanes now w)
     = PlaneTracker.cleanupOldPlanes now w.
Proof.
  intros Hnd.
  assert (PlaneTracker.planes
            (PlaneTracker.tracker (PlaneTracker.cleanupOldPlanes now w))
          = base.filter
              (fun e : string * ref =>
                 PlaneTracker.isStale now (PlaneTracker.heap w) e.2 = false)
              (PlaneTracker.planes (PlaneTracker.tracker w))) as Hfilter.
  { unfold PlaneTracker.cleanupOldPlanes. simpl. by apply cleanup_is_filter. }
  split; [done |].
  unfold PlaneTracker.cleanupOldPlanes at 1. rewrite Hfilter.
  unfold PlaneTracker.cleanupOldPlanes. simpl.
  rewrite (cleanup_is_filter now (PlaneTracker.heap w)
             (PlaneTracker.planes (PlaneTracker.tracker w)) Hnd).
  rewrite cleanup_is_filter.
  - rewrite list_filter_filter_l by done. done.
  - rewrite <- (cleanup_is_filter now (PlaneTracker.heap w) _ Hnd).
    by apply cleanupEntries_NoDup.
Qed.

Lemma sweep_is_a_filter_witness :
  PlaneTracker.planes
    (PlaneTracker.tracker
       (PlaneTracker.cleanupOldPlanes 12000
          (@PlaneTracker.update rationalThree 8000 (frameOf [originPlane])
                                worldWithWall)))
  = [("p3", 1%nat)].
Proof.
  destruct (sweep_is_a_filter 12000
              (@PlaneTracker.update rationalThree 8000 (frameOf [originPlane])
                                    worldWithWall)) as [Hfilter _].
  - apply (@update_keysUnique rationalThree). apply NoDup_singleton.
  - rewrite Hfilter. reflexivity.
Defined.

(* ================================================================== *)
(** ** PlaneTracker: the planes of a frame after the frame *)

Section AfterFrameFacts.
Context `{Three}.
Import PlaneTracker TrackerRuns.

Lemma ingestPlane_heldSince_own (now : Q) (xrPlane : XRPlane) (w : World)
    (position : Vector3) (orientation : Quaternion) :
  planeSpacePose xrPlane = PoseOk position orientation ->
  heldSince now (ingestPlane now xrPlane w).1 (planeIdOf xrPlane).
Proof.
  intros Hp.
  destruct (ingestPlane_effect now xrPlane w position orientation Hp)
    as (record & Hheap & Hid & Hstamp & Hplanes & _).
  exists (length (heap w)), record.
  rewrite Hplanes, Hheap, JsMapFacts.get_set_eq, derefPlane_alloc. by split_and!.
Qed.

Lemma ingestPlane_heldSince_kept (now : Q) (xrPlane : XRPlane) (w : World)
    (k : string) :
  heldSince now w k -> heldSince now (ingestPlane now xrPlane w).1 k.
Proof.
  intros Hheld.
  destruct (planeSpacePose xrPlane) as [msg | | position orientation] eqn:Hp.
  - rewrite ingestPlane_no_pose; [done | congruence].
  - rewrite ingestPlane_no_pose; [done | congruence].
  - destruct (decide (planeIdOf xrPlane = k)) as [<- | Hne].
    + by eapply ingestPlane_heldSince_own.
    + destruct Hheld as (r & record & Hget & Hderef & Hstamp & Hid).
      destruct (ingestPlane_effect now xrPlane w position orientation Hp)
        as (record' & Hheap & _ & _ & Hplanes & _).
      exists r, record. rewrite Hplanes, JsMapFacts.get_set_ne by done.
      split_and!; try done.
      eapply derefPlane_extends; [| done]. by eexists.
Qed.

Lemma forEachPlane_heldSince_kept (now : Q) (xrPlanes : list XRPlane) (w : World)
    (k : string) :
  heldSince now w k -> heldSince now (forEachPlane now xrPlanes w).1 k.
Proof.
  revert w. induction xrPlanes as [| xrPlane rest IH]; intros w Hheld; [done |].
  simpl. pose proof (ingestPlane_heldSince_kept now xrPlane w k Hheld) as Hheld'.
  destruct (ingestPlane now xrPlane w) as [w' [| msg]]; simpl in *;
    [by apply IH | done].
Qed.

Lemma forEachPlane_heldSince (now : Q) (xrPlanes : list XRPlane) (w : World)
    (xrPlane : XRPlane) (position : Vector3) (orientation : Quaternion) :
  posesReturn xrPlanes ->
  xrPlane ∈ xrPlanes ->
  planeSpacePose xrPlane = PoseOk position orientation ->
  heldSince now (forEachPlane now xrPlanes w).1 (planeIdOf xrPlane).
Proof.
  intros Hposes Hin Hp. revert w.
  induction Hposes as [| first rest Hfirst Hrest IH]; intros w.
  - by apply elem_of_nil in Hin.
  - simpl.
    pose proof (forEachPlane_returns now [first] w) as Hn. simpl in Hn.
    destruct (ingestPlane now first w) as [w' c] eqn:Hstep. simpl in *.
    assert (c = Normal) as ->.
    { destruct c; [done |]. discriminate Hn. by repeat constructor. }
    apply elem_of_cons in Hin as [-> | Hin].
    + apply forEachPlane_heldSince_kept.
      pose proof (ingestPlane_heldSince_own now first w position orientation Hp)
        as Hown.
      by rewrite Hstep in Hown.
    + by apply IH.
Qed.

(** The map and the store at the end of [update] are those the plane
    step left. *)
Lemma update_planes_heap (now : Q) (frame : XRFrame) (w : World) :
  planes (tracker (update now frame w))
    = (if negb (xrSession (tracker w)) || negb (xrRefSpace (tracker w))
       then planes (tracker w)
       else planes (tracker (updatePlaneDetection now frame w).1))
  /\ heap (update now frame w)
     = (if negb (xrSession (tracker w)) || negb (xrRefSpace (tracker w))
        then heap w
        else heap (updatePlaneDetection now frame w).1).
Proof.
  unfold update. destruct (_ || _); [done |].
  destruct (updatePlaneDetection now frame w) as [w1 [| msg]]; simpl.
  - destruct (updateHitTest_frame frame w1) as (Hh & Hp & _).
    destruct (updateHitTest frame w1) as [w2 [| msg]]; simpl in *;
      unfold updateTrackingStability.
    + destruct (updateTrackingState_frame (stabilityOf (activePlanes now w2)) w2)
        as (-> & -> & _). by rewrite Hh, Hp.
    + destruct (updateTrackingState_frame LIMITED w2) as (-> & -> & _).
      by rewrite Hh, Hp.
  - by destruct (updateTrackingState_frame LIMITED w1) as (-> & -> & _).
Qed.

End AfterFrameFacts.

(** X15.  After a frame that lists planes.  In a running session, when
    no pose of the frame throws, [update] leaves no record older than
    10000 in what [getDetectedPlanes()] returns, and it leaves every
    plane of the frame that has a pose in the registry, under its
    identifier, with a record stamped with the clock reading of the
    frame: the sweep of a frame never removes a plane of that frame. *)
Theorem planes_of_frame_survive_its_sweep `{Three} (now : Q) (frame : XRFrame)
    (w : PlaneTracker.World) (xrPlanes : list XRPlane) :
  PlaneTracker.xrSession (PlaneTracker.tracker w) = true ->
  PlaneTracker.xrRefSpace (PlaneTracker.tracker w) = true ->
  TrackerRuns.keysUnique w ->
  detectedPlanes frame = Some xrPlanes ->
  posesReturn xrPlanes ->
  Forall (fun p => ~ 10000 < now - lastUpdate p)
         (TrackerRuns.snapshot (PlaneTracker.update now frame w))
  /\ forall xrPlane position orientation,
       xrPlane ∈ xrPlanes ->
       planeSpacePose xrPlane = PoseOk position orientation ->
       heldSince now (PlaneTracker.update now frame w)
                 (PlaneTracker.planeIdOf xrPlane).
Proof.
  intros Hs Hr Hnd Hframe Hposes.
  destruct (update_planes_heap now frame w) as [Hplanes Hheap].
  rewrite Hs, Hr in Hplanes, Hheap. simpl in Hplanes, Hheap.
  unfold PlaneTracker.updatePlaneDetection in Hplanes, Hheap.
  rewrite Hframe in Hplanes, Hheap.
  pose proof (forEachPlane_returns now xrPlanes w Hposes) as Hn.
  pose proof (forEachPlane_keysUnique now xrPlanes w Hnd) as Hnd'.
  pose proof (fun xrPlane position orientation =>
                forEachPlane_heldSince now xrPlanes w xrPlane position orientation
                                       Hposes) as Hheld.
  destruct (PlaneTracker.forEachPlane now xrPlanes w) as [w' c]. simpl in *.
  subst c. simpl in *.
  split.
  - apply Forall_forall. intros p. rewrite snapshot_records.
    unfold PlaneTracker.planeRecords. rewrite Hplanes, Hheap.
    apply (cleanup_leaves_fresh now w').
  - intros xrPlane position orientation Hin Hp.
    destruct (Hheld xrPlane position orientation Hin Hp)
      as (r & record & Hget & Hderef & Hstamp & Hid).
    exists r, record. rewrite Hplanes, Hheap. split_and!; try done.
    apply (cleanup_keeps_fresh now w' _ r record Hnd' Hget Hderef).
    rewrite Hstamp. lra.
Qed.

Lemma planes_of_frame_survive_its_sweep_witness :
  heldSince 20000
    (@PlaneTracker.update rationalThree 20000 (frameOf [originPlane]) worldWithWall)
    "p3"
  /\ length (TrackerRuns.snapshot
               (@PlaneTracker.update rationalThree 20000 (frameOf [originPlane])
                                     worldWithWall)) = 1%nat.
Proof.
  destruct (@planes_of_frame_survive_its_sweep rationalThree 20000
              (frameOf [originPlane]) worldWithWall [originPlane]
              eq_refl eq_refl) as [_ Hheld].
  - apply NoDup_singleton.
  - reflexivity.
  - repeat constructor. discriminate.
  - split; [| reflexivity].
    apply (Hheld originPlane origin identityQuaternion);
      [apply list_elem_of_here | reflexivity].
Defined.

(* ================================================================== *)
(** ** FramerlyAREngine: how updates and removals compose *)

Section MapRoundTrips.
Context {V : Type}.
Implicit Types (m : JsMap.t V) (k : string) (v : V).

Lemma set_set m k v1 v2 : JsMap.set (JsMap.set m k v1) k v2 = JsMap.set m k v2.
Proof.
  induction m as [| [k0 v0] m IH]; simpl.
  - by rewrite decide_True.
  - destruct (decide (k0 = k)) as [-> | Hne]; simpl.
    + by rewrite decide_True.
    + rewrite decide_False by done. by rewrite IH.
Qed.

Lemma set_same m k v : JsMap.get m k = Some v -> JsMap.set m k v = m.
Proof.
  induction m as [| [k0 v0] m IH]; simpl; [done |].
  destruct (decide (k0 = k)) as [-> | Hne].
  - by intros [= ->].
  - intros Hg. by rewrite IH.
Qed.

Lemma delete_set_absent m k v :
  JsMap.get m k = None -> JsMap.delete (JsMap.set m k v) k = m.
Proof.
  induction m as [| [k0 v0] m IH]; simpl.
  - by rewrite decide_True.
  - destruct (decide (k0 = k)) as [-> | Hne]; [done |].
    intros Hg. simpl. rewrite decide_False by done. by rewrite IH.
Qed.

Lemma delete_is_filter m k :
  JsMap.delete m k = base.filter (fun e : string * V => e.1 <> k) m.
Proof.
  induction m as [| [k0 v0] m IH]; simpl; [done |].
  destruct (decide (k0 = k)) as [-> | Hne].
  - rewrite filter_cons_False by (simpl; tauto). done.
  - rewrite filter_cons_True by done. by rewrite IH.
Qed.

End MapRoundTrips.

(** X16.  Updates of one object compose.  Two calls of [updateObject] on
    a present [id] leave the placed-object map as one call with the two
    sets of changes merged, the later winning; a call with no changes
    leaves the map as it is. *)
Theorem updateObject_composes
    (renderer : FramerlyAREngine.RendererCall -> Completion)
    (e : FramerlyAREngine.t) (objectId : string)
    (first second object : FramerlyAREngine.JsObject) :
  JsMap.get (FramerlyAREngine.arObjects e) objectId = Some object ->
  FramerlyAREngine.arObjects
    (FramerlyAREngine.updateObject renderer objectId second
       (FramerlyAREngine.updateObject renderer objectId first e).1).1
    = FramerlyAREngine.arObjects
        (FramerlyAREngine.updateObject renderer objectId (second ∪ first) e).1
  /\ FramerlyAREngine.arObjects
       (FramerlyAREngine.updateObject renderer objectId ∅ e).1
     = FramerlyAREngine.arObjects e.
Proof.
  intros Hg. split.
  - rewrite (updateObject_present renderer objectId (second ∪ first) object e Hg).
    rewrite (updateObject_present renderer objectId second
               (FramerlyAREngine.spread object first)).
    + rewrite (updateObject_present renderer objectId first object e Hg).
      rewrite set_set. unfold FramerlyAREngine.spread. by rewrite (assoc_L (∪)).
    + rewrite (updateObject_present renderer objectId first object e Hg).
      apply JsMapFacts.get_set_eq.
  - rewrite (updateObject_present renderer objectId ∅ object e Hg).
    unfold FramerlyAREngine.spread. rewrite (left_id_L ∅ (∪)).
    by apply set_same.
Qed.

Lemma updateObject_composes_witness :
  FramerlyAREngine.arObjects
    (FramerlyAREngine.updateObject quietRenderer "frame_1" ∅ engineWithFrame).1
  = FramerlyAREngine.arObjects engineWithFrame.
Proof.
  destruct (updateObject_composes quietRenderer engineWithFrame "frame_1" ∅ ∅
              exampleFrame eq_refl) as [_ Hempty].
  exact Hempty.
Defined.

(** X17.  [removeObject] on a present [id] asks the renderer first.  When
    the renderer returns, exactly the entry of [id] is gone, the other
    entries keep their values and their order, and the renderer was
    told the [type] stored at that moment.  When the renderer throws,
    the entry is still there. *)
Theorem removeObject_present
    (renderer : FramerlyAREngine.RendererCall -> Completion)
    (e : FramerlyAREngine.t) (objectId : string)
    (object : FramerlyAREngine.JsObject) :
  JsMap.get (FramerlyAREngine.arObjects e) objectId = Some object ->
  let call := FramerlyAREngine.RemoveObject objectId (object !! "type") in
  let removed := FramerlyAREngine.removeObject renderer objectId e in
  FramerlyAREngine.rendered removed.1 = FramerlyAREngine.rendered e ++ [call]
  /\ removed.2 = renderer call
  /\ (renderer call = Normal ->
      FramerlyAREngine.arObjects removed.1
        = base.filter (fun entry : string * FramerlyAREngine.JsObject =>
                         entry.1 <> objectId)
                      (FramerlyAREngine.arObjects e)
      /\ JsMap.get (FramerlyAREngine.arObjects removed.1) objectId = None)
  /\ (renderer call <> Normal ->
      FramerlyAREngine.arObjects removed.1 = FramerlyAREngine.arObjects e).
Proof.
  intros Hg call removed. subst call removed.
  unfold FramerlyAREngine.removeObject. rewrite Hg.
  destruct (renderer _) as [| msg]; simpl.
  - split_and!; [done | done | | done].
    intros _. split; [apply delete_is_filter | apply JsMapFacts.get_delete_eq].
  - split_and!; [done | done | discriminate | done].
Qed.

Lemma removeObject_present_witness :
  FramerlyAREngine.arObjects
    (FramerlyAREngine.removeObject quietRenderer "frame_1" engineWithFrame).1 = []
  /\ FramerlyAREngine.arObjects
       (FramerlyAREngine.removeObject (fun _ => Throw "context lost") "frame_1"
          engineWithFrame).1
     = FramerlyAREngine.arObjects engineWithFrame.
Proof.
  split.
  - destruct (removeObject_present quietRenderer engineWithFrame "frame_1"
                exampleFrame eq_refl) as (_ & _ & Hgone & _).
    destruct (Hgone eq_refl) as [Hfilter _]. rewrite Hfilter. reflexivity.
  - destruct (removeObject_present (fun _ => Throw "context lost") engineWithFrame
                "frame_1" exampleFrame eq_refl) as (_ & _ & _ & Hkept).
    apply Hkept. discriminate.
Defined.

(** X18.  The renderer is addressed by the stored [type].  [updateObject]
    picks [updateFrame] or [updateNeon] by the [type] the object has
    before the merge, and [removeObject] passes the [type] the object
    has at removal.  So when an update changes a frame's [type] to
    ['neon'], that update still goes to [updateFrame], the next update
    goes to [updateNeon], and a removal asks the renderer for a neon
    object. *)
Theorem renderer_addressed_by_stored_type
    (renderer : FramerlyAREngine.RendererCall -> Completion)
    (e : FramerlyAREngine.t) (objectId : string)
    (changes later object : FramerlyAREngine.JsObject) :
  JsMap.get (FramerlyAREngine.arObjects e) objectId = Some object ->
  FramerlyAREngine.isFrame object = true ->
  changes !! "type" = Some (FramerlyAREngine.VString "neon") ->
  let e1 := (FramerlyAREngine.updateObject renderer objectId changes e).1 in
  FramerlyAREngine.rendered e1
    = FramerlyAREngine.rendered e
        ++ [FramerlyAREngine.UpdateFrame (changes ∪ object)]
  /\ (later !! "type" = None ->
      FramerlyAREngine.rendered
        (FramerlyAREngine.updateObject renderer objectId later e1).1
      = FramerlyAREngine.rendered e1
          ++ [FramerlyAREngine.UpdateNeon (later ∪ (changes ∪ object))])
  /\ FramerlyAREngine.rendered
       (FramerlyAREngine.removeObject renderer objectId e1).1
     = FramerlyAREngine.rendered e1
         ++ [FramerlyAREngine.RemoveObject objectId
               (Some (FramerlyAREngine.VString "neon"))].
Proof.
  intros Hg Hframe Htype e1. subst e1.
  assert (JsMap.get
            (FramerlyAREngine.arObjects
               (FramerlyAREngine.updateObject renderer objectId changes e).1)
            objectId = Some (changes ∪ object)) as Hg1.
  { rewrite (updateObject_present renderer objectId changes object e Hg).
    apply JsMapFacts.get_set_eq. }
  assert ((changes ∪ object) !! "type" = Some (FramerlyAREngine.VString "neon"))
    as Htype1 by (by apply lookup_union_Some_l).
  split_and!.
  - unfold FramerlyAREngine.updateObject. rewrite Hg. simpl. by rewrite Hframe.
  - intros Hlater. unfold FramerlyAREngine.updateObject at 1. rewrite Hg1. simpl.
    unfold FramerlyAREngine.isFrame. by rewrite Htype1.
  - unfold FramerlyAREngine.removeObject. rewrite Hg1, Htype1.
    by destruct (renderer _).
Qed.

Lemma renderer_addressed_by_stored_type_witness :
  FramerlyAREngine.rendered
    (FramerlyAREngine.removeObject quietRenderer "frame_1"
       (FramerlyAREngine.updateObject quietRenderer "frame_1"
          {[ "type" := FramerlyAREngine.VString "neon" ]} engineWithFrame).1).1
  = [FramerlyAREngine.UpdateFrame
       ({[ "type" := FramerlyAREngine.VString "neon" ]} ∪ exampleFrame);
     FramerlyAREngine.RemoveObject "frame_1"
       (Some (FramerlyAREngine.VString "neon"))].
Proof.
  destruct (renderer_addressed_by_stored_type quietRenderer engineWithFrame "frame_1"
              {[ "type" := FramerlyAREngine.VString "neon" ]} ∅ exampleFrame)
    as (Hupdate & _ & Hremove); [reflexivity | reflexivity | reflexivity |].
  rewrite Hremove, Hupdate. reflexivity.
Defined.

(* ================================================================== *)
(** ** FramerlyAREngine: placing objects *)

Section PlacementFacts.
Import FramerlyAREngine Placement.
Variable creates : Effect -> Completion.

Lemma storeAndShow_stored (objectId : string) (data : JsObject) (create : Effect)
    (e : t) :
  arObjects (core (storeAndShow creates objectId data create e).1)
    = JsMap.set (arObjects (core e)) objectId data
  /\ currentMode (core (storeAndShow creates objectId data create e).1)
     = currentMode (core e)
  /\ rendered (core (storeAndShow creates objectId data create e).1)
     = rendered (core e).
Proof.
  unfold storeAndShow. destruct (creates create) as [| msg]; simpl; [done |].
  unfold reportError. simpl. by destruct (onErrorCallback e).
Qed.

Lemma createFrameData_fields (objectId : string) (position : Vector3)
    (rotation : option (Q * Q * Q)) (nowDate : Q)
    (recommendations : list FrameRecommendation) (data : JsObject) :
  createFrameData objectId position rotation nowDate recommendations = inl data ->
  data !! "id" = Some (VString objectId)
  /\ data !! "type" = Some (VString "frame")
  /\ data !! "position" = Some (VVector3 position)
  /\ data !! "isPlaced" = Some (VBoolean true).
Proof.
  unfold createFrameData.
  destruct (suggestedSize _) as [[width height] |]; [| discriminate].
  intros [= <-]. by split_and!.
Qed.

Lemma createNeonData_fields (objectId : string) (position : Vector3)
    (rotation : option (Q * Q * Q)) (nowDate : Q)
    (recommendations : list NeonRecommendation) :
  let data := createNeonData objectId position rotation nowDate recommendations in
  data !! "id" = Some (VString objectId)
  /\ data !! "type" = Some (VString "neon")
  /\ data !! "position" = Some (VVector3 position)
  /\ data !! "isPlaced" = Some (VBoolean true).
Proof. by split_and!. Qed.

End PlacementFacts.

(** X19.  An object is stored with the kind fixed when its placement
    started.  When [placeObject] resumes and neither the data nor the
    renderer fails, it returns the identifier fixed at the start and the
    map holds under it an object whose [id] is that identifier, whose
    [type] is the mode at the start, whatever the mode is by then, and
    whose position is the one asked for.  Entries under other keys and
    the current mode are untouched; an entry already under that
    identifier is replaced. *)
Theorem placed_object_is_stored (creates : Placement.Effect -> Completion)
    (p : Placement.Pending) (frameAnswer : list FrameRecommendation)
    (neonAnswer : list NeonRecommendation) (nowDate : Q) (e : Placement.t) :
  (forall create, creates create = Normal) ->
  (Placement.pendingMode p = FRAME ->
   is_Some (suggestedSize
              (default Placement.defaultFrameRecommendation (head frameAnswer)))) ->
  let finished := Placement.placeObjectFinish creates p frameAnswer neonAnswer
                                              nowDate e in
  finished.2 = Placement.Placed (Placement.pendingId p)
  /\ (exists data,
        FramerlyAREngine.arObjects (Placement.core finished.1)
          = JsMap.set (FramerlyAREngine.arObjects (Placement.core e))
                      (Placement.pendingId p) data
        /\ data !! "id" = Some (FramerlyAREngine.VString (Placement.pendingId p))
        /\ data !! "type"
           = Some (FramerlyAREngine.VString
                     (Placement.modeString (Placement.pendingMode p)))
        /\ data !! "position"
           = Some (FramerlyAREngine.VVector3 (Placement.pendingPosition p))
        /\ data !! "isPlaced" = Some (FramerlyAREngine.VBoolean true))
  /\ (forall other,
        other <> Placement.pendingId p ->
        JsMap.get (FramerlyAREngine.arObjects (Placement.core finished.1)) other
          = JsMap.get (FramerlyAREngine.arObjects (Placement.core e)) other)
  /\ FramerlyAREngine.currentMode (Placement.core finished.1)
     = FramerlyAREngine.currentMode (Placement.core e).
Proof.
  intros Hcreates Hsize finished. subst finished.
  unfold Placement.placeObjectFinish.
  destruct (Placement.pendingMode p) eqn:Hmode.
  - destruct (Hsize eq_refl) as [[width height] Hsome].
    destruct (Placement.createFrameData _ _ _ _ _) as [frameData | msg] eqn:Hdata.
    2: { unfold Placement.createFrameData in Hdata. by rewrite Hsome in Hdata. }
    destruct (createFrameData_fields _ _ _ _ _ _ Hdata) as (Hid & Hty & Hpos & Hpl).
    destruct (storeAndShow_stored creates (Placement.pendingId p) frameData
                (Placement.CreateFrame frameData) e) as (Hobjects & Hcur & _).
    split_and!.
    + unfold Placement.storeAndShow. by rewrite Hcreates.
    + exists frameData. by split_and!.
    + intros other Hne. rewrite Hobjects. by apply JsMapFacts.get_set_ne.
    + done.
  - destruct (storeAndShow_stored creates (Placement.pendingId p)
                (Placement.createNeonData (Placement.pendingId p)
                   (Placement.pendingPosition p) (Placement.pendingRotation p)
                   nowDate neonAnswer)
                (Placement.CreateNeonSign
                   (Placement.createNeonData (Placement.pendingId p)
                      (Placement.pendingPosition p) (Placement.pendingRotation p)
                      nowDate neonAnswer)) e) as (Hobjects & Hcur & _).
    split_and!.
    + unfold Placement.storeAndShow. by rewrite Hcreates.
    + eexists. split; [exact Hobjects |].
      apply createNeonData_fields.
    + intros other Hne. rewrite Hobjects. by apply JsMapFacts.get_set_ne.
    + done.
Qed.

Lemma placed_object_is_stored_witness :
  (Placement.placeObjectFinish quietCreates
     (Placement.placeObjectStart "1700000000000" "k3j9x0p2q" unitX None
                                 emptyPlacement)
     [] [] 1700000000123
     (Placement.mkPlacement
        (FramerlyAREngine.setMode NEON (Placement.core emptyPlacement))
        (Some 1%nat) (Some 2%nat) [])).2
  = Placement.Placed "frame_1700000000000_k3j9x0p2q".
Proof.
  destruct (placed_object_is_stored quietCreates
              (Placement.placeObjectStart "1700000000000" "k3j9x0p2q" unitX None
                                          emptyPlacement)
              [] [] 1700000000123
              (Placement.mkPlacement
                 (FramerlyAREngine.setMode NEON (Placement.core emptyPlacement))
                 (Some 1%nat) (Some 2%nat) [])) as (Hplaced & _).
  - reflexivity.
  - intros _. eexists. reflexivity.
  - exact Hplaced.
Defined.

(** X20.  Identifiers of different kinds never collide: the identifier
    [placeObject] makes starts with the mode, so one made in frame mode
    differs from every one made in neon mode, whatever the clock and the
    random suffix. *)
Theorem object_ids_separate_modes (m m' : ARMode) (stamp suffix stamp' suffix' : string) :
  Placement.objectIdOf m stamp suffix = Placement.objectIdOf m' stamp' suffix' ->
  m = m'.
Proof. destruct m, m'; simpl; intros Heq; try done; discriminate Heq. Qed.

Lemma object_ids_separate_modes_witness :
  Placement.pendingMode
    (Placement.placeObjectStart "1700000000000" "k3j9x0p2q" unitX None emptyPlacement)
  = FRAME.
Proof.
  apply (object_ids_separate_modes _ FRAME "1700000000000" "k3j9x0p2q"
           "1700000000000" "k3j9x0p2q").
  reflexivity.
Defined.

(** X21.  A placement that fails in the renderer leaves its object
    behind.  The object is put in the placed-object map before the
    renderer is asked to create it, so when [createFrame] or
    [createNeonSign] throws, [placeObject] rethrows the error and
    invokes the error callback, when registered, once with it, the
    placed callback is not invoked, and the map holds the object under
    the identifier that was never returned. *)
Theorem failed_creation_leaves_object (creates : Placement.Effect -> Completion)
    (p : Placement.Pending) (frameAnswer : list FrameRecommendation)
    (neonAnswer : list NeonRecommendation) (nowDate : Q) (e : Placement.t)
    (msg : string) :
  (forall create, creates create = Throw msg) ->
  (Placement.pendingMode p = FRAME ->
   is_Some (suggestedSize
              (default Placement.defaultFrameRecommendation (head frameAnswer)))) ->
  let finished := Placement.placeObjectFinish creates p frameAnswer neonAnswer
                                              nowDate e in
  finished.2 = Placement.Failed msg
  /\ exists data create,
       (create = Placement.CreateFrame data \/ create = Placement.CreateNeonSign data)
       /\ JsMap.get (FramerlyAREngine.arObjects (Placement.core finished.1))
                    (Placement.pendingId p) = Some data
       /\ Placement.effects finished.1
          = Placement.effects e ++ [create]
              ++ match Placement.onErrorCallback e with
                 | Some cb => [Placement.ErrorReported cb msg]
                 | None => []
                 end.
Proof.
  intros Hthrows Hsize finished. subst finished.
  assert (forall data create,
            (Placement.storeAndShow creates (Placement.pendingId p) data create e).2
            = Placement.Failed msg
            /\ JsMap.get (FramerlyAREngine.arObjects
                            (Placement.core
                               (Placement.storeAndShow creates (Placement.pendingId p)
                                                       data create e).1))
                         (Placement.pendingId p) = Some data
            /\ Placement.effects
                 (Placement.storeAndShow creates (Placement.pendingId p) data create e).1
               = Placement.effects e ++ [create]
                   ++ match Placement.onErrorCallback e with
                      | Some cb => [Placement.ErrorReported cb msg]
                      | None => []
                      end) as Hstore.
  { intros data create. unfold Placement.storeAndShow. rewrite Hthrows.
    unfold Placement.reportError. simpl.
    destruct (Placement.onErrorCallback e); simpl;
      rewrite JsMapFacts.get_set_eq; split_and!; try done.
    by rewrite <- app_assoc. }
  unfold Placement.placeObjectFinish.
  destruct (Placement.pendingMode p) eqn:Hmode.
  - destruct (Hsize eq_refl) as [[width height] Hsome].
    unfold Placement.createFrameData. rewrite Hsome.
    match goal with
    | |- context [Placement.storeAndShow _ _ ?d ?c _] =>
        destruct (Hstore d c) as (Hfailed & Hget & Heffects);
        split; [exact Hfailed | exists d, c; split_and!; [by left | exact Hget | exact Heffects]]
    end.
  - match goal with
    | |- context [Placement.storeAndShow _ _ ?d ?c _] =>
        destruct (Hstore d c) as (Hfailed & Hget & Heffects);
        split; [exact Hfailed | exists d, c; split_and!; [by right | exact Hget | exact Heffects]]
    end.
Qed.

Lemma failed_creation_leaves_object_witness :
  (Placement.placeObjectFinish failingCreates
     (Placement.placeObjectStart "1700000000000" "k3j9x0p2q" unitX None
                                 emptyPlacement)
     [] [] 1700000000123 emptyPlacement).2
  = Placement.Failed "WebGL context lost"
  /\ JsMap.has
       (FramerlyAREngine.arObjects
          (Placement.core
             (Placement.placeObjectFinish failingCreates
                (Placement.placeObjectStart "1700000000000" "k3j9x0p2q" unitX None
                                            emptyPlacement)
                [] [] 1700000000123 emptyPlacement).1))
       "frame_1700000000000_k3j9x0p2q" = true.
Proof.
  destruct (failed_creation_leaves_object failingCreates
              (Placement.placeObjectStart "1700000000000" "k3j9x0p2q" unitX None
                                          emptyPlacement)
              [] [] 1700000000123 emptyPlacement "WebGL context lost")
    as (Hfailed & data & create & _ & Hget & _).
  - reflexivity.
  - intros _. by eexists.
  - split; [exact Hfailed |].
    unfold JsMap.has. apply bool_decide_eq_true. exists data. exact Hget.
Defined.

(** X22.  Placing and then removing is a round trip on the map: when the
    identifier was not in use and the renderer returns from both calls,
    [removeObject] of the identifier [placeObject] returned leaves the
    placed-object map as it was before the placement. *)
Theorem place_then_remove (creates : Placement.Effect -> Completion)
    (renderer : FramerlyAREngine.RendererCall -> Completion)
    (p : Placement.Pending) (frameAnswer : list FrameRecommendation)
    (neonAnswer : list NeonRecommendation) (nowDate : Q) (e : Placement.t)
    (objectId : string) :
  JsMap.get (FramerlyAREngine.arObjects (Placement.core e)) (Placement.pendingId p)
    = None ->
  (forall call, renderer call = Normal) ->
  (Placement.placeObjectFinish creates p frameAnswer neonAnswer nowDate e).2
    = Placement.Placed objectId ->
  FramerlyAREngine.arObjects
    (FramerlyAREngine.removeObject renderer objectId
       (Placement.core
          (Placement.placeObjectFinish creates p frameAnswer neonAnswer nowDate e).1)).1
  = FramerlyAREngine.arObjects (Placement.core e).
Proof.
  intros Hfresh Hrenderer Hplaced.
  assert (objectId = Placement.pendingId p
          /\ exists data,
               FramerlyAREngine.arObjects
                 (Placement.core
                    (Placement.placeObjectFinish creates p frameAnswer neonAnswer
                                                 nowDate e).1)
               = JsMap.set (FramerlyAREngine.arObjects (Placement.core e))
                           (Placement.pendingId p) data) as [-> [data Hset]].
  { revert Hplaced. unfold Placement.placeObjectFinish.
    destruct (Placement.pendingMode p).
    - destruct (Placement.createFrameData _ _ _ _ _) as [frameData | msg];
        [| discriminate].
      destruct (storeAndShow_stored creates (Placement.pendingId p) frameData
                  (Placement.CreateFrame frameData) e) as (Hobjects & _).
      unfold Placement.storeAndShow in *.
      destruct (creates _); [| discriminate].
      intros [= <-]. split; [done |]. by exists frameData.
    - match goal with
      | |- context [Placement.storeAndShow _ _ ?d ?c _] =>
          destruct (storeAndShow_stored creates (Placement.pendingId p) d c e)
            as (Hobjects & _)
      end.
      unfold Placement.storeAndShow in *.
      destruct (creates _); [| discriminate].
      intros [= <-]. split; [done |]. by eexists. }
  unfold FramerlyAREngine.removeObject. rewrite Hset, JsMapFacts.get_set_eq.
  rewrite Hrenderer. simpl. by apply delete_set_absent.
Qed.

Lemma place_then_remove_witness :
  FramerlyAREngine.arObjects
    (FramerlyAREngine.removeObject quietRenderer "neon_1700000000000_k3j9x0p2q"
       (Placement.core
          (Placement.placeObject quietCreates "1700000000000" "k3j9x0p2q" unitX None
             [] [] 1700000000123
             (Placement.mkPlacement
                (FramerlyAREngine.setMode NEON engineWithFrame)
                None None [])).1)).1
  = FramerlyAREngine.arObjects engineWithFrame.
Proof.
  apply (place_then_remove quietCreates quietRenderer
           (Placement.placeObjectStart "1700000000000" "k3j9x0p2q" unitX None
              (Placement.mkPlacement
                 (FramerlyAREngine.setMode NEON engineWithFrame) None None []))
           [] [] 1700000000123
           (Placement.mkPlacement
              (FramerlyAREngine.setMode NEON engineWithFrame) None None [])).
  - reflexivity.
  - reflexivity.
  - reflexivity.
Defined.

(** X23.  [handleTap] never places anything.  What it passes to
    [hitTest] as the frame is the number [requestAnimationFrame]
    returned; calling [getHitTestResults] on it throws inside the [try]
    of [hitTest], which returns null, so [handleTap] returns null for
    every tap, in every state of the tracker, and [placeObject] is not
    reached. *)
Theorem handleTap_never_places {A} (place : Vector3 -> option A) (x y : Q)
    (handle : nat) (w : PlaneTracker.World) :
  Placement.handleTap place x y handle w = None.
Proof.
  unfold Placement.handleTap, PlaneTracker.hitTest, Placement.frameOfHandle.
  destruct (PlaneTracker.xrSession _); simpl; [| done].
  by destruct (PlaneTracker.xrRefSpace _), (PlaneTracker.hitTestSource _).
Qed.

(* ================================================================== *)
(** ** AIConnector: the retry loop *)

Section RetryFacts.
Import AIConnector.
Variable config : APIConfig.
Variable url : string.
Variable respond : nat -> Attempt.

#[local] Abbreviation M := (maxRetries config).
#[local] Abbreviation N := (Z.to_nat (Qceiling (maxRetries config))).
#[local] Abbreviation loop := (attempts config url respond).

Lemma attempts_S (fuel attempt : nat) (lastError : Thrown) :
  loop (S fuel) attempt lastError
  = if Qltb (inject_Z (Z.of_nat attempt)) M then
      match attemptResult (respond attempt) with
      | inl body => ([Fetch url], Resolved body)
      | inr error =>
          if rethrown error then ([Fetch url], Rejected error)
          else
            (Fetch url ::
               (if Qltb (inject_Z (Z.of_nat attempt)) (M - 1)
                then [Delay (backoff attempt)] else [])
               ++ (loop fuel (S attempt) error).1,
             (loop fuel (S attempt) error).2)
      end
    else ([], Rejected lastError).
Proof. reflexivity. Qed.

Lemma attempt_lt_rounds (attempt : nat) :
  Qltb (inject_Z (Z.of_nat attempt)) M = true -> (attempt < N)%nat.
Proof.
  intros Hlt%Qltb_lt.
  pose proof (Qle_ceiling M) as Hceil.
  assert (inject_Z (Z.of_nat attempt) < inject_Z (Qceiling M)) as Hz
    by (eapply Qlt_le_trans; eauto).
  rewrite <- Zlt_Qlt in Hz. lia.
Qed.

(** The bound on the rounds is never what ends the loop. *)
Lemma attempts_more_fuel (fuel attempt : nat) (lastError : Thrown) :
  (N < fuel + attempt)%nat ->
  loop (S fuel) attempt lastError = loop fuel attempt lastError.
Proof.
  revert attempt lastError.
  induction fuel as [| fuel IH]; intros attempt lastError Hfuel.
  - simpl. destruct (Qltb _ M) eqn:Hlt; [| done].
    apply attempt_lt_rounds in Hlt. lia.
  - rewrite (attempts_S (S fuel)), (attempts_S fuel).
    destruct (Qltb _ M); [| done].
    destruct (attemptResult (respond attempt)) as [body | error]; [done |].
    destruct (rethrown error); [done |].
    rewrite (IH (S attempt) error) by lia. done.
Qed.

Lemma attempts_enough_fuel (extra : nat) (lastError : Thrown) :
  loop (extra + rounds config) 0 lastError = loop (rounds config) 0 lastError.
Proof.
  induction extra as [| extra IH]; [done |].
  rewrite <- IH. apply attempts_more_fuel. unfold rounds. lia.
Qed.

(** A run of retried attempts: each is fetched and waited after. *)
Lemma attempts_retried_prefix (d fuel attempt : nat) (lastError : Thrown) :
  Qltb (inject_Z (Z.of_nat (attempt + d))) M = true ->
  (forall i, (attempt <= i < attempt + d)%nat -> retried (respond i)) ->
  exists error,
    loop (d + fuel) attempt lastError
    = (flat_map (fun i => [Fetch url; Delay (backoff i)]) (seq attempt d)
         ++ (loop fuel (attempt + d) error).1,
       (loop fuel (attempt + d) error).2)
    /\ (d = 0%nat -> error = lastError)
    /\ (forall d', d = S d' ->
          attemptResult (respond (attempt + d')) = inr error).
Proof.
  revert attempt lastError.
  induction d as [| d IH]; intros attempt lastError Hlast Hretried.
  - exists lastError. rewrite Nat.add_0_r. simpl.
    split; [by destruct (loop fuel attempt lastError) | split; [done | discriminate]].
  - destruct (Hretried attempt ltac:(lia)) as (error & Hresult & Hrethrown).
    destruct (IH (S attempt) error) as (error' & Hloop & Hzero & Hsucc).
    { by replace (S attempt + d)%nat with (attempt + S d)%nat by lia. }
    { intros i Hi. apply Hretried. lia. }
    apply Qltb_lt in Hlast.
    assert (Qltb (inject_Z (Z.of_nat attempt)) M = true) as Hhere.
    { apply Qltb_lt. eapply Qle_lt_trans; [| exact Hlast].
      rewrite <- Zle_Qle. lia. }
    assert (Qltb (inject_Z (Z.of_nat attempt)) (M - 1) = true) as Hwait.
    { apply Qltb_lt.
      assert (inject_Z (Z.of_nat attempt) + 1 <= inject_Z (Z.of_nat (attempt + S d)))
        as Hstep.
      { rewrite <- (inject_Z_plus _ 1), <- Zle_Qle. lia. }
      lra. }
    exists error'. split; [| split; [discriminate |]].
    + change (S d + fuel)%nat with (S (d + fuel)).
      rewrite attempts_S, Hhere, Hresult, Hrethrown, Hwait, Hloop.
      replace (attempt + S d)%nat with (S attempt + d)%nat by lia.
      reflexivity.
    + intros d' [= <-]. destruct d as [| d].
      * rewrite Nat.add_0_r. rewrite (Hzero eq_refl). exact Hresult.
      * specialize (Hsucc d eq_refl).
        replace (attempt + S d)%nat with (S attempt + d)%nat by lia.
        exact Hsucc.
Qed.

Lemma attempts_fetch_bound (fuel attempt : nat) (lastError : Thrown) :
  (length (fetched (loop fuel attempt lastError).1) <= N - attempt)%nat
  /\ Forall (fun u => u = url) (fetched (loop fuel attempt lastError).1).
Proof.
  revert attempt lastError.
  induction fuel as [| fuel IH]; intros attempt lastError.
  - split; [simpl; lia | constructor].
  - rewrite attempts_S.
    destruct (Qltb _ M) eqn:Hlt; simpl; [| split; [lia | constructor]].
    apply attempt_lt_rounds in Hlt.
    destruct (attemptResult (respond attempt)) as [body | error]; simpl.
    { split; [lia | by repeat constructor]. }
    destruct (rethrown error); simpl.
    { split; [lia | by repeat constructor]. }
    destruct (IH (S attempt) error) as [Hlen Hall].
    unfold fetched in *. rewrite omap_app.
    destruct (Qltb _ (M - 1)); simpl.
    + split; [lia | by constructor].
    + split; [lia | by constructor].
Qed.

End RetryFacts.

Lemma inject_nat_succ (n : nat) :
  inject_Z (Z.of_nat (S n)) == inject_Z (Z.of_nat n) + 1.
Proof. rewrite Nat2Z.inj_succ. unfold Z.succ. by rewrite inject_Z_plus. Qed.

(** X24.  When every response to a request has
    [ok] false, whatever its status (4xx included), [makeRequest] with
    [maxRetries] a positive integer fetches exactly [maxRetries] times,
    waits 1000 ms, 2000 ms, 4000 ms, ... between consecutive fetches and
    not after the last, and rejects with the error made from the last
    response. *)
Theorem failed_responses_are_retried
    (config : AIConnector.APIConfig) (endpoint : string)
    (respond : nat -> AIConnector.Attempt) (n : nat) :
  AIConnector.maxRetries config == inject_Z (Z.of_nat (S n)) ->
  (forall i, (i <= n)%nat ->
     exists status statusText, respond i = AIConnector.NotOk status statusText) ->
  exists status statusText,
    respond n = AIConnector.NotOk status statusText
    /\ AIConnector.makeRequest config endpoint None respond
       = (flat_map (fun i => [AIConnector.Fetch (AIConnector.baseUrl config +:+ endpoint);
                              AIConnector.Delay (AIConnector.backoff i)])
                   (seq 0 n)
            ++ [AIConnector.Fetch (AIConnector.baseUrl config +:+ endpoint)],
          AIConnector.Rejected
            (AIConnector.OtherError
               ("API request failed: " +:+ pretty status +:+ " " +:+ statusText))).
Proof.
  intros Hmax Hresponses.
  destruct (Hresponses n ltac:(lia)) as (status & statusText & Hlast).
  exists status, statusText. split; [exact Hlast |].
  pose proof (inject_nat_succ n) as Hsucc.
  assert (AIConnector.rounds config = (n + 2)%nat) as Hrounds.
  { unfold AIConnector.rounds. rewrite Hmax, Qceiling_Z. lia. }
  unfold AIConnector.makeRequest. rewrite Hrounds.
  destruct (attempts_retried_prefix config (AIConnector.baseUrl config +:+ endpoint)
              respond n 2 0 AIConnector.ThrownUndefined)
    as (error & Hloop & _ & _).
  { apply Qltb_lt. simpl. lra. }
  { intros i Hi. destruct (Hresponses i ltac:(lia)) as (s & t & Hi').
    rewrite Hi'. by eexists. }
  rewrite Hloop. simpl (0 + n)%nat.
  rewrite !attempts_S, Hlast. simpl.
  replace (Qltb (inject_Z (Z.of_nat n)) (AIConnector.maxRetries config)) with true
    by (symmetry; apply Qltb_lt; lra).
  replace (Qltb (inject_Z (Z.of_nat n)) (AIConnector.maxRetries config - 1)) with false
    by (symmetry; apply Qltb_ge; lra).
  replace (Qltb (inject_Z (Z.of_nat (S n))) (AIConnector.maxRetries config)) with false
    by (symmetry; apply Qltb_ge; lra).
  reflexivity.
Qed.

Lemma failed_responses_are_retried_witness :
  AIConnector.makeRequest defaultConfig "/frames/recommend" None alwaysNotFound
  = ([AIConnector.Fetch "https://api.framerly.com/v1/frames/recommend";
      AIConnector.Delay (AIConnector.backoff 0);
      AIConnector.Fetch "https://api.framerly.com/v1/frames/recommend";
      AIConnector.Delay (AIConnector.backoff 1);
      AIConnector.Fetch "https://api.framerly.com/v1/frames/recommend"],
     AIConnector.Rejected (AIConnector.OtherError "API request failed: 404 Not Found")).
Proof.
  destruct (failed_responses_are_retried defaultConfig "/frames/recommend"
              alwaysNotFound 2)
    as (status & statusText & Hlast & Hrequest).
  - reflexivity.
  - intros i _. by exists 404%N, "Not Found".
  - injection Hlast as <- <-. exact Hrequest.
Defined.

(** X25.  [makeRequest] resolves with the body
    of the first attempt that succeeds, provided the attempts before it
    failed with errors the loop does not rethrow and its index is below
    [maxRetries]: every earlier attempt is fetched and waited after, and
    nothing is fetched after the successful one. *)
Theorem request_resolves_with_first_ok
    (config : AIConnector.APIConfig) (endpoint : string)
    (respond : nat -> AIConnector.Attempt) (k : nat) (body : AIConnector.Json) :
  inject_Z (Z.of_nat k) < AIConnector.maxRetries config ->
  respond k = AIConnector.Ok body ->
  (forall i, (i < k)%nat -> retried (respond i)) ->
  AIConnector.makeRequest config endpoint None respond
  = (flat_map (fun i => [AIConnector.Fetch (AIConnector.baseUrl config +:+ endpoint);
                         AIConnector.Delay (AIConnector.backoff i)])
              (seq 0 k)
       ++ [AIConnector.Fetch (AIConnector.baseUrl config +:+ endpoint)],
     AIConnector.Resolved body).
Proof.
  intros Hk%Qltb_lt Hok Hretried.
  pose proof (attempt_lt_rounds config k Hk) as Hrounds.
  unfold AIConnector.makeRequest, AIConnector.rounds.
  replace (S (Z.to_nat (Qceiling (AIConnector.maxRetries config))))
    with (k + S (Z.to_nat (Qceiling (AIConnector.maxRetries config)) - k))%nat by lia.
  destruct (attempts_retried_prefix config (AIConnector.baseUrl config +:+ endpoint)
              respond k (S (Z.to_nat (Qceiling (AIConnector.maxRetries config)) - k))
              0 AIConnector.ThrownUndefined)
    as (error & Hloop & _ & _); [exact Hk | intros i Hi; apply Hretried; lia |].
  rewrite Hloop. simpl (0 + k)%nat.
  by rewrite attempts_S, Hk, Hok.
Qed.

Lemma request_resolves_with_first_ok_witness :
  AIConnector.makeRequest defaultConfig "/neon/recommend" None okAtThird
  = ([AIConnector.Fetch "https://api.framerly.com/v1/neon/recommend";
      AIConnector.Delay (AIConnector.backoff 0);
      AIConnector.Fetch "https://api.framerly.com/v1/neon/recommend";
      AIConnector.Delay (AIConnector.backoff 1);
      AIConnector.Fetch "https://api.framerly.com/v1/neon/recommend"],
     AIConnector.Resolved (AIConnector.JObject [])).
Proof.
  apply (request_resolves_with_first_ok defaultConfig "/neon/recommend" okAtThird 2
           (AIConnector.JObject [])).
  - reflexivity.
  - reflexivity.
  - intros i Hi. exists (AIConnector.OtherError "API request failed: 503 Service Unavailable").
    destruct i as [| [| i]]; [by split | by split | lia].
Defined.

(** X26.  Whatever the service does,
    [makeRequest] fetches at most [maxRetries] times (rounded up), and
    only the URL made of the configured base and the endpoint. *)
Theorem fetches_are_bounded
    (config : AIConnector.APIConfig) (endpoint : string)
    (setup : option AIConnector.Thrown) (respond : nat -> AIConnector.Attempt) :
  (length (fetched (AIConnector.makeRequest config endpoint setup respond).1)
   <= Z.to_nat (Qceiling (AIConnector.maxRetries config)))%nat
  /\ Forall (fun u => u = AIConnector.baseUrl config +:+ endpoint)
            (fetched (AIConnector.makeRequest config endpoint setup respond).1).
Proof.
  unfold AIConnector.makeRequest. destruct setup as [error |].
  - split; [simpl; lia | constructor].
  - destruct (attempts_fetch_bound config (AIConnector.baseUrl config +:+ endpoint)
                respond (AIConnector.rounds config) 0 AIConnector.ThrownUndefined)
      as [Hlen Hall].
    split; [lia | exact Hall].
Qed.

(* ================================================================== *)
(** ** AIConnector: the cache *)

Section CacheFacts.
Import AIConnector.

Lemma elem_of_set {V} (m : JsMap.t V) (k k' : string) (v v' : V) :
  (k', v') ∈ JsMap.set m k v -> (k' = k /\ v' = v) \/ (k', v') ∈ m.
Proof.
  induction m as [| [k0 v0] m IH]; simpl.
  - intros Hin%list_elem_of_singleton. injection Hin as -> ->. by left.
  - destruct (decide (k0 = k)) as [-> | Hne].
    + rewrite !elem_of_cons. intros [[= -> ->] | Hin]; [by left | right; by right].
    + rewrite !elem_of_cons. intros [[= -> ->] | Hin]; [right; by left |].
      destruct (IH Hin) as [? | ?]; [by left | right; by right].
Qed.

Lemma entries_data (kind : string) (mode : ARMode) (stamp : nat -> string)
    (items : list Json) (ds : list Data) (entries : list AIRecommendation) :
  length items = length ds ->
  entriesOf kind mode stamp items ds = Some entries ->
  data <$> entries = ds.
Proof.
  unfold entriesOf. generalize 0%nat as start.
  revert items entries.
  induction ds as [| d ds IH]; intros items entries start Hlen Hentries.
  - simpl in Hentries. by injection Hentries as <-.
  - destruct items as [| item items]; [discriminate |].
    simpl in Hentries.
    destruct (entryOf kind mode stamp start (item, d)) as [entry |] eqn:Hentry;
      [| discriminate].
    simpl in Hentries.
    destruct (mapM _ (zip (seq (S start) (length ds)) (zip items ds)))
      as [rest |] eqn:Hrest; [| discriminate].
    injection Hentries as <-. simpl. f_equal.
    + unfold entryOf in Hentry. simpl in Hentry.
      destruct (confidenceOf item); [| discriminate].
      by injection Hentry as <-.
    + apply (IH items rest (S start)); [by injection Hlen | exact Hrest].
Qed.

Lemma recommended_data {R} (kind : string) (mode : ARMode)
    (convert : Json -> option R) (inject : R -> Data) (stamp : nat -> string)
    (response : Json) (recommendations : list R) (entries : list AIRecommendation) :
  recommended kind mode convert inject stamp response = Some (recommendations, entries) ->
  data <$> entries = inject <$> recommendations.
Proof.
  unfold recommended. intros Hrec.
  destruct (recommendationsOf response) as [items |]; [| discriminate].
  simpl in Hrec.
  destruct (mapM convert items) as [recs |] eqn:Hrecs; [| discriminate].
  simpl in Hrec.
  destruct (entriesOf kind mode stamp items (inject <$> recs)) as [es |] eqn:Hes;
    [| discriminate].
  injection Hrec as <- <-.
  apply (entries_data kind mode stamp items); [| exact Hes].
  rewrite length_fmap. by apply length_mapM in Hrecs.
Qed.

Lemma cached_store (key : string) (entries : list AIRecommendation) (stored now : Q)
    (c : t) :
  now < stored + cacheTTL ->
  cached key now (store key entries stored c) = Some (data <$> entries).
Proof.
  intros Hnow. unfold cached, isCacheValid, store. simpl.
  rewrite !JsMapFacts.get_set_eq.
  by replace (Qltb now (stored + cacheTTL)) with true by (symmetry; by apply Qltb_lt).
Qed.

Lemma cached_new (key : string) (now : Q) (config : APIConfig) :
  cached key now (mkConnector config JsMap.empty JsMap.empty) = None.
Proof. reflexivity. Qed.

Lemma frame_key_owned (artworkUrl : string) (roomContext : option string) :
  String.prefix "frame_" (frameCacheKey artworkUrl roomContext) = true
  /\ String.prefix "neon_" (frameCacheKey artworkUrl roomContext) = false.
Proof. split; [by destruct artworkUrl | reflexivity]. Qed.

Lemma neon_key_owned (context : string) (roomType moodPreference : option string) :
  String.prefix "neon_" (neonCacheKey context roomType moodPreference) = true
  /\ String.prefix "frame_" (neonCacheKey context roomType moodPreference) = false.
Proof. split; [by destruct context | reflexivity]. Qed.

Lemma store_sorted (key : string) (entries : list AIRecommendation) (now : Q) (c : t) :
  cacheSorted c ->
  Forall (fun entry => ownedBy key (data entry)) entries ->
  cacheSorted (store key entries now c).
Proof.
  intros Hsorted Hentries key' entries' Hin. simpl in Hin.
  apply elem_of_set in Hin as [[-> ->] | Hin]; [exact Hentries | by apply Hsorted].
Qed.

Lemma owned_of_data (key : string) (entries : list AIRecommendation) (ds : list Data) :
  data <$> entries = ds ->
  Forall (ownedBy key) ds ->
  Forall (fun entry => ownedBy key (data entry)) entries.
Proof. intros <- Hall. rewrite Forall_fmap in Hall. exact Hall. Qed.

Lemma getFrameRecommendations_sorted (artworkUrl : string)
    (roomContext : option string) (call : Call) (c : t) :
  cacheSorted c ->
  cacheSorted (getFrameRecommendations artworkUrl roomContext call c).1.1.
Proof.
  intros Hsorted. unfold getFrameRecommendations.
  destruct (cached _ _ c); [exact Hsorted |].
  destruct (request _ call c).2 as [response | error]; [| exact Hsorted].
  destruct (recommended _ _ _ _ _ response) as [[recs entries] |] eqn:Hrec;
    [| exact Hsorted].
  simpl. apply store_sorted; [exact Hsorted |].
  apply (owned_of_data _ _ _ (recommended_data _ _ _ _ _ _ _ _ Hrec)).
  apply Forall_fmap, Forall_forall. intros r _.
  apply (frame_key_owned artworkUrl roomContext).
Qed.

Lemma getNeonRecommendations_sorted (context : string)
    (roomType moodPreference : option string) (call : Call) (c : t) :
  cacheSorted c ->
  cacheSorted (getNeonRecommendations context roomType moodPreference call c).1.1.
Proof.
  intros Hsorted. unfold getNeonRecommendations.
  destruct (cached _ _ c); [exact Hsorted |].
  destruct (request _ call c).2 as [response | error]; [| exact Hsorted].
  destruct (recommended _ _ _ _ _ response) as [[recs entries] |] eqn:Hrec;
    [| exact Hsorted].
  simpl. apply store_sorted; [exact Hsorted |].
  apply (owned_of_data _ _ _ (recommended_data _ _ _ _ _ _ _ _ Hrec)).
  apply Forall_fmap, Forall_forall. intros r _.
  apply (neon_key_owned context roomType moodPreference).
Qed.

Lemma empty_sorted (config : APIConfig) :
  cacheSorted (mkConnector config JsMap.empty JsMap.empty).
Proof. intros key entries Hin. by apply elem_of_nil in Hin. Qed.

Lemma runOps_sorted (ops : list Op) (c : t) :
  cacheSorted c -> cacheSorted (runOps ops c).
Proof.
  revert c. induction ops as [| op ops IH]; intros c Hsorted; [exact Hsorted |].
  apply IH. destruct op; simpl.
  - by apply getFrameRecommendations_sorted.
  - by apply getNeonRecommendations_sorted.
  - apply empty_sorted.
  - apply empty_sorted.
Qed.

Lemma Forall_fmap_all {A B} (f : A -> B) (P : B -> Prop) (l : list A) :
  (forall x, P (f x)) -> Forall P (f <$> l).
Proof. intros Hall. induction l; constructor; auto. Qed.

Lemma cached_owned (key : string) (now : Q) (c : t) (ds : list Data) :
  cacheSorted c -> cached key now c = Some ds -> Forall (ownedBy key) ds.
Proof.
  intros Hsorted. unfold cached.
  destruct (isCacheValid key now c); [| discriminate].
  destruct (JsMap.get (cache c) key) as [entries |] eqn:Hget; [| discriminate].
  intros [= <-]. apply Forall_fmap.
  apply (Hsorted key). by apply JsMapFacts.get_Some_elem.
Qed.

End CacheFacts.

(** X27.  When a
    call is not served from the cache and the service answers with
    recommendations, a later call whose artwork URL and room context
    give the same cache key, made less than five minutes (300000 ms)
    after the answer was stored, resolves with the same recommendations
    without fetching anything and leaves the connector as it is,
    whatever its [userPreferences] are. *)
Theorem cached_recommendations_are_reused
    (artworkUrl artworkUrl' : string) (roomContext roomContext' : option string)
    (call call' : AIConnector.Call) (c : AIConnector.t)
    (response : AIConnector.Json)
    (recommendations : list AIConnector.FrameRecommendation)
    (entries : list AIConnector.AIRecommendation) :
  AIConnector.cached (AIConnector.frameCacheKey artworkUrl roomContext)
                     (AIConnector.nowChecked call) c = None ->
  (AIConnector.request "/frames/recommend" call c).2 = AIConnector.Resolved response ->
  AIConnector.recommended "frame" FRAME AIConnector.frameOf AIConnector.FrameOf
                          (AIConnector.stamp call) response
  = Some (recommendations, entries) ->
  AIConnector.frameCacheKey artworkUrl' roomContext'
  = AIConnector.frameCacheKey artworkUrl roomContext ->
  AIConnector.nowChecked call' < AIConnector.nowStored call + AIConnector.cacheTTL ->
  exists c1 events,
    AIConnector.getFrameRecommendations artworkUrl roomContext call c
    = (c1, events, AIConnector.FrameOf <$> recommendations)
    /\ AIConnector.getFrameRecommendations artworkUrl' roomContext' call' c1
       = (c1, [], AIConnector.FrameOf <$> recommendations).
Proof.
  intros Hmiss Hresolved Hrecommended Hkey Hfresh.
  eexists _, _. split.
  - unfold AIConnector.getFrameRecommendations.
    rewrite Hmiss, Hresolved, Hrecommended. reflexivity.
  - unfold AIConnector.getFrameRecommendations. rewrite Hkey.
    rewrite (cached_store _ _ _ _ _ Hfresh).
    by rewrite (recommended_data _ _ _ _ _ _ _ _ Hrecommended).
Qed.

Lemma cached_recommendations_are_reused_witness :
  exists c1 events,
    AIConnector.getFrameRecommendations "art.png" None answeredCall
      (AIConnector.new (AIConnector.mkPartialAPIConfig None None None None))
    = (c1, events,
       [AIConnector.FrameOf ornateFrame])
    /\ AIConnector.getFrameRecommendations "art.png" (Some "default") laterCall c1
       = (c1, [],
          [AIConnector.FrameOf ornateFrame]).
Proof.
  eapply (cached_recommendations_are_reused "art.png" "art.png" None (Some "default")
            answeredCall laterCall
            (AIConnector.new (AIConnector.mkPartialAPIConfig None None None None))
            oneFrameResponse [ornateFrame]).
  - reflexivity.
  - reflexivity.
  - reflexivity.
  - reflexivity.
  - reflexivity.
Defined.

(** X28.  In any connector reached from a new one by calls of its public
    methods, [getFrameRecommendations] resolves with frame
    recommendations only and [getNeonRecommendations] with neon
    recommendations only: the cache the two methods share never serves
    one the entries of the other, so the casts on a cache hit are safe. *)
Theorem recommendations_match_their_method
    (initial : AIConnector.PartialAPIConfig) (ops : list AIConnector.Op)
    (artworkUrl context : string) (roomContext roomType moodPreference : option string)
    (call : AIConnector.Call) :
  Forall (fun d => exists r, d = AIConnector.FrameOf r)
         (AIConnector.getFrameRecommendations artworkUrl roomContext call
            (AIConnector.runOps ops (AIConnector.new initial))).2
  /\ Forall (fun d => exists r, d = AIConnector.NeonOf r)
            (AIConnector.getNeonRecommendations context roomType moodPreference call
               (AIConnector.runOps ops (AIConnector.new initial))).2.
Proof.
  pose proof (runOps_sorted ops _ (empty_sorted (AIConnector.configOf initial)))
    as Hsorted.
  change (AIConnector.mkConnector (AIConnector.configOf initial) JsMap.empty JsMap.empty)
    with (AIConnector.new initial) in Hsorted.
  set (c := AIConnector.runOps ops (AIConnector.new initial)) in *.
  split.
  - unfold AIConnector.getFrameRecommendations.
    destruct (AIConnector.cached _ _ c) as [ds |] eqn:Hcached.
    + simpl. pose proof (cached_owned _ _ _ _ Hsorted Hcached) as Howned.
      eapply Forall_impl; [exact Howned |].
      intros [r | r] Hd; [by exists r |].
      simpl in Hd.
      destruct (frame_key_owned artworkUrl roomContext) as [_ Hno]. congruence.
    + destruct (AIConnector.request _ call c).2 as [response | error].
      * destruct (AIConnector.recommended _ _ _ _ _ response) as [[recs entries] |];
          cbn [snd]; apply Forall_fmap_all; intros r; by exists r.
      * cbn [snd]. apply Forall_fmap_all; intros r; by exists r.
  - unfold AIConnector.getNeonRecommendations.
    destruct (AIConnector.cached _ _ c) as [ds |] eqn:Hcached.
    + simpl. pose proof (cached_owned _ _ _ _ Hsorted Hcached) as Howned.
      eapply Forall_impl; [exact Howned |].
      intros [r | r] Hd; [| by exists r].
      simpl in Hd.
      destruct (neon_key_owned context roomType moodPreference) as [_ Hno]. congruence.
    + destruct (AIConnector.request _ call c).2 as [response | error].
      * destruct (AIConnector.recommended _ _ _ _ _ response) as [[recs entries] |];
          cbn [snd]; apply Forall_fmap_all; intros r; by exists r.
      * cbn [snd]. apply Forall_fmap_all; intros r; by exists r.
Qed.

(** A request that is allowed and whose set-up does not throw begins with
    a fetch from the configured base URL. *)
Lemma request_starts_with_fetch (endpoint : string) (call : AIConnector.Call)
    (c : AIConnector.t) :
  0 < AIConnector.maxRetries (AIConnector.config c) ->
  AIConnector.stringify call = None ->
  AIConnector.setup call = None ->
  exists rest,
    (AIConnector.request endpoint call c).1
    = AIConnector.Fetch (AIConnector.baseUrl (AIConnector.config c) +:+ endpoint)
        :: rest.
Proof.
  intros Hmax Hstringify Hsetup.
  unfold AIConnector.request, AIConnector.makeRequest.
  rewrite Hstringify, Hsetup. unfold AIConnector.rounds. rewrite attempts_S.
  replace (Qltb (inject_Z (Z.of_nat 0)) (AIConnector.maxRetries (AIConnector.config c)))
    with true by (symmetry; by apply Qltb_lt).
  destruct (AIConnector.attemptResult (AIConnector.respond call 0%nat))
    as [body | error]; [by eexists |].
  destruct (AIConnector.rethrown error); by eexists.
Qed.

(** [getFrameRecommendations] when nothing else runs while it waits is
    its two halves on one connector. *)
Lemma getFrameRecommendations_halves (artworkUrl : string)
    (roomContext : option string) (call : AIConnector.Call) (c : AIConnector.t) :
  AIConnector.getFrameRecommendations artworkUrl roomContext call c
  = match AIConnector.getFrameRecommendationsStart artworkUrl roomContext call c with
    | inl recommendations => (c, [], recommendations)
    | inr (cacheKey, requested) =>
        ((AIConnector.getFrameRecommendationsResume cacheKey requested.2 call c).1,
         requested.1,
         (AIConnector.getFrameRecommendationsResume cacheKey requested.2 call c).2)
    end.
Proof.
  unfold AIConnector.getFrameRecommendations, AIConnector.getFrameRecommendationsStart,
    AIConnector.getFrameRecommendationsResume.
  destruct (AIConnector.cached _ _ c); [done |].
  destruct (AIConnector.request _ call c).2 as [response | error]; [| done].
  by destruct (AIConnector.recommended _ _ _ _ _ response) as [[recs entries] |].
Qed.

(** X29.  [updateConfig] empties the cache for the calls that start
    after it, not for those in flight.  A call of
    [getFrameRecommendations] that starts in the connector as
    [updateConfig] left it is not served from the cache: it makes a
    request, and if requests are allowed at all ([maxRetries] above 0)
    and building the request does not throw, the request begins with a
    fetch from the new base URL.  A call that was waiting for its
    request when [updateConfig] ran stores its answer when it resumes;
    from then on, for five minutes, calls with the same cache key are
    served that answer from the cache, without a fetch. *)
Theorem updateConfig_and_calls_in_flight
    (newConfig : AIConnector.PartialAPIConfig) (c : AIConnector.t) (base : string)
    (artworkUrl : string) (roomContext : option string) (call : AIConnector.Call)
    (inFlightKey : string) (inFlight : AIConnector.Call) (response : AIConnector.Json)
    (recommendations : list AIConnector.FrameRecommendation)
    (entries : list AIConnector.AIRecommendation)
    (later : AIConnector.Call) :
  AIConnector.partialBaseUrl newConfig = Some base ->
  0 < AIConnector.maxRetries (AIConnector.config (AIConnector.updateConfig newConfig c)) ->
  AIConnector.stringify call = None ->
  AIConnector.setup call = None ->
  AIConnector.recommended "frame" FRAME AIConnector.frameOf AIConnector.FrameOf
                          (AIConnector.stamp inFlight) response
  = Some (recommendations, entries) ->
  AIConnector.frameCacheKey artworkUrl roomContext = inFlightKey ->
  AIConnector.nowChecked later < AIConnector.nowStored inFlight + AIConnector.cacheTTL ->
  (exists requested rest,
     AIConnector.getFrameRecommendationsStart artworkUrl roomContext call
       (AIConnector.updateConfig newConfig c)
     = inr (AIConnector.frameCacheKey artworkUrl roomContext, requested)
     /\ requested.1 = AIConnector.Fetch (base +:+ "/frames/recommend") :: rest)
  /\ let resumed :=
       (AIConnector.getFrameRecommendationsResume inFlightKey
          (AIConnector.Resolved response) inFlight
          (AIConnector.updateConfig newConfig c)).1 in
     AIConnector.getFrameRecommendationsStart artworkUrl roomContext later resumed
     = inl (AIConnector.FrameOf <$> recommendations)
     /\ AIConnector.getFrameRecommendations artworkUrl roomContext later resumed
        = (resumed, [], AIConnector.FrameOf <$> recommendations).
Proof.
  intros Hbase Hmax Hstringify Hsetup Hrecommended Hkey Hfresh.
  split.
  - destruct (request_starts_with_fetch "/frames/recommend" call
                (AIConnector.updateConfig newConfig c) Hmax Hstringify Hsetup)
      as [rest Hrest].
    exists (AIConnector.request "/frames/recommend" call
              (AIConnector.updateConfig newConfig c)), rest.
    split.
    + unfold AIConnector.getFrameRecommendationsStart.
      unfold AIConnector.updateConfig at 1, AIConnector.clearCache at 1.
      by rewrite cached_new.
    + rewrite Hrest. simpl. by rewrite Hbase.
  - intros resumed.
    assert (AIConnector.getFrameRecommendationsStart artworkUrl roomContext later resumed
            = inl (AIConnector.FrameOf <$> recommendations)) as Hstart.
    { subst resumed. unfold AIConnector.getFrameRecommendationsStart,
        AIConnector.getFrameRecommendationsResume.
      rewrite Hrecommended, Hkey. cbn [fst].
      rewrite (cached_store _ _ _ _ _ Hfresh).
      by rewrite (recommended_data _ _ _ _ _ _ _ _ Hrecommended). }
    split; [exact Hstart |].
    by rewrite getFrameRecommendations_halves, Hstart.
Qed.

Lemma updateConfig_and_calls_in_flight_witness :
  (exists requested rest,
     AIConnector.getFrameRecommendationsStart "art.png" None laterCall
       (AIConnector.updateConfig otherBase
          (AIConnector.new (AIConnector.mkPartialAPIConfig None None None None)))
     = inr ("frame_art.png_default", requested)
     /\ requested.1
        = AIConnector.Fetch "https://staging.framerly.com/frames/recommend" :: rest)
  /\ AIConnector.getFrameRecommendations "art.png" None laterCall
       (AIConnector.getFrameRecommendationsResume "frame_art.png_default"
          (AIConnector.Resolved oneFrameResponse) answeredCall
          (AIConnector.updateConfig otherBase
             (AIConnector.new (AIConnector.mkPartialAPIConfig None None None None)))).1
     = ((AIConnector.getFrameRecommendationsResume "frame_art.png_default"
           (AIConnector.Resolved oneFrameResponse) answeredCall
           (AIConnector.updateConfig otherBase
              (AIConnector.new (AIConnector.mkPartialAPIConfig None None None None)))).1,
        [], [AIConnector.FrameOf ornateFrame]).
Proof.
  destruct (updateConfig_and_calls_in_flight otherBase
              (AIConnector.new (AIConnector.mkPartialAPIConfig None None None None))
              "https://staging.framerly.com" "art.png" None laterCall
              "frame_art.png_default" answeredCall oneFrameResponse [ornateFrame]
              [ornateEntry] laterCall)
    as [Hstart [_ Hlater]].
  - reflexivity.
  - reflexivity.
  - reflexivity.
  - reflexivity.
  - reflexivity.
  - reflexivity.
  - reflexivity.
  - split; [exact Hstart | exact Hlater].
Defined.

(** X30.  A connector constructed with [maxRetries]
    zero or negative keeps that value (the default of 3 does not replace
    it) and never contacts the service: every call of a recommendation
    method on it resolves with the built-in fallback recommendations,
    fetches nothing and caches nothing. *)
Theorem no_retries_no_requests
    (initial : AIConnector.PartialAPIConfig) (q : Q)
    (artworkUrl context : string) (roomContext roomType moodPreference : option string)
    (call : AIConnector.Call) :
  AIConnector.partialMaxRetries initial = Some q ->
  q <= 0 ->
  AIConnector.getFrameRecommendations artworkUrl roomContext call
    (AIConnector.new initial)
  = (AIConnector.new initial, [],
     AIConnector.FrameOf <$> AIConnector.getFallbackFrameRecommendations)
  /\ AIConnector.getNeonRecommendations context roomType moodPreference call
       (AIConnector.new initial)
     = (AIConnector.new initial, [],
        AIConnector.NeonOf <$> AIConnector.getFallbackNeonRecommendations context).
Proof.
  intros Hinitial Hq.
  assert (forall endpoint,
            AIConnector.request endpoint call (AIConnector.new initial)
            = ([], AIConnector.Rejected
                     (default (default AIConnector.ThrownUndefined (AIConnector.setup call))
                              (AIConnector.stringify call)))) as Hrequest.
  { intros endpoint. unfold AIConnector.request, AIConnector.makeRequest.
    destruct (AIConnector.stringify call) as [error |]; [done |].
    destruct (AIConnector.setup call) as [error |]; [done |].
    unfold AIConnector.rounds. rewrite attempts_S.
    replace (Qltb _ _) with false; [done |].
    symmetry. apply Qltb_ge. simpl. by rewrite Hinitial. }
  split.
  - unfold AIConnector.getFrameRecommendations.
    unfold AIConnector.new at 1. rewrite cached_new. by rewrite Hrequest.
  - unfold AIConnector.getNeonRecommendations.
    unfold AIConnector.new at 1. rewrite cached_new. by rewrite Hrequest.
Qed.

Lemma no_retries_no_requests_witness :
  AIConnector.getFrameRecommendations "art.png" None answeredCall
    (AIConnector.new noRetries)
  = (AIConnector.new noRetries, [],
     AIConnector.FrameOf <$> AIConnector.getFallbackFrameRecommendations)
  /\ AIConnector.getNeonRecommendations "coffee bar" None None answeredCall
       (AIConnector.new noRetries)
     = (AIConnector.new noRetries, [],
        AIConnector.NeonOf <$> AIConnector.getFallbackNeonRecommendations "coffee bar").
Proof.
  apply (no_retries_no_requests noRetries 0 "art.png" "coffee bar" None None None
           answeredCall).
  - reflexivity.
  - by vm_compute.
Defined.
